(** * filecentipede-activator: the activation-code pipeline of [main.py]

    A shallow embedding of [src/main.py]: the code-window parser
    ([parse_html_content]), the date normaliser ([format_date],
    [convert_to_utc]), the cache payload ([create_json_object], [json.dumps],
    [json.loads]), the fetch and cache orchestration ([build_cached_data],
    [write_keys_to_file]) and the selection and delivery steps of [main].

    Conventions.
    - A Python [str] is a [string]; its characters are read as the code points
      below 256.  Texts with other code points are outside the model.
    - An operation that can raise returns a [result]; an effectful function
      also returns the trace of its observable effects (see [M]).
    - Library calls (str methods, [datetime], [_strptime], [json]) are modelled
      after CPython 3.11, the oldest version that has [datetime.UTC]. *)

From Stdlib Require Import String Ascii List ZArith Lia Bool.
Import ListNotations.
Open Scope string_scope.
Set Warnings "-register-all".

(** ** Python values that can be raised *)

Inductive exn : Type :=
| RequestException   (* requests.exceptions.RequestException and its subclasses *)
| ValueError         (* also json.JSONDecodeError, a subclass *)
| TypeError
| KeyError
| OverflowError
| OSError
| Unmodelled.        (* a library call on an input this model does not cover *)

Inductive result (A : Type) : Type :=
| Ok (a : A)
| Raise (e : exn).
Arguments Ok {A} a.
Arguments Raise {A} e.

Definition rbind {A B} (r : result A) (k : A -> result B) : result B :=
  match r with
  | Ok a => k a
  | Raise e => Raise e
  end.

Notation "x <- r ;; k" := (rbind r (fun x => k))
  (at level 61, r at next level, right associativity).

(** ** [str] methods *)

Module Str.

Definition newline : ascii := "010"%char.
Definition nl : string := String newline "".

(** [str.isspace] on one character: TAB..CR, FS..US, space, NEL, NBSP. *)
Definition isspace (c : ascii) : bool :=
  let n := N_of_ascii c in
  ((9 <=? n) && (n <=? 13) || (28 <=? n) && (n <=? 32) || (n =? 133) || (n =? 160))%N.

Fixpoint lstrip (s : string) : string :=
  match s with
  | "" => ""
  | String c r => if isspace c then lstrip r else s
  end.

Fixpoint rstrip (s : string) : string :=
  match s with
  | "" => ""
  | String c r =>
      match rstrip r with
      | "" => if isspace c then "" else String c ""
      | r' => String c r'
      end
  end.

(** [s.strip()] *)
Definition strip (s : string) : string := rstrip (lstrip s).

(** [sep in s] *)
Fixpoint contains (sep s : string) : bool :=
  prefix sep s ||
  match s with
  | "" => false
  | String _ r => contains sep r
  end.

(** [s.split(sep)] for a non-empty [sep]: the text is cut at each occurrence
    of [sep], found from left to right without overlap.  [skip] counts the
    characters of a matched separator that are still to be passed over; the
    pair is the piece being read and the pieces after it. *)
Fixpoint split_from (sep : string) (skip : nat) (s : string) : string * list string :=
  match s with
  | "" => ("", [])
  | String c r =>
      match skip with
      | S k => split_from sep k r
      | O =>
          if prefix sep s
          then ("", let (h, t) := split_from sep (String.length sep - 1) r in h :: t)
          else let (h, t) := split_from sep 0 r in (String c h, t)
      end
  end.

Definition split (sep s : string) : list string :=
  let (h, t) := split_from sep 0 s in h :: t.

(** Truth value of a [str]: only the empty one is false. *)
Definition truthy (s : string) : bool := negb (s =? "").

End Str.

(** ** The code-window parser *)

(** One element of the list [parse_html_content] returns: the dict
    [{"date_range": ..., "activation_code": ...}]. *)
Record entry : Type := mk_entry {
  date_range : string;
  activation_code : string
}.

(** The separator that marks a range line. *)
Definition range_sep : string := " - ".

(** The two variables the scan loop updates. *)
Record scan_state : Type := mk_scan {
  scan_result : list entry;
  current_date_range : option string
}.

(** One turn of the loop [for line in lines] (lines 113-122). *)
Definition scan_line (st : scan_state) (line : string) : scan_state :=
  let line := Str.strip line in
  if negb (Str.truthy line) then st
  else if Str.contains range_sep line then
    mk_scan (scan_result st) (Some line)
  else
    match current_date_range st with
    | Some r =>
        if Str.truthy r
        then mk_scan (scan_result st ++ [mk_entry r line]) None
        else st
    | None => st
    end.

(** Lines 110-124: the loop from [result = []], [current_date_range = None]. *)
Definition parse_lines (lines : list string) : list entry :=
  scan_result (fold_left scan_line lines (mk_scan [] None)).

(** Lines 108-124, from the text of the block. *)
Definition parse_block (text : string) : list entry :=
  parse_lines (Str.split Str.nl (Str.strip text)).

(** The lines the scan looks at: trimmed, blank ones left out. *)
Definition nonblank_lines (lines : list string) : list string :=
  filter Str.truthy (map Str.strip lines).

Section Parser.

(** [BeautifulSoup(html, "html.parser").find("pre", {"id": "codes"})], as the
    text of the element found, [None] when the page has no such element. *)
Variable soup_find_pre_codes : string -> option string.

Definition parse_html_content (html_content : string) : list entry :=
  match soup_find_pre_codes html_content with
  | None => []
  | Some text => parse_block text
  end.

End Parser.

(** The two-state scan as the specification words it, over the trimmed
    non-blank lines: a line without the separator is ignored while no range is
    pending; a range line followed by a code line gives one entry; a range
    line followed by another range line is dropped; a range line at the end of
    the input gives nothing. *)
Inductive Scan : list string -> list entry -> Prop :=
| Scan_end : Scan [] []
| Scan_ignore l ls es :
    Str.contains range_sep l = false ->
    Scan ls es ->
    Scan (l :: ls) es
| Scan_pair r c ls es :
    Str.contains range_sep r = true ->
    Str.contains range_sep c = false ->
    Scan ls es ->
    Scan (r :: c :: ls) (mk_entry r c :: es)
| Scan_replace r r' ls es :
    Str.contains range_sep r = true ->
    Str.contains range_sep r' = true ->
    Scan (r' :: ls) es ->
    Scan (r :: r' :: ls) es
| Scan_trailing r :
    Str.contains range_sep r = true ->
    Scan [r] [].

(** What the loop has still to deliver from state [cur] on the lines [ls]:
    with a pending range the scan goes on as if the range line came first. *)
Definition pending (cur : option string) (ls : list string) : list string :=
  match cur with
  | Some r => r :: ls
  | None => ls
  end.

Definition pending_ok (cur : option string) : Prop :=
  match cur with
  | Some r => Str.contains range_sep r = true
  | None => True
  end.

(** The invariant of the entries the loop appends. *)
Definition entry_ok (e : entry) : Prop :=
  Str.contains range_sep (date_range e) = true /\
  Str.truthy (activation_code e) = true /\
  Str.strip (activation_code e) = activation_code e /\
  Str.contains range_sep (activation_code e) = false.

(** ** [datetime]: calendar arithmetic (CPython's [_datetimemodule.c]) *)

Local Open Scope Z_scope.

(** A [datetime] value, without its [tzinfo]; what the time zone of a value
    is follows from where it is used. *)
Record datetime : Type := mk_datetime {
  year : Z;
  month : Z;
  day : Z;
  hour : Z;
  minute : Z;
  second : Z;
  microsecond : Z
}.

Record timedelta : Type := mk_timedelta {
  td_days : Z;
  td_seconds : Z;
  td_microseconds : Z
}.

Definition MINYEAR : Z := 1.
Definition MAXYEAR : Z := 9999.
Definition MAXORDINAL : Z := 3652059.

Definition is_leap (y : Z) : bool :=
  (y mod 4 =? 0) && (negb (y mod 100 =? 0) || (y mod 400 =? 0)).

(** The tables [_days_in_month] and [_days_before_month]. *)
Definition days_in_month_table (m : Z) : Z :=
  match m with
  | 1 => 31 | 2 => 28 | 3 => 31 | 4 => 30 | 5 => 31 | 6 => 30
  | 7 => 31 | 8 => 31 | 9 => 30 | 10 => 31 | 11 => 30 | 12 => 31
  | _ => 0
  end.

Definition days_before_month_table (m : Z) : Z :=
  match m with
  | 1 => 0 | 2 => 31 | 3 => 59 | 4 => 90 | 5 => 120 | 6 => 151
  | 7 => 181 | 8 => 212 | 9 => 243 | 10 => 273 | 11 => 304 | 12 => 334
  | _ => 0
  end.

Definition days_in_month (y m : Z) : Z :=
  if (m =? 2) && is_leap y then 29 else days_in_month_table m.

Definition days_before_month (y m : Z) : Z :=
  days_before_month_table m + (if (m >? 2) && is_leap y then 1 else 0).

(** [year >= 1] wherever this is called, so C's division is the floor. *)
Definition days_before_year (y : Z) : Z :=
  let y := y - 1 in y * 365 + y / 4 - y / 100 + y / 400.

Definition ymd_to_ord (y m d : Z) : Z :=
  days_before_year y + days_before_month y m + d.

Definition DI4Y : Z := 1461.
Definition DI100Y : Z := 36524.
Definition DI400Y : Z := 146097.

Definition ord_to_ymd (ordinal : Z) : Z * Z * Z :=
  let n := ordinal - 1 in
  let n400 := n / DI400Y in
  let n := n mod DI400Y in
  let n100 := n / DI100Y in
  let n := n mod DI100Y in
  let n4 := n / DI4Y in
  let n := n mod DI4Y in
  let n1 := n / 365 in
  let n := n mod 365 in
  let y := n400 * 400 + 1 + (n100 * 100 + n4 * 4 + n1) in
  if (n1 =? 4) || (n100 =? 4) then (y - 1, 12, 31)
  else
    let leapyear := (n1 =? 3) && (negb (n4 =? 24) || (n100 =? 3)) in
    let m := Z.shiftr (n + 50) 5 in
    let preceding :=
      days_before_month_table m + (if (m >? 2) && leapyear then 1 else 0) in
    if preceding >? n
    then (y, m - 1, n - (preceding - days_in_month y (m - 1)) + 1)
    else (y, m, n - preceding + 1).

(** [normalize_pair(hi, lo, factor)]: carry [lo] into [hi]. *)
Definition normalize_pair (hi lo factor : Z) : Z * Z :=
  if (lo <? 0) || (lo >=? factor)
  then (hi + lo / factor, lo mod factor)
  else (hi, lo).

(** [normalize_y_m_d]: the month is in 1..12, only the day can be out of
    range. *)
Definition normalize_y_m_d (y m d : Z) : result (Z * Z * Z) :=
  let in_range (ymd : Z * Z * Z) : result (Z * Z * Z) :=
    let '(y, _, _) := ymd in
    if (MINYEAR <=? y) && (y <=? MAXYEAR) then Ok ymd else Raise OverflowError in
  let dim := days_in_month y m in
  if (d <? 1) || (d >? dim) then
    if d =? 0 then
      if m - 1 >? 0
      then in_range (y, m - 1, days_in_month y (m - 1))
      else in_range (y - 1, 12, 31)
    else if d =? dim + 1 then
      if m + 1 >? 12
      then in_range (y + 1, 1, 1)
      else in_range (y, m + 1, 1)
    else
      let ordinal := ymd_to_ord y m 1 + d - 1 in
      if (ordinal <? 1) || (ordinal >? MAXORDINAL)
      then Raise OverflowError
      else Ok (ord_to_ymd ordinal)
  else in_range (y, m, d).

(** [add_datetime_timedelta(date, delta, factor)], [factor] being 1 or -1. *)
Definition add_datetime_timedelta (date : datetime) (delta : timedelta) (factor : Z)
  : result datetime :=
  let d := day date + td_days delta * factor in
  let s := second date + td_seconds delta * factor in
  let us := microsecond date + td_microseconds delta * factor in
  let '(s, us) := normalize_pair s us 1000000 in
  let '(mi, s) := normalize_pair (minute date) s 60 in
  let '(h, mi) := normalize_pair (hour date) mi 60 in
  let '(d, h) := normalize_pair d h 24 in
  ymd <- normalize_y_m_d (year date) (month date) d;;
  let '(y, m, d) := ymd in
  Ok (mk_datetime y m d h mi s us).

(** [check_date_args] and [check_time_args]: what the constructor accepts. *)
Definition check_date_args (y m d : Z) : bool :=
  (MINYEAR <=? y) && (y <=? MAXYEAR) && (1 <=? m) && (m <=? 12) &&
  (1 <=? d) && (d <=? days_in_month y m).

Definition check_time_args (h mi s us : Z) : bool :=
  (0 <=? h) && (h <=? 23) && (0 <=? mi) && (mi <=? 59) &&
  (0 <=? s) && (s <=? 59) && (0 <=? us) && (us <=? 999999).

Definition datetime_ok (dt : datetime) : bool :=
  check_date_args (year dt) (month dt) (day dt) &&
  check_time_args (hour dt) (minute dt) (second dt) (microsecond dt).

(** [datetime(y, m, d, h, mi, s, us)] *)
Definition new_datetime (y m d h mi s us : Z) : result datetime :=
  if check_date_args y m d && check_time_args h mi s us
  then Ok (mk_datetime y m d h mi s us)
  else Raise ValueError.

(** Comparison of two values with the same [tzinfo] object: the fields, most
    significant first ([datetime_richcompare] compares the packed bytes). *)
Definition datetime_fields (dt : datetime) : list Z :=
  [year dt; month dt; day dt; hour dt; minute dt; second dt; microsecond dt].

Fixpoint lex_compare (a b : list Z) : comparison :=
  match a, b with
  | x :: a', y :: b' =>
      match x ?= y with
      | Eq => lex_compare a' b'
      | c => c
      end
  | [], [] => Eq
  | [], _ :: _ => Lt
  | _ :: _, [] => Gt
  end.

Definition datetime_compare (a b : datetime) : comparison :=
  lex_compare (datetime_fields a) (datetime_fields b).

(** [a <= b] and [a >= b] *)
Definition datetime_le (a b : datetime) : bool :=
  match datetime_compare a b with Gt => false | _ => true end.

Definition datetime_ge (a b : datetime) : bool := datetime_le b a.

(** The position of a value on the time line of its zone, in microseconds
    since the start of day 1 (0001-01-01T00:00:00). *)
Definition to_microseconds (dt : datetime) : Z :=
  ((((ymd_to_ord (year dt) (month dt) (day dt) - 1) * 24 + hour dt) * 60
    + minute dt) * 60 + second dt) * 1000000 + microsecond dt.

Local Close Scope Z_scope.

(** ** Decimal text *)

Definition digit_char (d : Z) : ascii := ascii_of_N (48 + Z.to_N d).

Definition is_digit (c : ascii) : bool :=
  ((48 <=? N_of_ascii c) && (N_of_ascii c <=? 57))%N.

Definition digit_value (c : ascii) : Z := Z.of_N (N_of_ascii c) - 48.

(** ["%0wd" % n] for [0 <= n < 10^w]: the [w] decimal digits of [n]. *)
Fixpoint zpad (w : nat) (n : Z) : string :=
  match w with
  | O => ""
  | S w' => zpad w' (n / 10) ++ String (digit_char (n mod 10)) ""
  end.

Fixpoint decimal (acc : Z) (s : string) : result Z :=
  match s with
  | "" => Ok acc
  | String c r =>
      if is_digit c then decimal (acc * 10 + digit_value c) r else Raise ValueError
  end.

(** [int(s)] on a text of decimal digits with blanks around it (signs and
    underscores, which [int] also reads, do not occur where it is used). *)
Definition py_int (s : string) : result Z :=
  let t := Str.strip s in
  if Str.truthy t then decimal 0 t else Raise ValueError.

(** [parse_digits(ptr, &var, num_digits)] of [_datetimemodule.c] *)
Fixpoint parse_digits (k : nat) (acc : Z) (s : string) : option (Z * string) :=
  match k with
  | O => Some (acc, s)
  | S k' =>
      match s with
      | String c r =>
          if is_digit c then parse_digits k' (acc * 10 + digit_value c) r else None
      | "" => None
      end
  end.

(** ** [datetime.isoformat] and [datetime.fromisoformat] *)

Definition isoformat (dt : datetime) : string :=
  zpad 4 (year dt) ++ "-" ++ zpad 2 (month dt) ++ "-" ++ zpad 2 (day dt) ++ "T" ++
  zpad 2 (hour dt) ++ ":" ++ zpad 2 (minute dt) ++ ":" ++ zpad 2 (second dt) ++
  (if (microsecond dt =? 0)%Z then "" else "." ++ zpad 6 (microsecond dt)).

Definition expect (c : ascii) (s : string) : option string :=
  match s with
  | String c' r => if (c =? c')%char then Some r else None
  | "" => None
  end.

Definition obind {A B} (o : option A) (k : A -> option B) : option B :=
  match o with
  | Some a => k a
  | None => None
  end.

(** The fields of a text of the shape [YYYY-MM-DD?HH:MM:SS], [?] being any one
    character. *)
Definition iso_fields (s : string) : option (Z * Z * Z * Z * Z * Z) :=
  obind (parse_digits 4 0 s) (fun '(y, s) =>
  obind (expect "-" s) (fun s =>
  obind (parse_digits 2 0 s) (fun '(m, s) =>
  obind (expect "-" s) (fun s =>
  obind (parse_digits 2 0 s) (fun '(d, s) =>
  match s with
  | String _ s =>
      obind (parse_digits 2 0 s) (fun '(h, s) =>
      obind (expect ":" s) (fun s =>
      obind (parse_digits 2 0 s) (fun '(mi, s) =>
      obind (expect ":" s) (fun s =>
      obind (parse_digits 2 0 s) (fun '(sec, s) =>
      match s with
      | "" => Some (y, m, d, h, mi, sec)
      | _ => None
      end)))))
  | "" => None
  end))))).

(** [datetime.fromisoformat] on the texts [isoformat] gives for a value
    without microseconds, [YYYY-MM-DD?HH:MM:SS].  Python 3.11 reads more
    shapes (a date alone, the basic format, fractions, offsets); they do not
    occur here and are not modelled. *)
Definition fromisoformat (date_string : string) : result datetime :=
  match iso_fields date_string with
  | Some (y, m, d, h, mi, s) => new_datetime y m d h mi s 0
  | None => Raise Unmodelled
  end.

(** ** [datetime.strptime] ([_strptime.py]) *)

(** The regular expressions [TimeRE] builds for a format need only this
    much: a named group of alternatives, each a sequence of one-character
    classes; a literal character; a run of blanks [\s+]. *)
Inductive charset : Type :=
| AnyDigit                      (* \d *)
| Between (lo hi : ascii)       (* [lo-hi] *)
| Exactly (c : ascii).

Definition charset_has (cs : charset) (c : ascii) : bool :=
  match cs with
  | AnyDigit => is_digit c
  | Between lo hi => ((N_of_ascii lo <=? N_of_ascii c) && (N_of_ascii c <=? N_of_ascii hi))%N
  | Exactly c' => (c' =? c)%char
  end.

Inductive piece : Type :=
| Group (name : ascii) (alts : list (list charset))
| Literal (c : ascii)
| Spaces.

(** The directives of [TimeRE.__init__] that the program's format uses. *)
Definition directive (d : ascii) : option (list (list charset)) :=
  match d with
  | "Y"%char => Some [[AnyDigit; AnyDigit; AnyDigit; AnyDigit]]
  | "m"%char => Some [[Exactly "1"; Between "0" "2"]; [Exactly "0"; Between "1" "9"];
                      [Between "1" "9"]]
  | "d"%char => Some [[Exactly "3"; Between "0" "1"]; [Between "1" "2"; AnyDigit];
                      [Exactly "0"; Between "1" "9"]; [Between "1" "9"];
                      [Exactly " "; Between "1" "9"]]
  | "H"%char => Some [[Exactly "2"; Between "0" "3"]; [Between "0" "1"; AnyDigit];
                      [AnyDigit]]
  | "M"%char => Some [[Between "0" "5"; AnyDigit]; [AnyDigit]]
  | "S"%char => Some [[Exactly "6"; Between "0" "1"]; [Between "0" "5"; AnyDigit];
                      [AnyDigit]]
  | _ => None
  end.

Definition starts_blank (s : string) : bool :=
  match s with
  | String c _ => Str.isspace c
  | "" => false
  end.

(** [TimeRE.pattern(format)]: a run of blanks becomes [\s+], a directive its
    group, any other character itself.  [None]: a directive outside the table
    above. *)
Fixpoint pattern (format : string) : option (list piece) :=
  match format with
  | "" => Some []
  | String c r =>
      if (c =? "%")%char then
        match r with
        | String d r' =>
            match directive d, pattern r' with
            | Some alts, Some p => Some (Group d alts :: p)
            | _, _ => None
            end
        | "" => None
        end
      else if Str.isspace c then
        if starts_blank r then pattern r else option_map (cons Spaces) (pattern r)
      else option_map (cons (Literal c)) (pattern r)
  end.

(** One alternative against the head of [s]: the text it takes and the rest. *)
Fixpoint match_alt (alt : list charset) (s : string) : option (string * string) :=
  match alt with
  | [] => Some ("", s)
  | cs :: alt' =>
      match s with
      | String c r =>
          if charset_has cs c
          then option_map (fun '(t, rest) => (String c t, rest)) (match_alt alt' r)
          else None
      | "" => None
      end
  end.

(** [re.match]: the first match in the order a backtracking matcher tries
    them (alternatives from left to right, [\s+] longest first), with the
    text of each group and the unread rest. *)
Fixpoint re_match (p : list piece) (s : string) : option (list (ascii * string) * string) :=
  match p with
  | [] => Some ([], s)
  | Group name alts :: p' =>
      (fix try (alts : list (list charset)) :=
         match alts with
         | [] => None
         | alt :: more =>
             match match_alt alt s with
             | Some (t, rest) =>
                 match re_match p' rest with
                 | Some (caps, r) => Some ((name, t) :: caps, r)
                 | None => try more
                 end
             | None => try more
             end
         end) alts
  | Literal c :: p' =>
      match s with
      | String c' r => if (c =? c')%char then re_match p' r else None
      | "" => None
      end
  | Spaces :: p' =>
      (fix blanks (s : string) :=
         match s with
         | String c r =>
             if Str.isspace c
             then match blanks r with
                  | Some x => Some x
                  | None => re_match p' r
                  end
             else None
         | "" => None
         end) s
  end.

Fixpoint found (name : ascii) (caps : list (ascii * string)) : option string :=
  match caps with
  | [] => None
  | (n, t) :: caps' => if (n =? name)%char then Some t else found name caps'
  end.

(** A field of the result: [int] of the group's text, or the default. *)
Definition field (name : ascii) (default : Z) (caps : list (ascii * string)) : result Z :=
  match found name caps with
  | Some t => py_int t
  | None => Ok default
  end.

(** [datetime.strptime(data_string, format)] *)
Definition strptime (data_string format : string) : result datetime :=
  match pattern format with
  | None => Raise Unmodelled
  | Some p =>
      match re_match p data_string with
      | None => Raise ValueError          (* does not match format *)
      | Some (caps, rest) =>
          if Str.truthy rest then Raise ValueError   (* unconverted data remains *)
          else
            y <- field "Y" 1900 caps;;
            m <- field "m" 1 caps;;
            d <- field "d" 1 caps;;
            h <- field "H" 0 caps;;
            mi <- field "M" 0 caps;;
            s <- field "S" 0 caps;;
            new_datetime y m d h mi s 0
      end
  end.

(** ** The date normaliser *)

(** The format of line 137. *)
Definition DATE_FORMAT : string := "%Y-%m-%d %H:%M:%S".

(** Lines 127-137. *)
Definition format_date (date_str : string) : result string :=
  dt <- strptime date_str DATE_FORMAT;;
  Ok (isoformat dt).

(** A value with [tzinfo = timezone(utcoffset)]. *)
Record aware : Type := mk_aware {
  local_time : datetime;
  utcoffset : timedelta
}.

(** [timedelta(hours=h)] for [0 <= h < 24] *)
Definition timedelta_hours (h : Z) : timedelta := mk_timedelta 0 (h * 3600) 0.

(** [self.astimezone(timezone.utc)] for a value of another zone:
    [self - offset], then [timezone.utc.fromutc], which adds [timedelta(0)]. *)
Definition astimezone_utc (self : aware) : result datetime :=
  utc <- add_datetime_timedelta (local_time self) (utcoffset self) (-1);;
  add_datetime_timedelta utc (mk_timedelta 0 0 0) 1.

(** Lines 140-154.  The value returned has [tzinfo = timezone.utc]. *)
Definition convert_to_utc (date_string : string) : result datetime :=
  dt <- fromisoformat date_string;;
  let date_obj := mk_aware dt (timedelta_hours 8) in
  astimezone_utc date_obj.

(** ** Python values of the cache: [str], [list], [dict] *)

Inductive value : Type :=
| VStr (s : string)
| VList (l : list value)
| VDict (d : list (string * value)).

(** A [dict] keeps its keys in insertion order; setting a key that is there
    replaces its value in place. *)
Fixpoint dict_set (k : string) (v : value) (d : list (string * value))
  : list (string * value) :=
  match d with
  | [] => [(k, v)]
  | (k', v') :: d' => if k' =? k then (k, v) :: d' else (k', v') :: dict_set k v d'
  end.

Fixpoint dict_get (k : string) (d : list (string * value)) : option value :=
  match d with
  | [] => None
  | (k', v) :: d' => if k' =? k then Some v else dict_get k d'
  end.

(** [dict(pairs)] *)
Definition dict_of_pairs (pairs : list (string * value)) : list (string * value) :=
  fold_left (fun d kv => dict_set (fst kv) (snd kv) d) pairs [].

(** [v[key]] for a [str] key *)
Definition getitem (v : value) (key : string) : result value :=
  match v with
  | VDict d =>
      match dict_get key d with
      | Some x => Ok x
      | None => Raise KeyError
      end
  | _ => Raise TypeError
  end.

Fixpoint chars (s : string) : list value :=
  match s with
  | "" => []
  | String c r => VStr (String c "") :: chars r
  end.

(** What [for item in v] runs through; [None] is not iterable. *)
Definition py_iter (v : option value) : result (list value) :=
  match v with
  | None => Raise TypeError
  | Some (VList l) => Ok l
  | Some (VDict d) => Ok (map (fun kv => VStr (fst kv)) d)
  | Some (VStr s) => Ok (chars s)
  end.

(** Truth value: [None] and the empty [str], [list] and [dict] are false. *)
Definition value_truthy (v : option value) : bool :=
  match v with
  | None => false
  | Some (VStr s) => Str.truthy s
  | Some (VList l) => match l with [] => false | _ => true end
  | Some (VDict d) => match d with [] => false | _ => true end
  end.

(** ** [json.dumps(obj, indent=2)] *)

Definition hex_char (n : N) : ascii :=
  if (n <? 10)%N then ascii_of_N (48 + n) else ascii_of_N (87 + n).

Definition quote : ascii := "034"%char.
Definition backslash : ascii := "092"%char.

(** [ESCAPE_DCT] and the [\uXXXX] fallback of [encode_basestring_ascii]. *)
Definition escape_char (c : ascii) : string :=
  let n := N_of_ascii c in
  if (n =? 34)%N then String backslash (String quote "")
  else if (n =? 92)%N then String backslash (String backslash "")
  else if (n =? 10)%N then String backslash "n"
  else if (n =? 13)%N then String backslash "r"
  else if (n =? 9)%N then String backslash "t"
  else if (n =? 12)%N then String backslash "f"
  else if (n =? 8)%N then String backslash "b"
  else if ((32 <=? n) && (n <=? 126))%N then String c ""
  else String backslash
         (String "u" (String "0" (String "0"
            (String (hex_char (n / 16)) (String (hex_char (n mod 16)) ""))))).

Fixpoint escape (s : string) : string :=
  match s with
  | "" => ""
  | String c r => escape_char c ++ escape r
  end.

Definition encode_basestring_ascii (s : string) : string :=
  String quote (escape s ++ String quote "").

Fixpoint spaces (n : nat) : string :=
  match n with
  | O => ""
  | S n' => String " " (spaces n')
  end.

(** [newline_indent] at a nesting level, for [indent=2]. *)
Definition newline_indent (level : nat) : string := Str.nl ++ spaces (2 * level).

(** [_iterencode] with [indent=2], [ensure_ascii=True] and the separators
    ["," , ": "], joined. *)
Fixpoint iterencode (level : nat) (v : value) : string :=
  match v with
  | VStr s => encode_basestring_ascii s
  | VList [] => "[]"
  | VList l =>
      "[" ++ newline_indent (S level) ++
      String.concat ("," ++ newline_indent (S level)) (map (iterencode (S level)) l) ++
      newline_indent level ++ "]"
  | VDict [] => "{}"
  | VDict d =>
      "{" ++ newline_indent (S level) ++
      String.concat ("," ++ newline_indent (S level))
        (map (fun kv => let '(k, x) := kv in
                        encode_basestring_ascii k ++ ": " ++ iterencode (S level) x) d) ++
      newline_indent level ++ "}"
  end.

Definition json_dumps_indent2 (obj : value) : string := iterencode 0 obj.

(** ** [json.loads] *)

Definition is_json_ws (c : ascii) : bool :=
  let n := N_of_ascii c in
  ((n =? 32) || (n =? 9) || (n =? 10) || (n =? 13))%N.

Fixpoint skip_ws (s : string) : string :=
  match s with
  | "" => ""
  | String c r => if is_json_ws c then skip_ws r else s
  end.

Definition hex_value (c : ascii) : option N :=
  let n := N_of_ascii c in
  if ((48 <=? n) && (n <=? 57))%N then Some (n - 48)%N
  else if ((97 <=? n) && (n <=? 102))%N then Some (n - 87)%N
  else if ((65 <=? n) && (n <=? 70))%N then Some (n - 55)%N
  else None.

(** The [BACKSLASH] table of the decoder. *)
Definition unescape (c : ascii) : option ascii :=
  match c with
  | "034"%char => Some quote
  | "092"%char => Some backslash
  | "/"%char => Some "/"%char
  | "b"%char => Some "008"%char
  | "f"%char => Some "012"%char
  | "n"%char => Some "010"%char
  | "r"%char => Some "013"%char
  | "t"%char => Some "009"%char
  | _ => None
  end.

(** [scanstring], from the character after the opening quote, in strict
    mode: the text read and the rest after the closing quote.  A [\uXXXX]
    escape of a code point from 256 on is outside the model. *)
Fixpoint scanstring (s : string) : result (string * string) :=
  match s with
  | "" => Raise ValueError
  | String c r =>
      if (c =? quote)%char then Ok ("", r)
      else if (c =? backslash)%char then
        match r with
        | "" => Raise ValueError
        | String e r1 =>
            if (e =? "u")%char then
              match r1 with
              | String h1 (String h2 (String h3 (String h4 r2))) =>
                  match hex_value h1, hex_value h2, hex_value h3, hex_value h4 with
                  | Some a, Some b, Some c, Some d =>
                      let uni := (((a * 16 + b) * 16 + c) * 16 + d)%N in
                      if (uni <? 256)%N
                      then tr <- scanstring r2;;
                           Ok (String (ascii_of_N uni) (fst tr), snd tr)
                      else Raise Unmodelled
                  | _, _, _, _ => Raise ValueError
                  end
              | _ => Raise ValueError
              end
            else
              match unescape e with
              | Some ch => tr <- scanstring r1;; Ok (String ch (fst tr), snd tr)
              | None => Raise ValueError
              end
        end
      else if (N_of_ascii c <? 32)%N then Raise ValueError
      else tr <- scanstring r;; Ok (String c (fst tr), snd tr)
  end.

(** The first character of a JSON number or literal: values of these kinds
    are outside the model. *)
Definition starts_scalar (c : ascii) : bool :=
  is_digit c ||
  existsb (Ascii.eqb c) ["-"; "t"; "f"; "n"; "N"; "I"]%char.

(** [scan_once], [JSONArray] and [JSONObject].  [fuel] bounds the depth of
    the calls.  A call passes its fuel less one on, and between two calls on
    the same text a character is read, so twice the length of the text,
    which [json_loads] gives, is never used up. *)
Fixpoint scan_once (fuel : nat) (s : string) : result (value * string) :=
  match fuel with
  | O => Raise Unmodelled
  | S fuel =>
      match s with
      | "" => Raise ValueError
      | String c r =>
          if (c =? quote)%char then
            tr <- scanstring r;; Ok (VStr (fst tr), snd tr)
          else if (c =? "[")%char then
            match skip_ws r with
            | String "]" r' => Ok (VList [], r')
            | r' => vr <- json_array fuel r';; Ok (VList (fst vr), snd vr)
            end
          else if (c =? "{")%char then
            match skip_ws r with
            | String "}" r' => Ok (VDict [], r')
            | String "034" r' =>
                pr <- json_object fuel r';; Ok (VDict (dict_of_pairs (fst pr)), snd pr)
            | _ => Raise ValueError
            end
          else if starts_scalar c then Raise Unmodelled
          else Raise ValueError
      end
  end
with json_array (fuel : nat) (s : string) : result (list value * string) :=
  match fuel with
  | O => Raise Unmodelled
  | S fuel =>
      vr <- scan_once fuel s;;
      match skip_ws (snd vr) with
      | String "]" r => Ok ([fst vr], r)
      | String "," r =>
          vsr <- json_array fuel (skip_ws r);; Ok (fst vr :: fst vsr, snd vsr)
      | _ => Raise ValueError
      end
  end
with json_object (fuel : nat) (s : string) : result (list (string * value) * string) :=
  match fuel with
  | O => Raise Unmodelled
  | S fuel =>
      kr <- scanstring s;;
      match skip_ws (snd kr) with
      | String ":" r =>
          vr <- scan_once fuel (skip_ws r);;
          match skip_ws (snd vr) with
          | String "}" r' => Ok ([(fst kr, fst vr)], r')
          | String "," r' =>
              match skip_ws r' with
              | String "034" r'' =>
                  pr <- json_object fuel r'';;
                  Ok ((fst kr, fst vr) :: fst pr, snd pr)
              | _ => Raise ValueError
              end
          | _ => Raise ValueError
          end
      | _ => Raise ValueError
      end
  end.

(** [json.loads(s)] *)
Definition json_loads (s : string) : result value :=
  vr <- scan_once (S (2 * String.length s)) (skip_ws s);;
  if Str.truthy (skip_ws (snd vr)) then Raise ValueError   (* extra data *)
  else Ok (fst vr).

(** ** The cache payload *)

(** One element of [formatted_data]: the dict with the keys [start_date],
    [end_date] and [activation_code], in this order. *)
Record cache_item : Type := mk_cache_item {
  start_date : string;
  end_date : string;
  item_code : string
}.

Definition item_value (it : cache_item) : value :=
  VDict [("start_date", VStr (start_date it));
         ("end_date", VStr (end_date it));
         ("activation_code", VStr (item_code it))].

(** [start_date, end_date = item["date_range"].split(" - ")]: unpacking
    raises [ValueError] unless there are exactly two pieces. *)
Definition unpack2 (pieces : list string) : result (string * string) :=
  match pieces with
  | [a; b] => Ok (a, b)
  | _ => Raise ValueError
  end.

(** The body of the loop of lines 168-176. *)
Definition format_entry (item : entry) : result cache_item :=
  halves <- unpack2 (Str.split range_sep (date_range item));;
  s <- format_date (fst halves);;
  e <- format_date (snd halves);;
  Ok (mk_cache_item s e (activation_code item)).

(** Lines 167-176: [formatted_data]. *)
Fixpoint format_entries (parsed_data : list entry) : result (list cache_item) :=
  match parsed_data with
  | [] => Ok []
  | item :: rest =>
      it <- format_entry item;;
      its <- format_entries rest;;
      Ok (it :: its)
  end.

(** Lines 157-177. *)
Definition create_json_object (parsed_data : list entry) : result string :=
  formatted_data <- format_entries parsed_data;;
  Ok (json_dumps_indent2 (VList (map item_value formatted_data))).

(** ** Effects *)

Inductive alert : Type :=
| AlertConnectFailed     (* "Failed to connect to the server. ..." *)
| AlertWriteFailed       (* "Failed to write keys to file. ..." *)
| AlertNoValidCode       (* "No valid activation code found. ..." *)
| AlertNotRunning        (* "FileCxx is not running. ..." *)
| AlertWindowNotFound    (* "Open FileCxx Activation window and try again." *)
| AlertCopied.           (* the closing message of manual delivery *)

Inductive log_record : Type :=
| LogConnectFailed       (* logging.exception, line 198 *)
| LogWriteFailed         (* logging.exception, line 221 *)
| LogProcessError        (* logging.exception, line 74 *)
| LogNotRunning          (* logging.error, line 240 *)
| LogWindowNotFound.     (* logging.error, line 255 *)

(** What a run does to the world outside.  The [logging.debug] calls are
    left out; the records above are written only when logging is enabled. *)
Inductive event : Type :=
| HttpGet (url user_agent : string)
| Log (r : log_record)
| MsgAlert (a : alert)
| FileWrite (path content : string)
| ClipboardCopy (text : string)
| WindowActivate
| Click (x y : Z)
| Hotkey (keys : list string)
| Typewrite (text : string).

(** A computation with effects: the events so far and how it ended. *)
Definition M (A : Type) : Type := list event * result A.

Definition ret {A} (a : A) : M A := ([], Ok a).
Definition raise {A} (e : exn) : M A := ([], Raise e).
Definition emit (ev : event) : M unit := ([ev], Ok tt).
Definition lift {A} (r : result A) : M A := ([], r).

Definition bind {A B} (m : M A) (k : A -> M B) : M B :=
  match m with
  | (t, Ok a) => let (t', r) := k a in ((t ++ t')%list, r)
  | (t, Raise e) => (t, Raise e)
  end.

Notation "x <~ m ;; k" := (bind m (fun x => k))
  (at level 61, m at next level, right associativity).
Notation "m ;;; k" := (bind m (fun _ => k))
  (at level 61, right associativity).

(** [try: body except <caught>: handler] *)
Definition try_except {A} (body : M A) (caught : exn -> bool) (handler : M A) : M A :=
  match body with
  | (t, Raise e) =>
      if caught e then let (t', r) := handler in ((t ++ t')%list, r) else (t, Raise e)
  | done => done
  end.

(** ** The world a run meets *)

Inductive http_reply : Type :=
| Reply (status_code : Z) (text : string)
| NoReply.                       (* [requests.get] raises a RequestException *)

Record window : Type := mk_window {
  win_left : Z;
  win_top : Z
}.

Record world : Type := mk_world {
  http : http_reply;                  (* what the GET of [KEY_URL] meets *)
  keys_json : option string;          (* ./keys.json before the run, [None]: absent *)
  keys_json_writable : bool;
  key_txt_writable : bool;
  now_utc : datetime;                 (* datetime.now(UTC) *)
  automatic : bool;                   (* the flag -a *)
  processes : list (option string);   (* process names, [None]: name() raises *)
  windows : list window               (* gw.getWindowsWithTitle(...) *)
}.

Definition KEY_URL : string := "http://filecxx.com/en_US/activation_code.html".

(** [requests.get(...)] then [response.raise_for_status()]: an error status
    raises [HTTPError], a [RequestException]. *)
Definition http_get (w : world) : M (Z * string) :=
  emit (HttpGet KEY_URL "filecxx/2.82") ;;;
  match http w with
  | NoReply => raise RequestException
  | Reply status text =>
      if ((400 <=? status) && (status <? 600))%Z
      then raise RequestException
      else ret (status, text)
  end.

Definition is_request_exception (e : exn) : bool :=
  match e with
  | RequestException => true
  | _ => false
  end.

(** [except Exception] *)
Definition is_exception (e : exn) : bool := true.

(** [str.lower] on the code points below 256. *)
Definition lower_char (c : ascii) : ascii :=
  let n := N_of_ascii c in
  if ((65 <=? n) && (n <=? 90) || (192 <=? n) && (n <=? 222) && negb (n =? 215))%N
  then ascii_of_N (n + 32) else c.

Fixpoint lower (s : string) : string :=
  match s with
  | "" => ""
  | String c r => String (lower_char c) (lower r)
  end.

(** Lines 62-76. *)
Fixpoint is_filecxx_running_from (procs : list (option string)) : M bool :=
  match procs with
  | [] => ret false
  | Some name :: rest =>
      if lower name =? "fileu.exe" then ret true else is_filecxx_running_from rest
  | None :: _ => emit (Log LogProcessError) ;;; ret false
  end.

Definition is_filecxx_running (w : world) : M bool :=
  is_filecxx_running_from (processes w).

(** Lines 207-226. *)
Definition write_keys_to_file (w : world) (keys_data : string) : M unit :=
  try_except
    (if keys_json_writable w then emit (FileWrite "keys.json" keys_data)
     else raise OSError)
    is_exception
    (emit (Log LogWriteFailed) ;;; emit (MsgAlert AlertWriteFailed)).

(** Lines 229-279.  [correct_code] is a [str] where this is called. *)
Definition insert_key_automatically (w : world) (correct_code : string) : M unit :=
  running <~ is_filecxx_running w ;;
  if negb running then
    emit (Log LogNotRunning) ;;; emit (MsgAlert AlertNotRunning)
  else
    match windows w with
    | [] => emit (Log LogWindowNotFound) ;;; emit (MsgAlert AlertWindowNotFound)
    | win :: _ =>
        emit WindowActivate ;;;
        emit (Click (win_left win + 30) (win_top win + 95)) ;;;
        emit (Hotkey ["ctrl"; "a"]) ;;;
        emit (Hotkey ["backspace"]) ;;;
        emit (Typewrite (correct_code ++ Str.nl))
    end.

(** ** Selection (lines 325-342) *)

(** [convert_to_utc(v)] for a value read from the cache. *)
Definition convert_value_to_utc (v : value) : result datetime :=
  match v with
  | VStr s => convert_to_utc s
  | _ => Raise TypeError
  end.

(** The loop of lines 327-334: the value of [correct_code] after it. *)
Fixpoint select_code (current_time_utc : datetime) (items : list value)
  : result (option value) :=
  match items with
  | [] => Ok None
  | item :: rest =>
      sd <- getitem item "start_date";;
      start_time <- convert_value_to_utc sd;;
      ed <- getitem item "end_date";;
      end_time <- convert_value_to_utc ed;;
      if datetime_ge current_time_utc start_time && datetime_le current_time_utc end_time
      then code <- getitem item "activation_code";; Ok (Some code)
      else select_code current_time_utc rest
  end.

Inductive selection : Type :=
| NoneFound                (* the branch of [if not correct_code] *)
| Found (code : value).

(** Lines 325-342: the loop and the test [if not correct_code]. *)
Definition selector (current_time_utc : datetime) (cached_data : option value)
  : result selection :=
  items <- py_iter cached_data;;
  correct_code <- select_code current_time_utc items;;
  match correct_code with
  | Some code => if value_truthy correct_code then Ok (Found code) else Ok NoneFound
  | None => Ok NoneFound
  end.

Section Program.

Variable soup_find_pre_codes : string -> option string.

(** Lines 180-204. *)
Definition build_cached_data (w : world) : M (option string) :=
  try_except
    (response <~ http_get w ;;
     let '(status_code, text) := response in
     if (status_code =? 200)%Z then
       json_object <~ lift (create_json_object
                              (parse_html_content soup_find_pre_codes text)) ;;
       ret (Some json_object)
     else ret None)
    is_request_exception
    (emit (Log LogConnectFailed) ;;;
     emit (MsgAlert AlertConnectFailed) ;;;
     ret None).

(** Lines 344-360: delivery of a code that passed [if not correct_code].
    The clipboard and the message boxes are taken to work. *)
Definition deliver (w : world) (correct_code : value) : M unit :=
  if automatic w then
    match correct_code with
    | VStr code => insert_key_automatically w code
    | _ => raise Unmodelled              (* the text of a list or dict *)
    end
  else
    match correct_code with
    | VStr code =>
        (if key_txt_writable w then emit (FileWrite "key.txt" code) else raise OSError) ;;;
        emit (ClipboardCopy code) ;;;
        emit (MsgAlert AlertCopied)
    | _ =>
        (* open() succeeds or not, then f.write of a value that is no str *)
        if key_txt_writable w then raise TypeError else raise OSError
    end.

(** Lines 282-360.  [show_initial_messagebox] has a docstring for a body and
    does nothing.  The two branches of [os.path.exists("./keys.json")] are
    written out as the source has them. *)
Definition main (w : world) : M unit :=
  cached_data <~
    match keys_json w with
    | Some _ =>
        temp_data <~ build_cached_data w ;;
        match temp_data with
        | Some data =>
            if Str.truthy data then
              write_keys_to_file w data ;;;
              cached <~ lift (json_loads data) ;;
              ret (Some cached)
            else ret None
        | None => ret None
        end
    | None =>
        temp_data <~ build_cached_data w ;;
        match temp_data with
        | Some data =>
            if Str.truthy data then
              write_keys_to_file w data ;;;
              cached <~ lift (json_loads data) ;;
              ret (Some cached)
            else ret None
        | None => ret None
        end
    end ;;
  sel <~ lift (selector (now_utc w) cached_data) ;;
  match sel with
  | NoneFound => emit (MsgAlert AlertNoValidCode)
  | Found correct_code => deliver w correct_code
  end.

End Program.

(** ** Worlds that differ in one respect *)

Definition with_http (r : http_reply) (w : world) : world :=
  mk_world r (keys_json w) (keys_json_writable w) (key_txt_writable w)
           (now_utc w) (automatic w) (processes w) (windows w).

Definition with_keys_json (k : option string) (w : world) : world :=
  mk_world (http w) k (keys_json_writable w) (key_txt_writable w)
           (now_utc w) (automatic w) (processes w) (windows w).

(** The fetch of a world raises: no reply, or [raise_for_status] on a
    status from 400 to 599. *)
Definition fetch_raises (r : http_reply) : bool :=
  match r with
  | NoReply => true
  | Reply status _ => ((400 <=? status) && (status <? 600))%Z
  end.

(** The events that select or deliver a code. *)
Definition is_delivery (ev : event) : bool :=
  match ev with
  | FileWrite path _ => path =? "key.txt"
  | ClipboardCopy _ | WindowActivate | Click _ _ | Hotkey _ | Typewrite _ => true
  | _ => false
  end.

Section Orchestration.

Variable soup_find_pre_codes : string -> option string.

(** The orchestration as the specification words it: the page is fetched;
    when that gave data, the data is written to the cache file and what was
    just parsed is handed to the selector.  The cache file is not read. *)
Definition run_fresh (w : world) : M unit :=
  temp_data <~ build_cached_data soup_find_pre_codes w ;;
  cached_data <~
    match temp_data with
    | Some data =>
        if Str.truthy data then
          write_keys_to_file w data ;;;
          cached <~ lift (json_loads data) ;;
          ret (Some cached)
        else ret None
    | None => ret None
    end ;;
  sel <~ lift (selector (now_utc w) cached_data) ;;
  match sel with
  | NoneFound => emit (MsgAlert AlertNoValidCode)
  | Found correct_code => deliver w correct_code
  end.

End Orchestration.

(** A stand-in for the HTML parser in the examples: a page that opens with
    the tag of the block is taken to hold the block's text after it. *)
Definition toy_find_pre_codes (html : string) : option string :=
  let tag := "<pre id=codes>" in
  if prefix tag html
  then Some (substring (String.length tag) (String.length html) html)
  else None.

(** ** Checking a property on every number of a range *)

Fixpoint zrange_all (lo : Z) (n : nat) (f : Z -> bool) : bool :=
  match n with
  | O => true
  | S n' => f lo && zrange_all (lo + 1) n' f
  end.

Definition result_eqb {A} (eqb : A -> A -> bool) (r : result A) (a : A) : bool :=
  match r with
  | Ok x => eqb x a
  | Raise _ => false
  end.

(** [zpad w n] read back by [parse_digits] gives [n]. *)
Definition parses_back (w : nat) (n : Z) : bool :=
  match parse_digits w 0 (zpad w n) with
  | Some (v, "") => (v =? n)%Z
  | _ => false
  end.

(** Eight hours, in microseconds. *)
Definition eight_hours : Z := (8 * 3600 * 1000000)%Z.

(** ** Texts of the zero-padded pattern *)

(** [YYYY-MM-DD HH:MM:SS] with every field zero-padded: the texts the
    specification's pattern describes, for [0 <= y <= 9999] and the other
    fields in [0..99]. *)
Definition padded_text (y m d h mi s : Z) : string :=
  zpad 4 y ++ "-" ++ zpad 2 m ++ "-" ++ zpad 2 d ++ " " ++
  zpad 2 h ++ ":" ++ zpad 2 mi ++ ":" ++ zpad 2 s.

(** The alternatives of a directive, and a group's text put before the
    groups matched after it. *)
Definition alts (d : ascii) : list (list charset) :=
  match directive d with
  | Some a => a
  | None => []
  end.

Definition keep (name : ascii) (t : string)
  (o : option (list (ascii * string) * string)) : option (list (ascii * string) * string) :=
  match o with
  | Some (caps, r) => Some ((name, t) :: caps, r)
  | None => None
  end.

Definition between (lo hi n : Z) : bool := ((lo <=? n) && (n <=? hi))%Z.

(** [match_alt] takes the whole of the text. *)
Definition takes_all (alt : list charset) (t : string) : bool :=
  match match_alt alt t with
  | Some (t', "") => t' =? t
  | _ => false
  end.

(** [int] of the padded text of [n] is [n]. *)
Definition int_reads_back (w : nat) (n : Z) : bool :=
  match py_int (zpad w n) with
  | Ok v => (v =? n)%Z
  | Raise _ => false
  end.

(** The seconds group at the end of the pattern: up to 61 it takes both
    digits, from 62 on only the first, and a digit is left unread. *)
Definition seconds_group_ok (n : Z) : bool :=
  match re_match [Group "S" (alts "S")] (zpad 2 n) with
  | Some ([(name, t)], rest) =>
      if (n <=? 61)%Z then (t =? zpad 2 n) && (rest =? "") && (name =? "S")%char
      else Str.truthy rest
  | _ => false
  end.

(** ** The text of one member of an object *)

(** ["k": "v"] followed by [T], as [json.dumps] writes it. *)
Definition member_then (k v T : string) : string :=
  String quote (escape k ++ String quote (String ":" (String " "
    (encode_basestring_ascii v ++ T)))).

(** The separator between the elements of the array of [keys.json]. *)
Definition item_sep : string := "," ++ newline_indent 1.

(** ** Texts of a given shape *)

(** [s] has one character for every test of [shape], each passing. *)
Fixpoint has_shape (shape : list (ascii -> bool)) (s : string) : bool :=
  match shape, s with
  | [], "" => true
  | p :: shape', String c r => p c && has_shape shape' r
  | _, _ => false
  end.

Definition is_char (c : ascii) : ascii -> bool := Ascii.eqb c.

(** ISO 8601 with a precision of seconds and nothing after the seconds
    (no fraction, no offset): [YYYY-MM-DDTHH:MM:SS]. *)
Definition iso_seconds_shape : list (ascii -> bool) :=
  [is_digit; is_digit; is_digit; is_digit; is_char "-"; is_digit; is_digit; is_char "-";
   is_digit; is_digit; is_char "T"; is_digit; is_digit; is_char ":"; is_digit; is_digit;
   is_char ":"; is_digit; is_digit].

(** The zero-padded pattern of the specification, [YYYY-MM-DD HH:MM:SS]. *)
Definition padded_shape : list (ascii -> bool) :=
  [is_digit; is_digit; is_digit; is_digit; is_char "-"; is_digit; is_digit; is_char "-";
   is_digit; is_digit; is_char " "; is_digit; is_digit; is_char ":"; is_digit; is_digit;
   is_char ":"; is_digit; is_digit].

Definition digits_shape (w : nat) (n : Z) : bool :=
  has_shape (repeat is_digit w) (zpad w n).

(** ** What [create_json_object] makes of an entry *)

(** [it] is the element of [formatted_data] for the parsed entry [e]: the
    range has two halves, each read by [strptime] as a wall-clock value, and
    the dates of [it] are the ISO texts of these values. *)
Definition formatted (e : entry) (it : cache_item) : Prop :=
  exists a b da db,
    Str.split range_sep (date_range e) = [a; b] /\
    strptime a DATE_FORMAT = Ok da /\
    strptime b DATE_FORMAT = Ok db /\
    it = mk_cache_item (isoformat da) (isoformat db) (activation_code e).

(** ** The texts [strptime] takes for the format of line 137 *)

Fixpoint all_blank (s : string) : bool :=
  match s with
  | "" => true
  | String c r => Str.isspace c && all_blank r
  end.

(** The texts of a field of value [n]: two digits; one digit when [n <= 9];
    for the day also a blank and one digit. *)
Inductive field_text (blank_ok : bool) (n : Z) : string -> Prop :=
| field_two_digits :
    (0 <= n <= 99)%Z -> field_text blank_ok n (zpad 2 n)
| field_one_digit :
    (0 <= n <= 9)%Z -> field_text blank_ok n (String (digit_char n) "")
| field_blank_digit :
    blank_ok = true -> (0 <= n <= 9)%Z ->
    field_text blank_ok n (String " " (String (digit_char n) "")).

(** [s] reads as the fields of [dt]: a year of four digits, the month and
    the day after a hyphen each, a run of blanks, and the hour, the minute
    and the second with colons between them. *)
Definition lenient_text (dt : datetime) (s : string) : Prop :=
  exists tm td w th tmi ts,
    field_text false (month dt) tm /\ field_text true (day dt) td /\
    (w <> "" /\ all_blank w = true) /\
    field_text false (hour dt) th /\ field_text false (minute dt) tmi /\
    field_text false (second dt) ts /\
    s = zpad 4 (year dt) ++ "-" ++ tm ++ "-" ++ td ++ w ++ th ++ ":" ++ tmi ++ ":" ++ ts.

(** A class of digits only. *)
Definition digit_only (cs : charset) : bool :=
  match cs with
  | AnyDigit => true
  | Between lo hi => is_digit lo && is_digit hi
  | Exactly c => is_digit c
  end.

Definition int_of_digit_ok (n : Z) : bool :=
  result_eqb Z.eqb (py_int (String (digit_char n) "")) n &&
  result_eqb Z.eqb (py_int (String " " (String (digit_char n) ""))) n.

(** The first alternative of a group that takes a head of [s]. *)
Fixpoint first_alt (alts : list (list charset)) (s : string) : option (string * string) :=
  match alts with
  | [] => None
  | alt :: more =>
      match match_alt alt s with
      | Some x => Some x
      | None => first_alt more s
      end
  end.

(** No digit follows. *)
Definition stops (s : string) : bool :=
  match s with
  | String c _ => negb (is_digit c)
  | "" => true
  end.

(** The values of a field that [datetime] takes. *)
Definition field_range (g : ascii) : Z * Z :=
  match g with
  | "m"%char => (1, 12)
  | "d"%char => (1, 31)
  | "H"%char => (0, 23)
  | "M"%char => (0, 59)
  | "S"%char => (0, 59)
  | _ => (0, -1)
  end%Z.

Definition in_field_range (g : ascii) (n : Z) : bool :=
  between (fst (field_range g)) (snd (field_range g)) n.

(** ** The selector of the specification *)

(** An activation window: the two ends as UTC values and the code. *)
Record ActivationWindow : Type := mk_activation_window {
  window_start : datetime;
  window_end : datetime;
  window_code : string
}.

(** The window of an element of the cache. *)
Definition normalize (it : cache_item) : result ActivationWindow :=
  s <- convert_to_utc (start_date it);;
  e <- convert_to_utc (end_date it);;
  Ok (mk_activation_window s e (item_code it)).

Fixpoint normalize_all (items : list cache_item) : result (list ActivationWindow) :=
  match items with
  | [] => Ok []
  | it :: rest =>
      w <- normalize it;;
      ws <- normalize_all rest;;
      Ok (w :: ws)
  end.

(** [start <= now <= end] on the time line, both ends included. *)
Definition in_window (now : datetime) (w : ActivationWindow) : bool :=
  ((to_microseconds (window_start w) <=? to_microseconds now) &&
   (to_microseconds now <=? to_microseconds (window_end w)))%Z.

(** The first window, in the order of the sequence, that contains [now]. *)
Definition first_window (now : datetime) (ws : list ActivationWindow)
  : option ActivationWindow :=
  find (in_window now) ws.

(** ** Examples *)

Definition example_entries : list entry :=
  [mk_entry "2024-01-01 00:00:00 - 2024-01-02 00:00:00" "ABCDEF"].

Definition example_payload : string :=
  Eval vm_compute in
    match create_json_object example_entries with
    | Ok text => text
    | Raise _ => ""
    end.

(** The two overlapping windows of the specification, 00:00Z..10:00Z with
    code A and 05:00Z..15:00Z with code B on 2024-01-01, as the cache holds
    them (wall-clock texts of UTC+8), and 06:00Z of that day. *)
Definition overlapping_items : list cache_item :=
  [mk_cache_item "2024-01-01T08:00:00" "2024-01-01T18:00:00" "A";
   mk_cache_item "2024-01-01T13:00:00" "2024-01-01T23:00:00" "B"].

Definition overlapping_windows : list ActivationWindow :=
  [mk_activation_window (mk_datetime 2024 1 1 0 0 0 0) (mk_datetime 2024 1 1 10 0 0 0) "A";
   mk_activation_window (mk_datetime 2024 1 1 5 0 0 0) (mk_datetime 2024 1 1 15 0 0 0) "B"].

Definition six_o_clock : datetime := mk_datetime 2024 1 1 6 0 0 0.

(** A page whose block holds a range with month 13, and a world that
    fetches it. *)
Definition bad_month_page : string :=
  "<pre id=codes>2024-13-01 00:00:00 - 2025-01-01 00:00:00" ++ Str.nl ++ "ABCDEF".

Definition example_world (page : string) (now : datetime) : world :=
  mk_world (Reply 200 page) None true true now false [] [].

(** The page of the end-to-end scenario of the specification. *)
Definition scenario_page : string :=
  "<pre id=codes>2024-01-01 00:00:00 - 2030-01-01 00:00:00" ++ Str.nl ++ "ABCDEF" ++ Str.nl.

(** The valid pairs of a sequence of lines: a line with the separator
    directly followed by a line without it. *)
Fixpoint valid_pairs (ls : list string) : list entry :=
  match ls with
  | [] => []
  | r :: rest =>
      match rest with
      | c :: _ =>
          if Str.contains range_sep r && negb (Str.contains range_sep c)
          then mk_entry r c :: valid_pairs rest
          else valid_pairs rest
      | [] => []
      end
  end.

(** The text of the block of the end-to-end scenario, what is written to
    keys.json for it, and the UTC ends of its window. *)
Definition scenario_block : string :=
  "2024-01-01 00:00:00 - 2030-01-01 00:00:00" ++ Str.nl ++ "ABCDEF" ++ Str.nl.

Definition scenario_payload : string :=
  Eval vm_compute in
    match create_json_object (parse_block scenario_block) with
    | Ok text => text
    | Raise _ => ""
    end.

Definition scenario_start : datetime := mk_datetime 2023 12 31 16 0 0 0.
Definition scenario_end : datetime := mk_datetime 2029 12 31 16 0 0 0.

(** An instant after the window of the scenario, and an element of the cache
    whose end lies before its start. *)
Definition new_year_2031 : datetime := mk_datetime 2031 1 1 0 0 0 0.

Definition reversed_item : cache_item :=
  mk_cache_item "2024-01-02T00:00:00" "2024-01-01T00:00:00" "ABCDEF".

(** ** Well-formed ranges *)

Definition is_ok {A} (r : result A) : bool :=
  match r with
  | Ok _ => true
  | Raise _ => false
  end.

(** A range of exactly two halves, both texts that [format_date] takes. *)
Definition well_formed_range (item : entry) : bool :=
  match Str.split range_sep (date_range item) with
  | [a; b] => is_ok (format_date a) && is_ok (format_date b)
  | _ => false
  end.

Definition three_halves : entry :=
  mk_entry "2024-01-01 00:00:00 - 2024-01-02 00:00:00 - 2024-01-03 00:00:00" "ABCDEF".

(** ** Processes *)

(** A process whose name can be read and is not that of FileCxx. *)
Definition is_other_process (p : option string) : bool :=
  match p with
  | Some name => negb (lower name =? "fileu.exe")
  | None => false
  end.

Definition with_processes (ps : list (option string)) (w : world) : world :=
  mk_world (http w) (keys_json w) (keys_json_writable w) (key_txt_writable w)
           (now_utc w) (automatic w) ps (windows w).

(** ** The parts of a run *)

(** What [write_keys_to_file] does to the world. *)
Definition write_trace (w : world) (keys_data : string) : list event :=
  if keys_json_writable w then [FileWrite "keys.json" keys_data]
  else [Log LogWriteFailed; MsgAlert AlertWriteFailed].

(** Lines 336-360, after the loop of the selector. *)
Definition finish (w : world) (sel : result selection) : M unit :=
  sel <~ lift sel ;;
  match sel with
  | NoneFound => emit (MsgAlert AlertNoValidCode)
  | Found correct_code => deliver w correct_code
  end.

Definition with_keys_json_writable (b : bool) (w : world) : world :=
  mk_world (http w) (keys_json w) b (key_txt_writable w)
           (now_utc w) (automatic w) (processes w) (windows w).

Definition with_automatic (b : bool) (w : world) : world :=
  mk_world (http w) (keys_json w) (keys_json_writable w) (key_txt_writable w)
           (now_utc w) b (processes w) (windows w).

Definition is_http_get (ev : event) : bool :=
  match ev with
  | HttpGet _ _ => true
  | _ => false
  end.

(** The events of manual delivery. *)
Definition is_manual_delivery (ev : event) : bool :=
  match ev with
  | FileWrite path _ => path =? "key.txt"
  | ClipboardCopy _ => true
  | MsgAlert AlertCopied => true
  | _ => false
  end.

(** The events of automatic delivery: looking for the process and the
    window, and acting on the window. *)
Definition is_automation (ev : event) : bool :=
  match ev with
  | WindowActivate | Click _ _ | Hotkey _ | Typewrite _ => true
  | Log LogProcessError | Log LogNotRunning | Log LogWindowNotFound => true
  | MsgAlert AlertNotRunning | MsgAlert AlertWindowNotFound => true
  | _ => false
  end.

(** The events of a failed write of keys.json. *)
Definition is_cache_write (ev : event) : bool :=
  match ev with
  | FileWrite path _ => path =? "keys.json"
  | Log LogWriteFailed | MsgAlert AlertWriteFailed => true
  | _ => false
  end.

(** How a run can end. *)
Definition is_run_end (r : result unit) : bool :=
  match r with
  | Ok _ => true
  | Raise TypeError | Raise ValueError | Raise OverflowError | Raise OSError => true
  | Raise _ => false
  end.

(** A trace in which the write of keys.json has failed. *)
Definition report_failed_write (ev : event) : list event :=
  match ev with
  | FileWrite path _ =>
      if path =? "keys.json" then [Log LogWriteFailed; MsgAlert AlertWriteFailed] else [ev]
  | _ => [ev]
  end.

(** Events that belong to neither the fetch nor the cache. *)
Definition is_delivery_only (ev : event) : bool :=
  negb (is_http_get ev) && negb (is_cache_write ev).

(** ** Worlds of the scenario *)

Definition scenario_window : window := mk_window 100 200.

(** A world in which the page of the scenario is fetched at [now]. *)
Definition scenario_world (now : datetime) : world :=
  example_world scenario_page now.

Definition with_key_txt_writable (b : bool) (w : world) : world :=
  mk_world (http w) (keys_json w) (keys_json_writable w) b
           (now_utc w) (automatic w) (processes w) (windows w).

Definition with_windows (ws : list window) (w : world) : world :=
  mk_world (http w) (keys_json w) (keys_json_writable w) (key_txt_writable w)
           (now_utc w) (automatic w) (processes w) ws.

(** ** Plain texts *)

(** A printable ASCII character or a line feed. *)
Definition is_plain (c : ascii) : bool :=
  let n := N_of_ascii c in
  ((n =? 10) || (32 <=? n) && (n <=? 126))%N.

Fixpoint all_plain (s : string) : bool :=
  match s with
  | "" => true
  | String c r => is_plain c && all_plain r
  end.

Definition accented_entries : list entry :=
  [mk_entry "2024-01-01 00:00:00 - 2024-01-02 00:00:00"
            (String (ascii_of_N 233) (String quote "ABC"))].

Definition early_item : cache_item :=
  mk_cache_item "2024-01-01T00:00:00" "2024-01-02T00:00:00" "A".

(** ** What a run hands over *)



(** A page whose block lists the two overlapping windows of the
    specification, as wall-clock values of UTC+8. *)
Definition overlapping_page : string :=
  "<pre id=codes>2024-01-01 08:00:00 - 2024-01-01 18:00:00" ++ Str.nl ++ "A" ++ Str.nl ++
  "2024-01-01 13:00:00 - 2024-01-01 23:00:00" ++ Str.nl ++ "B" ++ Str.nl.

Definition overlapping_payload : string :=
  Eval vm_compute in
    match create_json_object (parse_html_content toy_find_pre_codes overlapping_page) with
    | Ok text => text
    | Raise _ => "?"
    end.
(** * Properties *)

(** ** Facts about [str] methods *)

Lemma truthy_false_iff s : Str.truthy s = false <-> s = "".
Proof.
  unfold Str.truthy. destruct (String.eqb_spec s ""); simpl; split; congruence.
Qed.

Lemma contains_sep_truthy s : Str.contains range_sep s = true -> Str.truthy s = true.
Proof. destruct s; simpl; [discriminate | reflexivity]. Qed.

Lemma rstrip_idem s : Str.rstrip (Str.rstrip s) = Str.rstrip s.
Proof.
  induction s as [|c r IH]; simpl; [reflexivity|].
  destruct (Str.rstrip r) as [|c' r'] eqn:E.
  - destruct (Str.isspace c) eqn:Ec; simpl; [reflexivity|]. now rewrite Ec.
  - simpl in *. now rewrite IH.
Qed.

Lemma rstrip_head c r :
  Str.isspace c = false -> exists r', Str.rstrip (String c r) = String c r'.
Proof.
  intros Hc. simpl. destruct (Str.rstrip r); rewrite ?Hc; eauto.
Qed.

Lemma lstrip_head s :
  Str.lstrip s = "" \/ exists c r, Str.lstrip s = String c r /\ Str.isspace c = false.
Proof.
  induction s as [|c r IH]; simpl; [now left|].
  destruct (Str.isspace c) eqn:E; [exact IH|]. right; eauto.
Qed.

Lemma strip_idem s : Str.strip (Str.strip s) = Str.strip s.
Proof.
  unfold Str.strip.
  destruct (lstrip_head s) as [E | (c & r & E & Hc)]; rewrite E; [reflexivity|].
  destruct (rstrip_head c r Hc) as [r' E']. rewrite E'.
  simpl Str.lstrip. rewrite Hc. rewrite <- E'. apply rstrip_idem.
Qed.

(** ** The scan loop *)

Lemma Scan_functional ls es1 :
  Scan ls es1 -> forall es2, Scan ls es2 -> es1 = es2.
Proof.
  induction 1 as [|l ls es Hl H IH|r c ls es Hr Hc H IH|r r' ls es Hr Hr' H IH|r Hr];
    intros es2 H2; inversion H2; subst; try congruence; auto.
  f_equal. auto.
Qed.

Lemma scan_loop lines : forall res cur,
  pending_ok cur ->
  exists es,
    scan_result (fold_left scan_line lines (mk_scan res cur)) = (res ++ es)%list /\
    Scan (pending cur (nonblank_lines lines)) es.
Proof.
  induction lines as [|line lines IH]; intros res cur Hcur.
  - exists []. simpl. rewrite app_nil_r. split; [reflexivity|].
    destruct cur; simpl in *; now constructor.
  - simpl fold_left. unfold scan_line at 2. unfold nonblank_lines. simpl map. simpl filter.
    fold (nonblank_lines lines).
    destruct (Str.truthy (Str.strip line)) eqn:Ht; simpl negb; cbv iota.
    + destruct (Str.contains range_sep (Str.strip line)) eqn:Hs.
      * destruct (IH res (Some (Str.strip line)) Hs) as (es & E & HS).
        exists es. simpl scan_result. split; [exact E|].
        destruct cur as [r|]; simpl in *; [now apply Scan_replace | exact HS].
      * destruct cur as [r|]; simpl current_date_range; cbv iota.
        -- simpl in Hcur. rewrite (contains_sep_truthy r Hcur).
           destruct (IH (res ++ [mk_entry r (Str.strip line)])%list None I) as (es & E & HS).
           exists (mk_entry r (Str.strip line) :: es). simpl scan_result.
           split; [now rewrite E, <- app_assoc|]. simpl. now apply Scan_pair.
        -- destruct (IH res None I) as (es & E & HS).
           exists es. split; [exact E|]. simpl in *. now apply Scan_ignore.
    + destruct (IH res cur Hcur) as (es & E & HS). exists es. now split.
Qed.

Lemma scan_loop_entries lines : forall res cur,
  pending_ok cur -> Forall entry_ok res ->
  Forall entry_ok (scan_result (fold_left scan_line lines (mk_scan res cur))).
Proof.
  induction lines as [|line lines IH]; intros res cur Hcur Hres; [exact Hres|].
  simpl fold_left. unfold scan_line at 2.
  destruct (Str.truthy (Str.strip line)) eqn:Ht; simpl negb; cbv iota; [|now apply IH].
  destruct (Str.contains range_sep (Str.strip line)) eqn:Hs; [now apply IH|].
  destruct cur as [r|]; simpl current_date_range; cbv iota; [|now apply IH].
  simpl in Hcur. rewrite (contains_sep_truthy r Hcur).
  apply IH; [exact I|]. simpl scan_result.
  apply Forall_app. split; [exact Hres|].
  constructor; [|constructor].
  unfold entry_ok; simpl. auto using strip_idem.
Qed.

Lemma parse_block_entries text : Forall entry_ok (parse_block text).
Proof. apply scan_loop_entries; [exact I | constructor]. Qed.

Lemma Scan_valid_pairs ls : Scan ls (valid_pairs ls).
Proof.
  induction ls as [|r rest IH]; [constructor|].
  destruct rest as [|c rest'].
  - destruct (Str.contains range_sep r) eqn:Hr; [now apply Scan_trailing|].
    apply Scan_ignore; [exact Hr | constructor].
  - cbn [valid_pairs]. cbn [valid_pairs] in IH.
    destruct (Str.contains range_sep r) eqn:Hr; cbn [andb].
    + destruct (Str.contains range_sep c) eqn:Hc; cbn [negb].
      * now apply Scan_replace.
      * apply Scan_pair; [exact Hr | exact Hc |].
        inversion IH; subst; congruence.
    + now apply Scan_ignore.
Qed.

(** C2. The parser's scan is the two-state scan of the specification: on the
    trimmed non-blank lines of the block it delivers exactly the entries the
    relation [Scan] allows, which are the valid pairs, one entry for every
    range line that is directly followed by a code line, in source order; a
    range line followed by another range line and a range line at the end of
    the input give no entry. *)
Theorem parser_two_state_scan (text : string) (es : list entry) :
  (Scan (nonblank_lines (Str.split Str.nl (Str.strip text))) es <->
   parse_block text = es) /\
  parse_block text = valid_pairs (nonblank_lines (Str.split Str.nl (Str.strip text))).
Proof.
  destruct (scan_loop (Str.split Str.nl (Str.strip text)) [] None I) as (es' & E & HS).
  simpl in E, HS.
  assert (P : parse_block text = es') by exact E.
  split; [split|].
  - intros H. rewrite P. exact (Scan_functional _ _ HS _ H).
  - intros <-. rewrite P. exact HS.
  - rewrite P. exact (Scan_functional _ _ HS _ (Scan_valid_pairs _)).
Qed.

Section ParserFacts.

Variable soup_find_pre_codes : string -> option string.

(** C9. A page without the [pre] element of id [codes] gives the empty list:
    [parse_html_content] returns, it does not raise. *)
Theorem parse_html_content_absent (html_content : string) :
  soup_find_pre_codes html_content = None ->
  parse_html_content soup_find_pre_codes html_content = [].
Proof.
  intros H. unfold parse_html_content. now rewrite H.
Qed.

Lemma parse_html_content_entries html_content :
  Forall entry_ok (parse_html_content soup_find_pre_codes html_content).
Proof.
  unfold parse_html_content.
  destruct (soup_find_pre_codes html_content); [apply parse_block_entries | constructor].
Qed.

End ParserFacts.

Example parse_html_content_absent_witness :
  parse_html_content toy_find_pre_codes "<html><body>no codes today</body></html>" = [].
Proof.
  apply (parse_html_content_absent toy_find_pre_codes). reflexivity.
Defined.

(** ** The effect monad *)

Lemma bind_assoc {A B C} (m : M A) (f : A -> M B) (g : B -> M C) :
  bind (bind m f) g = bind m (fun a => bind (f a) g).
Proof.
  destruct m as [t [a|e]]; simpl; [|reflexivity].
  destruct (f a) as [t' [b|e]]; simpl; [|reflexivity].
  destruct (g b) as [t'' r]. now rewrite app_assoc.
Qed.

Lemma bind_lift_ok {A B} (a : A) (k : A -> M B) : bind (lift (Ok a)) k = k a.
Proof. unfold bind, lift. now destruct (k a). Qed.

Lemma bind_ret {A B} (a : A) (k : A -> M B) : bind (ret a) k = k a.
Proof. apply bind_lift_ok. Qed.

(** ** Fetch and cache orchestration *)

Section OrchestrationFacts.

Variable soup_find_pre_codes : string -> option string.

Lemma build_cached_data_keys_json k w :
  build_cached_data soup_find_pre_codes (with_keys_json k w) =
  build_cached_data soup_find_pre_codes w.
Proof. reflexivity. Qed.

Lemma main_run_fresh w :
  main soup_find_pre_codes w = run_fresh soup_find_pre_codes w.
Proof.
  unfold main, run_fresh. destruct (keys_json w); now rewrite bind_assoc.
Qed.

(** C4 (the code at the failing input). When the fetch raises, for want of
    a connection or on an error status, the exception is caught, logged and
    reported, and nothing is selected or delivered; but the run does not end
    there: [cached_data] is still [None] when line 328 iterates over it, and
    the run ends in an uncaught [TypeError]. *)
Theorem fetch_failure_ends_in_type_error (w : world) (r : http_reply) :
  fetch_raises r = true ->
  main soup_find_pre_codes (with_http r w) =
    ([HttpGet KEY_URL "filecxx/2.82"; Log LogConnectFailed; MsgAlert AlertConnectFailed],
     Raise TypeError) /\
  existsb is_delivery (fst (main soup_find_pre_codes (with_http r w))) = false.
Proof.
  intros Hr.
  assert (G : http_get (with_http r w) =
              ([HttpGet KEY_URL "filecxx/2.82"], Raise RequestException)).
  { unfold http_get. cbn [with_http http]. destruct r as [status text|]; [|reflexivity].
    cbn [fetch_raises] in Hr. rewrite Hr. reflexivity. }
  assert (E : main soup_find_pre_codes (with_http r w) =
              ([HttpGet KEY_URL "filecxx/2.82"; Log LogConnectFailed;
                MsgAlert AlertConnectFailed], Raise TypeError)).
  { rewrite main_run_fresh. unfold run_fresh, build_cached_data. rewrite G. reflexivity. }
  rewrite E. split; reflexivity.
Qed.

End OrchestrationFacts.

Example fetch_failure_ends_in_type_error_witness :
  main toy_find_pre_codes (with_http (Reply 503 "") (example_world scenario_page six_o_clock)) =
    ([HttpGet KEY_URL "filecxx/2.82"; Log LogConnectFailed; MsgAlert AlertConnectFailed],
     Raise TypeError) /\
  existsb is_delivery
    (fst (main toy_find_pre_codes
            (with_http (Reply 503 "") (example_world scenario_page six_o_clock)))) = false.
Proof.
  apply (fetch_failure_ends_in_type_error toy_find_pre_codes). reflexivity.
Defined.

(** ** Results *)

Lemma rbind_ok {A B} (r : result A) (k : A -> result B) (b : B) :
  rbind r k = Ok b -> exists a, r = Ok a /\ k a = Ok b.
Proof. destruct r as [a|e]; simpl; [eauto | discriminate]. Qed.

Lemma zrange_all_spec f n : forall lo,
  zrange_all lo n f = true ->
  forall x, (lo <= x < lo + Z.of_nat n)%Z -> f x = true.
Proof.
  induction n as [|n IH]; intros lo H x Hx; [lia|].
  simpl in H. apply andb_prop in H as [H0 H1].
  destruct (Z.eq_dec x lo) as [->|Hne]; [exact H0|].
  apply (IH (lo + 1)%Z H1). lia.
Qed.

(** ** Decimal text *)

Lemma digit_char_value d :
  (0 <= d <= 9)%Z -> digit_value (digit_char d) = d /\ is_digit (digit_char d) = true.
Proof.
  intros Hd.
  assert (H : ((digit_value (digit_char d) =? d)%Z && is_digit (digit_char d)) = true).
  { apply (zrange_all_spec
             (fun d => (digit_value (digit_char d) =? d)%Z && is_digit (digit_char d))
             10 0%Z); [reflexivity | lia]. }
  apply andb_prop in H as [H1 H2]. split; [now apply Z.eqb_eq | exact H2].
Qed.

Lemma parse_digits_app k : forall acc s1 v s2,
  parse_digits k acc s1 = Some (v, "") ->
  parse_digits k acc (s1 ++ s2) = Some (v, s2).
Proof.
  induction k as [|k IH]; intros acc s1 v s2 H; simpl in *.
  - injection H as -> ->. reflexivity.
  - destruct s1 as [|c r]; [discriminate|]. simpl.
    destruct (is_digit c); [|discriminate]. now apply IH.
Qed.

Lemma parse_digits_zpad (w : nat) (bound : Z) n s :
  zrange_all 0 (Z.to_nat bound) (parses_back w) = true ->
  (0 <= n < bound)%Z ->
  parse_digits w 0 (zpad w n ++ s) = Some (n, s).
Proof.
  intros Hall Hn. apply parse_digits_app.
  pose proof (zrange_all_spec _ _ _ Hall n ltac:(lia)) as H.
  unfold parses_back in H.
  destruct (parse_digits w 0 (zpad w n)) as [[v [|? ?]]|]; try discriminate.
  apply Z.eqb_eq in H. now subst.
Qed.

Lemma parse_digits_zpad2 n s :
  (0 <= n < 100)%Z -> parse_digits 2 0 (zpad 2 n ++ s) = Some (n, s).
Proof. apply (parse_digits_zpad 2 100). vm_compute. reflexivity. Qed.

Lemma parse_digits_zpad4 n s :
  (0 <= n < 10000)%Z -> parse_digits 4 0 (zpad 4 n ++ s) = Some (n, s).
Proof. apply (parse_digits_zpad 4 10000). vm_compute. reflexivity. Qed.

(** ** Values of the constructor *)

Lemma datetime_ok_bounds dt :
  datetime_ok dt = true ->
  (1 <= year dt <= 9999 /\ 1 <= month dt <= 12 /\
   1 <= day dt <= days_in_month (year dt) (month dt) /\
   0 <= hour dt <= 23 /\ 0 <= minute dt <= 59 /\ 0 <= second dt <= 59 /\
   0 <= microsecond dt <= 999999)%Z.
Proof.
  unfold datetime_ok, check_date_args, check_time_args, MINYEAR, MAXYEAR.
  intros H. repeat (apply andb_prop in H as [H ?]).
  repeat match goal with
         | H : (_ <=? _)%Z = true |- _ => apply Z.leb_le in H
         end.
  lia.
Qed.

Lemma days_in_month_le y m : (days_in_month y m <= 31)%Z.
Proof.
  unfold days_in_month. destruct ((m =? 2)%Z && is_leap y); [lia|].
  unfold days_in_month_table.
  destruct m as [|p|p]; try lia.
  do 4 (destruct p as [p|p|]; try lia).
Qed.

Lemma new_datetime_ok y m d h mi s us dt :
  new_datetime y m d h mi s us = Ok dt ->
  dt = mk_datetime y m d h mi s us /\ datetime_ok dt = true.
Proof.
  unfold new_datetime.
  destruct (check_date_args y m d && check_time_args h mi s us) eqn:E; [|discriminate].
  intros [= <-]. split; [reflexivity | exact E].
Qed.

Lemma strptime_ok s f dt :
  strptime s f = Ok dt -> datetime_ok dt = true /\ microsecond dt = 0%Z.
Proof.
  unfold strptime. destruct (pattern f) as [p|]; [|discriminate].
  destruct (re_match p s) as [[caps rest]|]; [|discriminate].
  destruct (Str.truthy rest); [discriminate|]. intros H.
  repeat (apply rbind_ok in H; destruct H as (? & ? & H)).
  apply new_datetime_ok in H as [-> H]. split; [exact H | reflexivity].
Qed.

Lemma fromisoformat_isoformat dt :
  datetime_ok dt = true -> microsecond dt = 0%Z ->
  fromisoformat (isoformat dt) = Ok dt.
Proof.
  intros Hok Hus. pose proof (datetime_ok_bounds dt Hok) as B.
  pose proof (days_in_month_le (year dt) (month dt)).
  unfold fromisoformat, iso_fields, isoformat. rewrite Hus.
  change (0 =? 0)%Z with true. cbv iota.
  rewrite parse_digits_zpad4 by lia. cbn [obind expect append Ascii.eqb Bool.eqb].
  do 5 (rewrite parse_digits_zpad2 by lia; cbn [obind expect append Ascii.eqb Bool.eqb]).
  unfold new_datetime. unfold datetime_ok in Hok. rewrite Hus in Hok. rewrite Hok.
  destruct dt; simpl in *. now subst.
Qed.

(** ** Calendar arithmetic *)

Section Calendar.

Local Open Scope Z_scope.

Lemma normalize_pair_spec hi lo f :
  0 < f -> normalize_pair hi lo f = (hi + lo / f, lo mod f).
Proof.
  intros Hf. unfold normalize_pair. rewrite Z.geb_leb.
  destruct (Z.ltb_spec lo 0); simpl; [reflexivity|].
  destruct (Z.leb_spec f lo); [reflexivity|].
  rewrite Z.div_small, Z.mod_small by lia. f_equal. lia.
Qed.

Lemma month_cases m :
  1 <= m <= 12 ->
  m = 1 \/ m = 2 \/ m = 3 \/ m = 4 \/ m = 5 \/ m = 6 \/
  m = 7 \/ m = 8 \/ m = 9 \/ m = 10 \/ m = 11 \/ m = 12.
Proof. lia. Qed.

Lemma days_in_month_pos y m : 1 <= m <= 12 -> 28 <= days_in_month y m <= 31.
Proof.
  intros Hm. unfold days_in_month.
  destruct (month_cases m Hm) as [->|[->|[->|[->|[->|[->|[->|[->|[->|[->|[->| ->]]]]]]]]]]];
    destruct (is_leap y);
    cbv beta iota delta [days_in_month_table days_before_month_table Z.eqb Z.gtb
                         Z.compare Pos.eqb Pos.compare Pos.compare_cont andb];
    lia.
Qed.

Lemma days_before_month_succ y m :
  1 <= m <= 11 ->
  days_before_month y (m + 1) = days_before_month y m + days_in_month y m.
Proof.
  intros Hm. unfold days_before_month, days_in_month.
  assert (Hm' : 1 <= m <= 12) by lia.
  destruct (month_cases m Hm') as [->|[->|[->|[->|[->|[->|[->|[->|[->|[->|[->| ->]]]]]]]]]]];
    destruct (is_leap y); simpl; lia.
Qed.

Lemma year_length y m d :
  1 <= m <= 12 -> 1 <= d <= days_in_month y m ->
  1 <= days_before_month y m + d <= 365 + (if is_leap y then 1 else 0).
Proof.
  intros Hm. unfold days_before_month, days_in_month.
  destruct (month_cases m Hm) as [->|[->|[->|[->|[->|[->|[->|[->|[->|[->|[->| ->]]]]]]]]]]];
    destruct (is_leap y);
    cbv beta iota delta [days_in_month_table days_before_month_table Z.eqb Z.gtb
                         Z.compare Pos.eqb Pos.compare Pos.compare_cont andb];
    lia.
Qed.

Lemma days_before_year_succ y :
  days_before_year (y + 1) =
  days_before_year y + 365 + (if is_leap y then 1 else 0).
Proof.
  unfold days_before_year, is_leap. replace (y + 1 - 1) with y by lia.
  destruct (Z.eqb_spec (y mod 4) 0), (Z.eqb_spec (y mod 100) 0),
    (Z.eqb_spec (y mod 400) 0); simpl;
    Z.div_mod_to_equations; lia.
Qed.

Lemma days_before_year_mono y1 y2 :
  y1 <= y2 -> days_before_year y1 <= days_before_year y2.
Proof.
  intros H. unfold days_before_year. Z.div_mod_to_equations. lia.
Qed.

Lemma days_before_month_mono y m1 m2 :
  1 <= m1 <= 12 -> 1 <= m2 <= 12 -> m1 <= m2 ->
  days_before_month y m1 <= days_before_month y m2.
Proof.
  intros H1 H2. unfold days_before_month.
  destruct (month_cases m1 H1) as [->|[->|[->|[->|[->|[->|[->|[->|[->|[->|[->| ->]]]]]]]]]]];
    destruct (month_cases m2 H2) as [->|[->|[->|[->|[->|[->|[->|[->|[->|[->|[->| ->]]]]]]]]]]];
    destruct (is_leap y); simpl; lia.
Qed.

Lemma ymd_to_ord_year_lt y1 m1 d1 y2 m2 d2 :
  1 <= m1 <= 12 -> 1 <= d1 <= days_in_month y1 m1 ->
  1 <= m2 <= 12 -> 1 <= d2 <= days_in_month y2 m2 ->
  y1 < y2 -> ymd_to_ord y1 m1 d1 < ymd_to_ord y2 m2 d2.
Proof.
  intros Hm1 Hd1 Hm2 Hd2 Hy. unfold ymd_to_ord.
  pose proof (year_length y1 m1 d1 Hm1 Hd1).
  pose proof (year_length y2 m2 d2 Hm2 Hd2).
  pose proof (days_before_year_succ y1).
  pose proof (days_before_year_mono (y1 + 1) y2 ltac:(lia)).
  lia.
Qed.

Lemma ymd_to_ord_month_lt y m1 d1 m2 d2 :
  1 <= m1 <= 12 -> 1 <= d1 <= days_in_month y m1 ->
  1 <= m2 <= 12 -> 1 <= d2 <= days_in_month y m2 ->
  m1 < m2 -> ymd_to_ord y m1 d1 < ymd_to_ord y m2 d2.
Proof.
  intros Hm1 Hd1 Hm2 Hd2 Hm. unfold ymd_to_ord.
  pose proof (days_before_month_succ y m1 ltac:(lia)).
  pose proof (days_before_month_mono y (m1 + 1) m2 ltac:(lia) Hm2 ltac:(lia)).
  lia.
Qed.

(** Comparing the fields is comparing the positions on the time line. *)
Lemma datetime_compare_spec a b :
  datetime_ok a = true -> datetime_ok b = true ->
  datetime_compare a b = (to_microseconds a ?= to_microseconds b).
Proof.
  intros Ha Hb.
  pose proof (datetime_ok_bounds a Ha) as (Hya & Hma & Hda & Ba).
  pose proof (datetime_ok_bounds b Hb) as (Hyb & Hmb & Hdb & Bb).
  pose proof (ymd_to_ord_year_lt _ _ _ _ _ _ Hma Hda Hmb Hdb) as Y1.
  pose proof (ymd_to_ord_year_lt _ _ _ _ _ _ Hmb Hdb Hma Hda) as Y2.
  assert (M1 : year a = year b -> month a < month b ->
               ymd_to_ord (year a) (month a) (day a) < ymd_to_ord (year b) (month b) (day b)).
  { intros E. revert Hdb. rewrite <- E. intros Hdb L.
    now apply ymd_to_ord_month_lt. }
  assert (M2 : year a = year b -> month b < month a ->
               ymd_to_ord (year b) (month b) (day b) < ymd_to_ord (year a) (month a) (day a)).
  { intros E. revert Hdb. rewrite <- E. intros Hdb L.
    now apply ymd_to_ord_month_lt. }
  assert (D : year a = year b -> month a = month b ->
              ymd_to_ord (year a) (month a) (day a) - ymd_to_ord (year b) (month b) (day b)
              = day a - day b).
  { intros E1 E2. unfold ymd_to_ord. rewrite E1, E2. lia. }
  unfold to_microseconds.
  remember (ymd_to_ord (year a) (month a) (day a)) as oa.
  remember (ymd_to_ord (year b) (month b) (day b)) as ob.
  unfold datetime_compare, datetime_fields, lex_compare.
  destruct (Z.compare_spec (year a) (year b));
    [destruct (Z.compare_spec (month a) (month b));
     [destruct (Z.compare_spec (day a) (day b));
      [destruct (Z.compare_spec (hour a) (hour b));
       [destruct (Z.compare_spec (minute a) (minute b));
        [destruct (Z.compare_spec (second a) (second b));
         [destruct (Z.compare_spec (microsecond a) (microsecond b))|..]|..]|..]|..]|..]|..];
    symmetry;
    first [apply Z.compare_eq_iff | apply Z.compare_lt_iff | apply Z.compare_gt_iff];
    lia.
Qed.

Lemma datetime_le_spec a b :
  datetime_ok a = true -> datetime_ok b = true ->
  datetime_le a b = (to_microseconds a <=? to_microseconds b).
Proof.
  intros Ha Hb. unfold datetime_le, Z.leb.
  now rewrite (datetime_compare_spec a b Ha Hb).
Qed.

Lemma normalize_y_m_d_in_range y m d :
  1 <= y <= 9999 -> 1 <= d <= days_in_month y m ->
  normalize_y_m_d y m d = Ok (y, m, d).
Proof.
  intros Hy Hd. unfold normalize_y_m_d, MINYEAR, MAXYEAR.
  destruct (Z.ltb_spec d 1); [lia|].
  rewrite Z.gtb_ltb. destruct (Z.ltb_spec (days_in_month y m) d); [lia|]. simpl.
  destruct (Z.leb_spec 1 y); [|lia]. destruct (Z.leb_spec y 9999); [|lia]. reflexivity.
Qed.

(** Adding [timedelta(0)] leaves a value as it is. *)
Lemma add_timedelta_zero u :
  datetime_ok u = true -> add_datetime_timedelta u (mk_timedelta 0 0 0) 1 = Ok u.
Proof.
  intros Hok. pose proof (datetime_ok_bounds u Hok) as B.
  unfold add_datetime_timedelta. cbn [td_days td_seconds td_microseconds].
  repeat (rewrite normalize_pair_spec by lia; cbv beta iota).
  replace (microsecond u + 0 * 1) with (microsecond u) by lia.
  replace (second u + 0 * 1 + microsecond u / 1000000) with (second u)
    by (Z.div_mod_to_equations; lia).
  replace (minute u + second u / 60) with (minute u) by (Z.div_mod_to_equations; lia).
  replace (hour u + minute u / 60) with (hour u) by (Z.div_mod_to_equations; lia).
  replace (day u + 0 * 1 + hour u / 24) with (day u) by (Z.div_mod_to_equations; lia).
  rewrite normalize_y_m_d_in_range by lia. cbn [rbind].
  rewrite !Z.mod_small by lia. now destruct u.
Qed.

(** Subtracting the offset of eight hours: the carries of [normalize_pair]. *)
Lemma sub_eight_hours_fields dt :
  datetime_ok dt = true -> microsecond dt = 0 ->
  add_datetime_timedelta dt (timedelta_hours 8) (-1) =
  (ymd <- normalize_y_m_d (year dt) (month dt) (day dt + (hour dt - 8) / 24);;
   let '(y, m, d) := ymd in
   Ok (mk_datetime y m d ((hour dt - 8) mod 24) (minute dt) (second dt) 0)).
Proof.
  intros Hok Hus. pose proof (datetime_ok_bounds dt Hok) as B.
  unfold add_datetime_timedelta, timedelta_hours.
  cbn [td_days td_seconds td_microseconds]. rewrite Hus.
  repeat (rewrite normalize_pair_spec by lia; cbv beta iota).
  change ((0 + 0 * -1) mod 1000000) with 0.
  change ((0 + 0 * -1) / 1000000) with 0.
  change (8 * 3600 * -1) with (-28800). change (0 * -1) with 0.
  replace ((second dt + -28800 + 0) mod 60) with (second dt)
    by (Z.div_mod_to_equations; lia).
  replace ((second dt + -28800 + 0) / 60) with (-480) by (Z.div_mod_to_equations; lia).
  replace ((minute dt + -480) mod 60) with (minute dt) by (Z.div_mod_to_equations; lia).
  replace ((minute dt + -480) / 60) with (-8) by (Z.div_mod_to_equations; lia).
  replace (hour dt + -8) with (hour dt - 8) by lia.
  replace (day dt + 0 + (hour dt - 8) / 24) with (day dt + (hour dt - 8) / 24) by lia.
  reflexivity.
Qed.

Lemma sub_eight_hours dt :
  datetime_ok dt = true -> microsecond dt = 0 ->
  (eight_hours <= to_microseconds dt /\
   exists u, add_datetime_timedelta dt (timedelta_hours 8) (-1) = Ok u /\
             datetime_ok u = true /\
             to_microseconds u = to_microseconds dt - eight_hours) \/
  (to_microseconds dt < eight_hours /\
   add_datetime_timedelta dt (timedelta_hours 8) (-1) = Raise OverflowError).
Proof.
  intros Hok Hus.
  pose proof (datetime_ok_bounds dt Hok) as (Hy & Hm & Hd & Hh & Hmi & Hs & _).
  rewrite (sub_eight_hours_fields dt Hok Hus).
  assert (Hnew : forall y m d h,
            1 <= y <= 9999 -> 1 <= m <= 12 -> 1 <= d <= days_in_month y m -> 0 <= h <= 23 ->
            datetime_ok (mk_datetime y m d h (minute dt) (second dt) 0) = true).
  { intros y m d h ? ? ? ?.
    unfold datetime_ok, check_date_args, check_time_args, MINYEAR, MAXYEAR.
    cbn [year month day hour minute second microsecond].
    repeat (apply andb_true_intro; split); apply Z.leb_le; lia. }
  pose proof (year_length _ _ _ Hm Hd) as YL.
  pose proof (days_before_year_mono 1 (year dt) ltac:(lia)) as M0.
  change (days_before_year 1) with 0 in M0.
  pose proof (days_before_month_mono (year dt) 1 (month dt) ltac:(lia) Hm ltac:(lia)) as M1.
  change (days_before_month (year dt) 1) with 0 in M1.
  unfold eight_hours, to_microseconds. rewrite Hus.
  cbn [year month day hour minute second microsecond]. unfold ymd_to_ord.
  destruct (Z.le_gt_cases 8 (hour dt)) as [H8 | H8].
  - (* the hour stays in the day *)
    replace ((hour dt - 8) / 24) with 0 by (Z.div_mod_to_equations; lia).
    replace ((hour dt - 8) mod 24) with (hour dt - 8) by (Z.div_mod_to_equations; lia).
    replace (day dt + 0) with (day dt) by lia.
    rewrite normalize_y_m_d_in_range by lia. cbn [rbind].
    left. split; [lia|]. eexists. split; [reflexivity|]. split; [apply Hnew; lia|].
    cbn [year month day hour minute second microsecond]. lia.
  - (* the hour borrows from the day before *)
    replace ((hour dt - 8) / 24) with (-1) by (Z.div_mod_to_equations; lia).
    replace ((hour dt - 8) mod 24) with (hour dt + 16) by (Z.div_mod_to_equations; lia).
    destruct (Z.le_gt_cases 2 (day dt)) as [Hd2 | Hd1].
    + rewrite normalize_y_m_d_in_range by lia. cbn [rbind].
      left. split; [lia|]. eexists. split; [reflexivity|]. split; [apply Hnew; lia|].
      cbn [year month day hour minute second microsecond]. lia.
    + assert (Ed : day dt = 1) by lia. rewrite Ed in *.
      unfold normalize_y_m_d, MINYEAR, MAXYEAR. change (1 + -1) with 0.
      change (0 <? 1) with true. change (0 =? 0) with true. cbn [orb]. cbv iota.
      rewrite Z.gtb_ltb.
      destruct (Z.ltb_spec 0 (month dt - 1)) as [Hm2 | Hm1].
      * (* the last day of the month before *)
        destruct (Z.leb_spec 1 (year dt)); [|lia].
        destruct (Z.leb_spec (year dt) 9999); [|lia]. cbn [andb rbind].
        pose proof (days_in_month_pos (year dt) (month dt - 1) ltac:(lia)).
        pose proof (days_before_month_succ (year dt) (month dt - 1) ltac:(lia)) as SM.
        replace (month dt - 1 + 1) with (month dt) in SM by lia.
        pose proof (days_before_month_mono (year dt) 1 (month dt - 1)
                      ltac:(lia) ltac:(lia) ltac:(lia)) as M2.
        change (days_before_month (year dt) 1) with 0 in M2.
        left. split; [lia|]. eexists. split; [reflexivity|]. split; [apply Hnew; lia|].
        cbn [year month day hour minute second microsecond]. lia.
      * (* the last day of the year before *)
        assert (Em : month dt = 1) by lia. rewrite Em in *.
        change (days_before_month (year dt) 1) with 0 in *.
        destruct (Z.le_gt_cases 2 (year dt)) as [Hy2 | Hy1].
        -- destruct (Z.leb_spec 1 (year dt - 1)); [|lia].
           destruct (Z.leb_spec (year dt - 1) 9999); [|lia]. cbn [andb rbind].
           pose proof (days_before_year_succ (year dt - 1)) as SY.
           replace (year dt - 1 + 1) with (year dt) in SY by lia.
           pose proof (days_before_year_mono 1 (year dt - 1) ltac:(lia)) as M2.
           change (days_before_year 1) with 0 in M2.
           assert (D12 : days_before_month (year dt - 1) 12 =
                         334 + (if is_leap (year dt - 1) then 1 else 0)) by reflexivity.
           assert (DIM : days_in_month (year dt - 1) 12 = 31) by reflexivity.
           left. split; [destruct (is_leap (year dt - 1)); lia|].
           eexists. split; [reflexivity|]. split; [apply Hnew; lia|].
           cbn [year month day hour minute second microsecond].
           rewrite D12. destruct (is_leap (year dt - 1)); lia.
        -- assert (Ey : year dt = 1) by lia. rewrite Ey in *.
           change (days_before_year 1) with 0 in *.
           right. split; [lia|]. reflexivity.
Qed.

Lemma astimezone_utc_plus_8 dt :
  datetime_ok dt = true -> microsecond dt = 0 ->
  (eight_hours <= to_microseconds dt /\
   exists u, astimezone_utc (mk_aware dt (timedelta_hours 8)) = Ok u /\
             datetime_ok u = true /\
             to_microseconds u = to_microseconds dt - eight_hours) \/
  (to_microseconds dt < eight_hours /\
   astimezone_utc (mk_aware dt (timedelta_hours 8)) = Raise OverflowError).
Proof.
  intros Hok Hus. unfold astimezone_utc. cbn [local_time utcoffset].
  destruct (sub_eight_hours dt Hok Hus) as [(Hge & u & E & Hu & T) | (Hlt & E)]; rewrite E.
  - left. split; [exact Hge|]. exists u. cbn [rbind].
    now rewrite add_timedelta_zero.
  - right. now split.
Qed.

End Calendar.

(** ** [strptime] on the texts of the zero-padded pattern *)

Section Strptime.

Local Open Scope Z_scope.

Lemma below_100 (P : Z -> Prop) :
  (forall k : nat, (k < 100)%nat -> P (Z.of_nat k)) ->
  forall n, 0 <= n <= 99 -> P n.
Proof.
  intros H n Hn. rewrite <- (Z2Nat.id n) by lia. apply H. lia.
Qed.

Lemma match_alt_app alt : forall t rest,
  takes_all alt t = true -> match_alt alt (t ++ rest) = Some (t, rest).
Proof.
  unfold takes_all. induction alt as [|cs alt IH]; intros t rest H.
  - cbn [match_alt] in *. destruct t; [reflexivity | discriminate].
  - destruct t as [|c t]; cbn [match_alt append] in *; [discriminate|].
    destruct (charset_has cs c); [|discriminate].
    destruct (match_alt alt t) as [[t' r]|] eqn:E; cbn [option_map] in H; [|discriminate].
    destruct r; [|discriminate]. apply String.eqb_eq in H. injection H as ->.
    rewrite (IH t rest); [reflexivity|]. rewrite E. apply String.eqb_refl.
Qed.

Lemma match_year p y rest :
  0 <= y <= 9999 ->
  re_match (Group "Y" (alts "Y") :: p) (zpad 4 y ++ rest) =
  keep "Y" (zpad 4 y) (re_match p rest).
Proof.
  intros Hy.
  assert (T : takes_all [AnyDigit; AnyDigit; AnyDigit; AnyDigit] (zpad 4 y) = true).
  { apply (zrange_all_spec (fun y => takes_all [AnyDigit; AnyDigit; AnyDigit; AnyDigit] (zpad 4 y))
             (Z.to_nat 10000) 0); [vm_compute; reflexivity | lia]. }
  change (alts "Y") with [[AnyDigit; AnyDigit; AnyDigit; AnyDigit]].
  cbn [re_match]. rewrite (match_alt_app _ _ rest T).
  unfold keep. destruct (re_match p rest) as [[caps r]|]; reflexivity.
Qed.

Lemma match_month p n rest :
  0 <= n <= 99 ->
  re_match (Group "m" (alts "m") :: Literal "-" :: p) (zpad 2 n ++ String "-" rest) =
  if between 1 12 n then keep "m" (zpad 2 n) (re_match p rest) else None.
Proof.
  revert n. apply below_100. intros k Hk.
  do 100 (destruct k as [|k]; [cbn; reflexivity|]). lia.
Qed.

Lemma match_day p n rest :
  0 <= n <= 99 ->
  re_match (Group "d" (alts "d") :: Spaces :: p) (zpad 2 n ++ String " " rest) =
  if between 1 31 n
  then keep "d" (zpad 2 n) (re_match (Spaces :: p) (String " " rest))
  else None.
Proof.
  revert n. apply below_100. intros k Hk.
  do 100 (destruct k as [|k]; [cbn; reflexivity|]). lia.
Qed.

Lemma match_hour p n rest :
  0 <= n <= 99 ->
  re_match (Spaces :: Group "H" (alts "H") :: Literal ":" :: p)
           (String " " (zpad 2 n ++ String ":" rest)) =
  if between 0 23 n then keep "H" (zpad 2 n) (re_match p rest) else None.
Proof.
  revert n. apply below_100. intros k Hk.
  do 100 (destruct k as [|k]; [cbn; reflexivity|]). lia.
Qed.

Lemma match_minute p n rest :
  0 <= n <= 99 ->
  re_match (Group "M" (alts "M") :: Literal ":" :: p) (zpad 2 n ++ String ":" rest) =
  if between 0 59 n then keep "M" (zpad 2 n) (re_match p rest) else None.
Proof.
  revert n. apply below_100. intros k Hk.
  do 100 (destruct k as [|k]; [cbn; reflexivity|]). lia.
Qed.

Lemma match_second n :
  0 <= n <= 99 -> seconds_group_ok n = true.
Proof.
  intros Hn. apply (zrange_all_spec seconds_group_ok 100 0); [vm_compute; reflexivity | lia].
Qed.

Lemma py_int_zpad2 n : 0 <= n <= 99 -> py_int (zpad 2 n) = Ok n.
Proof.
  intros Hn.
  pose proof (zrange_all_spec (int_reads_back 2) 100 0 eq_refl n ltac:(lia)) as H.
  unfold int_reads_back in H. destruct (py_int (zpad 2 n)); [|discriminate].
  apply Z.eqb_eq in H. now subst.
Qed.

Lemma py_int_zpad4 n : 0 <= n <= 9999 -> py_int (zpad 4 n) = Ok n.
Proof.
  intros Hn.
  assert (A : zrange_all 0 (Z.to_nat 10000) (int_reads_back 4) = true)
    by (vm_compute; reflexivity).
  pose proof (zrange_all_spec (int_reads_back 4) _ 0 A n ltac:(lia)) as H.
  unfold int_reads_back in H. destruct (py_int (zpad 4 n)); [|discriminate].
  apply Z.eqb_eq in H. now subst.
Qed.

Lemma pattern_date_format :
  pattern DATE_FORMAT =
  Some [Group "Y" (alts "Y"); Literal "-"; Group "m" (alts "m"); Literal "-";
        Group "d" (alts "d"); Spaces; Group "H" (alts "H"); Literal ":";
        Group "M" (alts "M"); Literal ":"; Group "S" (alts "S")].
Proof. reflexivity. Qed.

Lemma match_literal c p r : re_match (Literal c :: p) (String c r) = re_match p r.
Proof. cbn [re_match]. now rewrite Ascii.eqb_refl. Qed.

Lemma new_datetime_fails y m d h mi s :
  between 1 12 m && between 1 31 d && between 0 23 h && between 0 59 mi && between 0 59 s
    = false ->
  new_datetime y m d h mi s 0 = Raise ValueError.
Proof.
  intros H. unfold new_datetime.
  destruct (check_date_args y m d && check_time_args h mi s 0) eqn:E; [|reflexivity].
  exfalso. pose proof (datetime_ok_bounds (mk_datetime y m d h mi s 0) E) as B.
  cbn [year month day hour minute second microsecond] in B.
  pose proof (days_in_month_le y m).
  assert (T : between 1 12 m && between 1 31 d && between 0 23 h && between 0 59 mi
              && between 0 59 s = true).
  { unfold between. repeat (apply andb_true_intro; split); apply Z.leb_le; lia. }
  congruence.
Qed.

Lemma strptime_padded y m d h mi s :
  0 <= y <= 9999 -> 0 <= m <= 99 -> 0 <= d <= 99 ->
  0 <= h <= 99 -> 0 <= mi <= 99 -> 0 <= s <= 99 ->
  strptime (padded_text y m d h mi s) DATE_FORMAT = new_datetime y m d h mi s 0.
Proof.
  intros Hy Hm Hd Hh Hmi Hs.
  unfold strptime. rewrite pattern_date_format. unfold padded_text. cbn [append].
  rewrite match_year, match_literal, match_month, match_day, match_hour, match_minute
    by assumption.
  destruct (between 1 12 m) eqn:Bm;
    [|cbn [keep]; symmetry; apply new_datetime_fails; now rewrite Bm].
  destruct (between 1 31 d) eqn:Bd;
    [|cbn [keep]; symmetry; apply new_datetime_fails; now rewrite Bm, Bd].
  destruct (between 0 23 h) eqn:Bh;
    [|cbn [keep]; symmetry; apply new_datetime_fails; now rewrite Bm, Bd, Bh].
  destruct (between 0 59 mi) eqn:Bmi;
    [|cbn [keep]; symmetry; apply new_datetime_fails; now rewrite Bm, Bd, Bh, Bmi].
  pose proof (match_second s Hs) as HS. unfold seconds_group_ok in HS.
  destruct (re_match [Group "S" (alts "S")] (zpad 2 s)) as [[[|[name t] [|? ?]] rest]|];
    try discriminate.
  cbn [keep].
  destruct (Z.leb_spec s 61) as [L | L].
  - apply andb_prop in HS as [HS Hn]. apply andb_prop in HS as [Ht Hr].
    apply String.eqb_eq in Ht, Hr. apply Ascii.eqb_eq in Hn. subst t rest name.
    cbn [Str.truthy String.eqb negb field found Ascii.eqb Bool.eqb rbind].
    rewrite py_int_zpad4 by assumption. cbn [rbind].
    rewrite !py_int_zpad2 by assumption. reflexivity.
  - rewrite HS. symmetry. apply new_datetime_fails.
    rewrite Bm, Bd, Bh, Bmi. unfold between. cbn [andb].
    destruct (Z.leb_spec s 59); [lia|]. apply andb_false_r.
Qed.

End Strptime.

(** ** [json.loads] after [json.dumps] *)

Lemma append_assoc (a b c : string) : (a ++ b) ++ c = a ++ (b ++ c).
Proof. induction a as [|x a IH]; simpl; [reflexivity | now rewrite IH]. Qed.

Lemma append_nil_r (a : string) : a ++ "" = a.
Proof. induction a as [|x a IH]; simpl; [reflexivity | now rewrite IH]. Qed.

Lemma length_append (a b : string) :
  String.length (a ++ b) = String.length a + String.length b.
Proof. induction a as [|x a IH]; simpl; [reflexivity | now rewrite IH]. Qed.

(** The decoder reads an escaped character back. *)
Lemma scanstring_escape_char c s :
  scanstring (escape_char c ++ s) =
  tr <- scanstring s;; Ok (String c (fst tr), snd tr).
Proof.
  destruct c as [[] [] [] [] [] [] [] []]; reflexivity.
Qed.

Lemma scanstring_escape s rest :
  scanstring (escape s ++ String quote rest) = Ok (s, rest).
Proof.
  induction s as [|c s IH]; [reflexivity|].
  cbn [escape]. rewrite append_assoc, scanstring_escape_char, IH. reflexivity.
Qed.

Lemma scan_once_string fuel s rest :
  scan_once (S fuel) (encode_basestring_ascii s ++ rest) = Ok (VStr s, rest).
Proof.
  unfold encode_basestring_ascii. cbn [scan_once append Ascii.eqb Bool.eqb quote].
  change (Ascii false true false false false true false false) with quote.
  rewrite append_assoc. cbn [append]. now rewrite scanstring_escape.
Qed.

Lemma enc_app s r : encode_basestring_ascii s ++ r = String quote (escape s ++ String quote r).
Proof. unfold encode_basestring_ascii. cbn [append]. now rewrite append_assoc. Qed.

Lemma skip_ws_spaces n c r :
  is_json_ws c = false -> skip_ws (spaces n ++ String c r) = String c r.
Proof.
  intros Hc. induction n as [|n IH]; cbn [spaces append skip_ws].
  - now rewrite Hc.
  - exact IH.
Qed.

Lemma skip_ws_indent lvl c r :
  is_json_ws c = false -> skip_ws (newline_indent lvl ++ String c r) = String c r.
Proof.
  intros Hc. unfold newline_indent. rewrite append_assoc.
  cbn [Str.nl append skip_ws]. change (is_json_ws Str.newline) with true. cbv iota.
  now apply skip_ws_spaces.
Qed.

Lemma scan_once_quote fuel s rest :
  scan_once (S fuel) (String quote (escape s ++ String quote rest)) = Ok (VStr s, rest).
Proof. rewrite <- enc_app. apply scan_once_string. Qed.

Lemma json_object_member fuel k v T :
  json_object (S (S fuel))
    (escape k ++ String quote (String ":" (String " " (encode_basestring_ascii v ++ T)))) =
  match skip_ws T with
  | String "}" r' => Ok ([(k, VStr v)], r')
  | String "," r' =>
      match skip_ws r' with
      | String "034" r'' =>
          pr <- json_object (S fuel) r'';; Ok ((k, VStr v) :: fst pr, snd pr)
      | _ => Raise ValueError
      end
  | _ => Raise ValueError
  end.
Proof.
  cbn [json_object]. rewrite scanstring_escape. cbn [rbind fst snd].
  change (skip_ws (String ":" ?x)) with (String ":" x). cbv iota.
  change (skip_ws (String " " ?x)) with (skip_ws x).
  rewrite enc_app. change (skip_ws (String quote ?x)) with (String quote x).
  rewrite scan_once_quote. cbn [rbind fst snd]. reflexivity.
Qed.

Lemma item_text it rest :
  iterencode 1 (item_value it) ++ rest =
  String "{" (newline_indent 2 ++
    member_then "start_date" (start_date it) (String "," (newline_indent 2 ++
    member_then "end_date" (end_date it) (String "," (newline_indent 2 ++
    member_then "activation_code" (item_code it) (newline_indent 1 ++ String "}" rest)))))).
Proof.
  unfold item_value, member_then.
  cbn [iterencode map String.concat].
  rewrite !append_assoc. cbn [append].
  now rewrite (enc_app "start_date"), (enc_app "end_date"), (enc_app "activation_code").
Qed.

Lemma scan_once_object fuel r :
  scan_once (S fuel) (String "{" r) =
  match skip_ws r with
  | String "}" r' => Ok (VDict [], r')
  | String "034" r' =>
      pr <- json_object fuel r';; Ok (VDict (dict_of_pairs (fst pr)), snd pr)
  | _ => Raise ValueError
  end.
Proof. reflexivity. Qed.

Lemma scan_once_item fuel it rest :
  scan_once (S (S (S (S (S fuel))))) (iterencode 1 (item_value it) ++ rest) =
  Ok (item_value it, rest).
Proof.
  rewrite item_text, scan_once_object. unfold member_then.
  rewrite skip_ws_indent by reflexivity.
  rewrite json_object_member.
  change (skip_ws (String "," ?x)) with (String "," x). cbv iota.
  rewrite skip_ws_indent by reflexivity.
  rewrite json_object_member.
  change (skip_ws (String "," ?x)) with (String "," x). cbv iota.
  rewrite skip_ws_indent by reflexivity.
  rewrite json_object_member.
  rewrite skip_ws_indent by reflexivity.
  reflexivity.
Qed.

Lemma scan_once_item_fuel fuel it rest :
  5 <= fuel ->
  scan_once fuel (iterencode 1 (item_value it) ++ rest) = Ok (item_value it, rest).
Proof.
  intros H. do 5 (destruct fuel as [|fuel]; [lia|]). apply scan_once_item.
Qed.

Lemma items_text_head it more tail :
  exists r,
    String.concat item_sep (map (iterencode 1) (map item_value (it :: more))) ++ tail =
    String "{" r.
Proof.
  cbn [map String.concat]. destruct (map (iterencode 1) (map item_value more)).
  - rewrite item_text. eauto.
  - rewrite append_assoc, item_text. eauto.
Qed.

Lemma json_array_unfold fuel s :
  json_array (S fuel) s =
  (vr <- scan_once fuel s;;
   match skip_ws (snd vr) with
   | String "]" r => Ok ([fst vr], r)
   | String "," r => vsr <- json_array fuel (skip_ws r);; Ok (fst vr :: fst vsr, snd vsr)
   | _ => Raise ValueError
   end).
Proof. reflexivity. Qed.

Lemma json_array_items items : forall fuel rest,
  items <> [] -> List.length items + 5 <= fuel ->
  json_array fuel
    (String.concat item_sep (map (iterencode 1) (map item_value items)) ++
     newline_indent 0 ++ String "]" rest) =
  Ok (map item_value items, rest).
Proof.
  induction items as [|it more IH]; intros fuel rest Hne Hfuel; [congruence|].
  destruct fuel as [|fuel]; [simpl in Hfuel; lia|]. rewrite json_array_unfold.
  destruct more as [|it2 more].
  - cbn [map String.concat].
    rewrite scan_once_item_fuel by (simpl in Hfuel; lia). cbn [rbind fst snd].
    rewrite skip_ws_indent by reflexivity. reflexivity.
  - destruct (items_text_head it2 more (newline_indent 0 ++ String "]" rest)) as [r Er].
    change (map (iterencode 1) (map item_value (it :: it2 :: more)))
      with (iterencode 1 (item_value it) :: map (iterencode 1) (map item_value (it2 :: more))).
    remember (map (iterencode 1) (map item_value (it2 :: more))) as texts eqn:Et.
    destruct texts as [|t texts]; [discriminate|].
    change (String.concat item_sep (iterencode 1 (item_value it) :: t :: texts))
      with (iterencode 1 (item_value it) ++ item_sep ++ String.concat item_sep (t :: texts)).
    rewrite !append_assoc.
    rewrite scan_once_item_fuel by (simpl in Hfuel; lia). cbn [rbind fst snd].
    unfold item_sep at 1. rewrite append_assoc. cbn [append].
    change (skip_ws (String "," ?x)) with (String "," x). cbv iota.
    rewrite Er, skip_ws_indent by reflexivity. rewrite <- Er.
    rewrite IH; [reflexivity | discriminate | simpl in *; lia].
Qed.

Lemma length_items_text items :
  List.length items <=
  String.length (String.concat item_sep (map (iterencode 1) (map item_value items))).
Proof.
  induction items as [|it more IH]; [apply Nat.le_0_l|].
  cbn [map String.concat List.length].
  assert (H1 : 1 <= String.length (iterencode 1 (item_value it))).
  { pose proof (f_equal String.length (item_text it "")) as E.
    rewrite length_append in E. cbn [String.length] in E. lia. }
  destruct (map (iterencode 1) (map item_value more)) eqn:E.
  - destruct more; [simpl; lia | discriminate].
  - rewrite !length_append. lia.
Qed.

Lemma json_loads_dumps_items (formatted_data : list cache_item) :
  json_loads (json_dumps_indent2 (VList (map item_value formatted_data))) =
  Ok (VList (map item_value formatted_data)).
Proof.
  destruct formatted_data as [|it more]; [reflexivity|].
  unfold json_dumps_indent2, json_loads.
  set (items := it :: more).
  assert (T : iterencode 0 (VList (map item_value items)) =
              String "[" (newline_indent 1 ++
                String.concat item_sep (map (iterencode 1) (map item_value items)) ++
                newline_indent 0 ++ String "]" "")).
  { reflexivity. }
  rewrite T. clear T.
  change (skip_ws (String "[" ?x)) with (String "[" x).
  destruct (items_text_head it more (newline_indent 0 ++ String "]" "")) as [r Er].
  fold items in Er.
  cbn [scan_once]. change (("[" =? quote)%char) with false.
  change (("[" =? "[")%char) with true. cbv iota.
  rewrite Er, skip_ws_indent by reflexivity.
  change (match String "{" r with
          | String "]" r' => Ok (VList [], r')
          | _ => vr <- json_array
                         (2 * String.length (String "[" (newline_indent 1 ++ String "{" r)))
                         (String "{" r);;
                 Ok (VList (fst vr), snd vr)
          end)
    with (vr <- json_array
                  (2 * String.length (String "[" (newline_indent 1 ++ String "{" r)))
                  (String "{" r);;
          Ok (VList (fst vr), snd vr)).
  rewrite <- Er. rewrite json_array_items.
  - reflexivity.
  - discriminate.
  - pose proof (length_items_text items) as L.
    cbn [String.length]. rewrite !length_append. cbn [String.length].
    change (String.length (newline_indent 1)) with 3.
    change (String.length (newline_indent 0)) with 1. lia.
Qed.

(** ** The cache payload *)

Lemma has_shape_app sh1 : forall s1 sh2 s2,
  has_shape sh1 s1 = true -> has_shape (sh1 ++ sh2) (s1 ++ s2) = has_shape sh2 s2.
Proof.
  induction sh1 as [|p sh1 IH]; intros [|c s1] sh2 s2 H; simpl in *; try discriminate.
  - reflexivity.
  - apply andb_prop in H as [Hp H]. rewrite Hp. simpl. now apply IH.
Qed.

Lemma digits_shape2 n : (0 <= n <= 99)%Z -> has_shape [is_digit; is_digit] (zpad 2 n) = true.
Proof.
  intros H. apply (zrange_all_spec (digits_shape 2) 100 0%Z); [vm_compute; reflexivity | lia].
Qed.

Lemma digits_shape4 n :
  (0 <= n <= 9999)%Z -> has_shape [is_digit; is_digit; is_digit; is_digit] (zpad 4 n) = true.
Proof.
  intros H.
  apply (zrange_all_spec (digits_shape 4) (Z.to_nat 10000) 0%Z); [vm_compute; reflexivity | lia].
Qed.

Lemma has_shape_zpad2 sh n s :
  (0 <= n <= 99)%Z ->
  has_shape (is_digit :: is_digit :: sh) (zpad 2 n ++ s) = has_shape sh s.
Proof.
  intros H. apply (has_shape_app [is_digit; is_digit]). now apply digits_shape2.
Qed.

Lemma has_shape_zpad4 sh n s :
  (0 <= n <= 9999)%Z ->
  has_shape (is_digit :: is_digit :: is_digit :: is_digit :: sh) (zpad 4 n ++ s) =
  has_shape sh s.
Proof.
  intros H. apply (has_shape_app [is_digit; is_digit; is_digit; is_digit]).
  now apply digits_shape4.
Qed.

Lemma has_shape_char c sh s : has_shape (is_char c :: sh) (String c s) = has_shape sh s.
Proof. cbn [has_shape]. unfold is_char. now rewrite Ascii.eqb_refl. Qed.

Lemma fields_shape (sep1 sep2 : ascii) y m d h mi s :
  (0 <= y <= 9999)%Z -> (0 <= m <= 99)%Z -> (0 <= d <= 99)%Z ->
  (0 <= h <= 99)%Z -> (0 <= mi <= 99)%Z -> (0 <= s <= 99)%Z ->
  has_shape
    [is_digit; is_digit; is_digit; is_digit; is_char sep1; is_digit; is_digit; is_char sep1;
     is_digit; is_digit; is_char sep2; is_digit; is_digit; is_char ":"; is_digit; is_digit;
     is_char ":"; is_digit; is_digit]
    (zpad 4 y ++ String sep1 (zpad 2 m ++ String sep1 (zpad 2 d ++ String sep2
      (zpad 2 h ++ String ":" (zpad 2 mi ++ String ":" (zpad 2 s)))))) = true.
Proof.
  intros Hy Hm Hd Hh Hmi Hs.
  rewrite has_shape_zpad4, has_shape_char by assumption.
  do 4 (rewrite has_shape_zpad2, has_shape_char by assumption).
  now apply digits_shape2.
Qed.

Lemma isoformat_shape dt :
  datetime_ok dt = true -> microsecond dt = 0%Z ->
  has_shape iso_seconds_shape (isoformat dt) = true.
Proof.
  intros Hok Hus. pose proof (datetime_ok_bounds dt Hok) as B.
  pose proof (days_in_month_le (year dt) (month dt)).
  unfold isoformat. rewrite Hus. change (0 =? 0)%Z with true. cbv iota.
  pose proof (fields_shape "-" "T" (year dt) (month dt) (day dt) (hour dt) (minute dt)
                (second dt)) as F.
  cbn [append]. rewrite (append_nil_r (zpad 2 (second dt))).
  apply F; lia.
Qed.

Lemma padded_text_shape y m d h mi s :
  (0 <= y <= 9999)%Z -> (0 <= m <= 99)%Z -> (0 <= d <= 99)%Z ->
  (0 <= h <= 99)%Z -> (0 <= mi <= 99)%Z -> (0 <= s <= 99)%Z ->
  has_shape padded_shape (padded_text y m d h mi s) = true.
Proof.
  intros. unfold padded_text. cbn [append]. now apply (fields_shape "-" " ").
Qed.

Lemma is_digit_char c :
  is_digit c = true -> exists v, (0 <= v <= 9)%Z /\ c = digit_char v.
Proof.
  intros H. exists (digit_value c).
  destruct c as [[] [] [] [] [] [] [] []]; try discriminate H; split; try reflexivity;
    vm_compute; split; discriminate.
Qed.

Lemma zpad2_of_digits a b :
  (0 <= a <= 9)%Z -> (0 <= b <= 9)%Z ->
  zpad 2 (10 * a + b) = String (digit_char a) (String (digit_char b) "").
Proof.
  intros Ha Hb. cbn [zpad append].
  replace ((10 * a + b) / 10 mod 10)%Z with a by (Z.div_mod_to_equations; lia).
  replace ((10 * a + b) mod 10)%Z with b by (Z.div_mod_to_equations; lia).
  reflexivity.
Qed.

Lemma zpad4_of_digits a b c d :
  (0 <= a <= 9)%Z -> (0 <= b <= 9)%Z -> (0 <= c <= 9)%Z -> (0 <= d <= 9)%Z ->
  zpad 4 (1000 * a + 100 * b + 10 * c + d) =
  String (digit_char a) (String (digit_char b) (String (digit_char c) (String (digit_char d) ""))).
Proof.
  intros Ha Hb Hc Hd. cbn [zpad append].
  replace ((1000 * a + 100 * b + 10 * c + d) / 10 / 10 / 10 mod 10)%Z with a
    by (Z.div_mod_to_equations; lia).
  replace ((1000 * a + 100 * b + 10 * c + d) / 10 / 10 mod 10)%Z with b
    by (Z.div_mod_to_equations; lia).
  replace ((1000 * a + 100 * b + 10 * c + d) / 10 mod 10)%Z with c
    by (Z.div_mod_to_equations; lia).
  replace ((1000 * a + 100 * b + 10 * c + d) mod 10)%Z with d
    by (Z.div_mod_to_equations; lia).
  reflexivity.
Qed.

Lemma padded_shape_text text :
  has_shape padded_shape text = true ->
  exists y m d h mi s,
    ((0 <= y <= 9999) /\ (0 <= m <= 99) /\ (0 <= d <= 99) /\
     (0 <= h <= 99) /\ (0 <= mi <= 99) /\ (0 <= s <= 99))%Z /\
    text = padded_text y m d h mi s.
Proof.
  unfold padded_shape. intros H.
  do 19 (destruct text as [|? text]; cbn [has_shape] in H;
         [discriminate H | apply andb_prop in H as [?H H]]).
  destruct text; [|discriminate H]. clear H.
  repeat match goal with
         | H : is_char _ _ = true |- _ => apply Ascii.eqb_eq in H; subst
         | H : is_digit _ = true |- _ => apply is_digit_char in H as (? & ? & ->)
         end.
  match goal with
  | |- exists y m d h mi s, _ /\
         String (digit_char ?y1) (String (digit_char ?y2) (String (digit_char ?y3)
           (String (digit_char ?y4) (String _ (String (digit_char ?m1)
             (String (digit_char ?m2) (String _ (String (digit_char ?d1)
               (String (digit_char ?d2) (String _ (String (digit_char ?h1)
                 (String (digit_char ?h2) (String _ (String (digit_char ?n1)
                   (String (digit_char ?n2) (String _ (String (digit_char ?s1)
                     (String (digit_char ?s2) _)))))))))))))))))) = _ =>
      exists (1000 * y1 + 100 * y2 + 10 * y3 + y4)%Z, (10 * m1 + m2)%Z, (10 * d1 + d2)%Z,
             (10 * h1 + h2)%Z, (10 * n1 + n2)%Z, (10 * s1 + s2)%Z
  end.
  split; [lia|]. unfold padded_text.
  rewrite zpad4_of_digits, !zpad2_of_digits by assumption. reflexivity.
Qed.

Lemma format_date_ok date_str t :
  format_date date_str = Ok t ->
  exists dt, strptime date_str DATE_FORMAT = Ok dt /\ t = isoformat dt.
Proof.
  unfold format_date. intros H. apply rbind_ok in H as (dt & E & H).
  injection H as <-. eauto.
Qed.

Lemma format_entry_formatted e it : format_entry e = Ok it -> formatted e it.
Proof.
  unfold format_entry, unpack2. intros H.
  apply rbind_ok in H as ([a b] & E & H).
  destruct (Str.split range_sep (date_range e)) as [|a' [|b' [|? ?]]] eqn:Sp;
    try discriminate.
  injection E as -> ->. cbn [fst snd] in H.
  apply rbind_ok in H as (s & Es & H). apply rbind_ok in H as (t & Et & H).
  injection H as <-.
  apply format_date_ok in Es as (da & Ea & ->). apply format_date_ok in Et as (db & Eb & ->).
  exists a, b, da, db. auto.
Qed.

Lemma format_entries_formatted parsed : forall fd,
  format_entries parsed = Ok fd -> Forall2 formatted parsed fd.
Proof.
  induction parsed as [|e parsed IH]; intros fd H; simpl in H.
  - injection H as <-. constructor.
  - apply rbind_ok in H as (it & Ei & H). apply rbind_ok in H as (its & Eis & H).
    injection H as <-. constructor; [now apply format_entry_formatted | now apply IH].
Qed.

Lemma create_json_object_ok parsed text :
  create_json_object parsed = Ok text ->
  exists fd, format_entries parsed = Ok fd /\
             text = json_dumps_indent2 (VList (map item_value fd)).
Proof.
  unfold create_json_object. intros H. apply rbind_ok in H as (fd & E & H).
  injection H as <-. eauto.
Qed.

Lemma loaded_cache parsed text :
  create_json_object parsed = Ok text ->
  exists fd,
    format_entries parsed = Ok fd /\
    json_loads text = Ok (VList (map item_value fd)) /\
    Forall2 formatted parsed fd.
Proof.
  intros H. apply create_json_object_ok in H as (fd & E & ->).
  exists fd. split; [exact E|]. split; [apply json_loads_dumps_items|].
  now apply format_entries_formatted.
Qed.

(** C7. What [json.loads] reads from the text [create_json_object] returns is
    the list [formatted_data] itself: one dict per parsed entry, in the same
    order, with the activation code of the entry and the two dates as the ISO
    texts (precision of seconds) that [format_date] made of the halves of
    its range. *)
Theorem json_round_trip (parsed_data : list entry) (text : string) :
  create_json_object parsed_data = Ok text ->
  exists formatted_data,
    format_entries parsed_data = Ok formatted_data /\
    json_loads text = Ok (VList (map item_value formatted_data)) /\
    Forall2 (fun e it =>
               item_code it = activation_code e /\
               has_shape iso_seconds_shape (start_date it) = true /\
               has_shape iso_seconds_shape (end_date it) = true)
            parsed_data formatted_data.
Proof.
  intros H. apply loaded_cache in H as (fd & E & L & F).
  exists fd. split; [exact E|]. split; [exact L|]. clear E L.
  induction F as [|e it parsed fd (a & b & da & db & _ & Ea & Eb & ->) _ IH]; constructor;
    [|exact IH].
  apply strptime_ok in Ea as [Oa Ua]. apply strptime_ok in Eb as [Ob Ub].
  cbn [item_code start_date end_date]. auto using isoformat_shape.
Qed.

(** C8. The payload written to keys.json is a JSON array, in the layout of
    [json.dumps(..., indent=2)], of one object per parsed entry with exactly
    the keys start_date, end_date and activation_code: that is what
    [json.loads] reads from it.  Each date is the ISO text, without fraction
    or offset, of the wall-clock value [strptime] read from its half of the
    range: reading the text back with [fromisoformat] gives that same value,
    no offset having been applied. *)
Theorem keys_json_payload (parsed_data : list entry) (text : string) :
  create_json_object parsed_data = Ok text ->
  exists formatted_data,
    text = json_dumps_indent2 (VList (map item_value formatted_data)) /\
    json_loads text = Ok (VList (map item_value formatted_data)) /\
    length formatted_data = length parsed_data /\
    Forall2 (fun e it =>
               exists a b da db,
                 Str.split range_sep (date_range e) = [a; b] /\
                 strptime a DATE_FORMAT = Ok da /\
                 strptime b DATE_FORMAT = Ok db /\
                 item_value it =
                   VDict [("start_date", VStr (isoformat da));
                          ("end_date", VStr (isoformat db));
                          ("activation_code", VStr (activation_code e))] /\
                 has_shape iso_seconds_shape (isoformat da) = true /\
                 has_shape iso_seconds_shape (isoformat db) = true /\
                 fromisoformat (isoformat da) = Ok da /\
                 fromisoformat (isoformat db) = Ok db)
            parsed_data formatted_data.
Proof.
  intros H. apply create_json_object_ok in H as (fd & E & ->).
  exists fd. split; [reflexivity|].
  split; [apply json_loads_dumps_items|].
  apply format_entries_formatted in E.
  split; [symmetry; exact (Forall2_length E)|].
  induction E as [|e it parsed fd (a & b & da & db & Es & Ea & Eb & ->) _ IH]; constructor;
    [|exact IH].
  exists a, b, da, db.
  pose proof (strptime_ok _ _ _ Ea) as [Oa Ua]. pose proof (strptime_ok _ _ _ Eb) as [Ob Ub].
  repeat split; auto using isoformat_shape, fromisoformat_isoformat.
Qed.

Example json_round_trip_witness :
  exists formatted_data,
    format_entries example_entries = Ok formatted_data /\
    json_loads example_payload = Ok (VList (map item_value formatted_data)) /\
    Forall2 (fun e it =>
               item_code it = activation_code e /\
               has_shape iso_seconds_shape (start_date it) = true /\
               has_shape iso_seconds_shape (end_date it) = true)
            example_entries formatted_data.
Proof.
  apply (json_round_trip example_entries example_payload). vm_compute. reflexivity.
Defined.

Example keys_json_payload_witness :
  exists formatted_data,
    example_payload = json_dumps_indent2 (VList (map item_value formatted_data)) /\
    json_loads example_payload = Ok (VList (map item_value formatted_data)) /\
    length formatted_data = length example_entries /\
    Forall2 (fun e it =>
               exists a b da db,
                 Str.split range_sep (date_range e) = [a; b] /\
                 strptime a DATE_FORMAT = Ok da /\
                 strptime b DATE_FORMAT = Ok db /\
                 item_value it =
                   VDict [("start_date", VStr (isoformat da));
                          ("end_date", VStr (isoformat db));
                          ("activation_code", VStr (activation_code e))] /\
                 has_shape iso_seconds_shape (isoformat da) = true /\
                 has_shape iso_seconds_shape (isoformat db) = true /\
                 fromisoformat (isoformat da) = Ok da /\
                 fromisoformat (isoformat db) = Ok db)
            example_entries formatted_data.
Proof.
  apply (keys_json_payload example_entries example_payload). vm_compute. reflexivity.
Defined.

(** ** The normaliser *)

Lemma fromisoformat_ok s dt :
  fromisoformat s = Ok dt -> datetime_ok dt = true /\ microsecond dt = 0%Z.
Proof.
  unfold fromisoformat.
  destruct (iso_fields s) as [[[[[[y m] d] h] mi] sec]|]; [|discriminate].
  intros H. apply new_datetime_ok in H as [-> H]. now split.
Qed.

Lemma convert_to_utc_cases s dt :
  fromisoformat s = Ok dt ->
  ((eight_hours <= to_microseconds dt)%Z /\
   exists u, convert_to_utc s = Ok u /\ datetime_ok u = true /\
             to_microseconds u = (to_microseconds dt - eight_hours)%Z) \/
  ((to_microseconds dt < eight_hours)%Z /\ convert_to_utc s = Raise OverflowError).
Proof.
  intros E. unfold convert_to_utc. rewrite E. cbn [rbind].
  apply fromisoformat_ok in E as [Hok Hus]. now apply astimezone_utc_plus_8.
Qed.

Lemma convert_to_utc_ok s u : convert_to_utc s = Ok u -> datetime_ok u = true.
Proof.
  intros H. destruct (fromisoformat s) as [dt|e] eqn:E.
  - destruct (convert_to_utc_cases s dt E) as [(_ & u' & E' & Hu & _) | (_ & E')];
      congruence.
  - unfold convert_to_utc in H. rewrite E in H. discriminate.
Qed.

(** ** The selector *)

Lemma getitem_item_value it :
  getitem (item_value it) "start_date" = Ok (VStr (start_date it)) /\
  getitem (item_value it) "end_date" = Ok (VStr (end_date it)) /\
  getitem (item_value it) "activation_code" = Ok (VStr (item_code it)).
Proof. repeat split. Qed.

Lemma select_code_windows now : forall items ws,
  datetime_ok now = true ->
  normalize_all items = Ok ws ->
  select_code now (map item_value items) =
  Ok (option_map (fun w => VStr (window_code w)) (first_window now ws)).
Proof.
  intros items ws Hnow. revert ws.
  induction items as [|it items IH]; intros ws H; simpl in H.
  - injection H as <-. reflexivity.
  - apply rbind_ok in H as (w & Ew & H). apply rbind_ok in H as (ws' & Ews & H).
    injection H as <-.
    unfold normalize in Ew. apply rbind_ok in Ew as (s & Es & Ew).
    apply rbind_ok in Ew as (e & Ee & Ew). injection Ew as <-.
    cbn [map select_code].
    destruct (getitem_item_value it) as (-> & -> & ->).
    cbn [fst snd rbind convert_value_to_utc].
    rewrite Es. cbn [rbind]. rewrite Ee. cbn [rbind].
    unfold datetime_ge.
    rewrite (datetime_le_spec s now) by eauto using convert_to_utc_ok.
    rewrite (datetime_le_spec now e) by eauto using convert_to_utc_ok.
    unfold first_window. cbn [find]. unfold in_window at 1.
    cbn [window_start window_end window_code].
    destruct ((to_microseconds s <=? to_microseconds now)%Z &&
              (to_microseconds now <=? to_microseconds e)%Z).
    + reflexivity.
    + now apply IH.
Qed.

(** The selector on the items of a cache whose dates convert: the code of
    the first window that contains [now], unless that code is empty. *)
Lemma selector_windows (now : datetime) (items : list cache_item)
  (ws : list ActivationWindow) :
  datetime_ok now = true ->
  normalize_all items = Ok ws ->
  selector now (Some (VList (map item_value items))) =
  Ok match first_window now ws with
     | Some w => if Str.truthy (window_code w) then Found (VStr (window_code w)) else NoneFound
     | None => NoneFound
     end.
Proof.
  intros Hnow Hws. unfold selector. cbn [py_iter rbind].
  rewrite (select_code_windows now items ws Hnow Hws). cbn [rbind].
  destruct (first_window now ws) as [w|]; [|reflexivity].
  cbn [option_map value_truthy]. now destruct (Str.truthy (window_code w)).
Qed.

(** C3 (as amended). [format_date] keeps the wall-clock value [strptime]
    reads, and [convert_to_utc] takes that value as one of the zone UTC+8: for
    every well-formed timestamp from 0001-01-01 08:00:00 on, the UTC value is
    exactly eight hours earlier on the time line.  The two ends of the range
    "2024-01-01 00:00:00 - 2024-01-02 00:00:00" come out exactly 24 hours
    apart. *)
Theorem convert_to_utc_eight_hours_earlier (date_str : string) (dt : datetime)
  (code : string) :
  strptime date_str DATE_FORMAT = Ok dt ->
  (eight_hours <= to_microseconds dt)%Z ->
  (format_date date_str = Ok (isoformat dt) /\
   exists utc_date,
     convert_to_utc (isoformat dt) = Ok utc_date /\
     datetime_ok utc_date = true /\
     to_microseconds utc_date = (to_microseconds dt - eight_hours)%Z) /\
  (exists it start_time end_time,
     format_entry (mk_entry "2024-01-01 00:00:00 - 2024-01-02 00:00:00" code) = Ok it /\
     convert_to_utc (start_date it) = Ok start_time /\
     convert_to_utc (end_date it) = Ok end_time /\
     (to_microseconds end_time - to_microseconds start_time = 24 * 3600 * 1000000)%Z).
Proof.
  intros Hs Hge. split.
  - split; [unfold format_date; now rewrite Hs|].
    destruct (strptime_ok _ _ _ Hs) as [Hok Hus].
    pose proof (fromisoformat_isoformat dt Hok Hus) as Hiso.
    destruct (convert_to_utc_cases _ _ Hiso) as [(_ & u & Eu & Hu & Tu) | (Hlt & _)];
      [eauto | lia].
  - exists (mk_cache_item "2024-01-01T00:00:00" "2024-01-02T00:00:00" code),
      (mk_datetime 2023 12 31 16 0 0 0), (mk_datetime 2024 1 1 16 0 0 0).
    repeat split.
Qed.

Example convert_to_utc_eight_hours_earlier_witness :
  (format_date "2024-03-01 07:30:00" = Ok (isoformat (mk_datetime 2024 3 1 7 30 0 0)) /\
   exists utc_date,
     convert_to_utc (isoformat (mk_datetime 2024 3 1 7 30 0 0)) = Ok utc_date /\
     datetime_ok utc_date = true /\
     to_microseconds utc_date =
       (to_microseconds (mk_datetime 2024 3 1 7 30 0 0) - eight_hours)%Z) /\
  (exists it start_time end_time,
     format_entry (mk_entry "2024-01-01 00:00:00 - 2024-01-02 00:00:00" "ABCDEF") = Ok it /\
     convert_to_utc (start_date it) = Ok start_time /\
     convert_to_utc (end_date it) = Ok end_time /\
     (to_microseconds end_time - to_microseconds start_time = 24 * 3600 * 1000000)%Z).
Proof.
  apply (convert_to_utc_eight_hours_earlier "2024-03-01 07:30:00"
           (mk_datetime 2024 3 1 7 30 0 0) "ABCDEF").
  - reflexivity.
  - vm_compute. discriminate.
Defined.

(** C3 as stated fails in the first eight hours of year 1: the
    timestamp is well-formed, and its UTC value would lie before the first
    day [datetime] has. *)
Example convert_to_utc_year_one :
  strptime "0001-01-01 00:00:00" DATE_FORMAT = Ok (mk_datetime 1 1 1 0 0 0 0) /\
  format_date "0001-01-01 00:00:00" = Ok "0001-01-01T00:00:00" /\
  convert_to_utc "0001-01-01T00:00:00" = Raise OverflowError.
Proof. repeat split. Qed.

(** ** The texts [strptime] reads for the format of line 137 *)

(** *** What a match says about the text *)

Lemma match_alt_inv alt : forall s t s',
  match_alt alt s = Some (t, s') ->
  s = t ++ s' /\ has_shape (map charset_has alt) t = true.
Proof.
  induction alt as [|cs alt IH]; intros s t s' H; cbn [match_alt] in H.
  - injection H as <- <-. now split.
  - destruct s as [|c r]; [discriminate|].
    destruct (charset_has cs c) eqn:Hc; [|discriminate].
    destruct (match_alt alt r) as [[t0 r0]|] eqn:E; [|discriminate].
    cbn [option_map] in H. injection H as <- <-.
    destruct (IH _ _ _ E) as [-> Hsh]. split; [reflexivity|].
    cbn [map has_shape]. now rewrite Hc.
Qed.

Lemma re_match_group_inv name alts p s caps r :
  re_match (Group name alts :: p) s = Some (caps, r) ->
  exists alt t s' caps',
    In alt alts /\ match_alt alt s = Some (t, s') /\
    re_match p s' = Some (caps', r) /\ caps = (name, t) :: caps'.
Proof.
  cbn [re_match]. induction alts as [|alt more IH]; [discriminate|].
  destruct (match_alt alt s) as [[t s']|] eqn:E.
  - destruct (re_match p s') as [[caps' r']|] eqn:E'.
    + intros [= <- <-]. exists alt, t, s', caps'. repeat split; auto. now left.
    + intros H. destruct (IH H) as (a & t0 & s0 & c0 & Hin & ?). exists a, t0, s0, c0.
      split; [now right | assumption].
  - intros H. destruct (IH H) as (a & t0 & s0 & c0 & Hin & ?). exists a, t0, s0, c0.
    split; [now right | assumption].
Qed.

Lemma re_match_literal_inv c p s caps r :
  re_match (Literal c :: p) s = Some (caps, r) ->
  exists s', s = String c s' /\ re_match p s' = Some (caps, r).
Proof.
  cbn [re_match]. destruct s as [|c' s']; [discriminate|].
  destruct (Ascii.eqb_spec c c'); [|discriminate]. subst. eauto.
Qed.

Lemma re_match_spaces_inv p s caps r :
  re_match (Spaces :: p) s = Some (caps, r) ->
  exists w s', s = w ++ s' /\ w <> "" /\ all_blank w = true /\
               re_match p s' = Some (caps, r).
Proof.
  cbn [re_match]. induction s as [|c s IH]; [discriminate|].
  destruct (Str.isspace c) eqn:Hc; [|discriminate].
  match goal with |- context [match ?b with Some _ => _ | None => _ end] =>
    destruct b as [x|] eqn:E end.
  - intros [= ->]. destruct (IH eq_refl) as (w & s' & -> & Hw & Hb & Hm).
    exists (String c w), s'. cbn [append all_blank]. rewrite Hc, Hb.
    repeat split; [discriminate | assumption].
  - intros H. exists (String c ""), s. cbn [append all_blank]. rewrite Hc.
    repeat split; [discriminate | assumption].
Qed.

Lemma charset_digit cs c :
  digit_only cs = true -> charset_has cs c = true -> is_digit c = true.
Proof.
  destruct cs as [|lo hi|c']; cbn [digit_only charset_has]; intros D H.
  - exact H.
  - unfold is_digit in *. apply andb_prop in D as [D1 D2], H as [H1 H2].
    apply andb_prop in D1 as [D1 _], D2 as [_ D2].
    apply N.leb_le in D1, D2, H1, H2.
    apply andb_true_intro. split; apply N.leb_le; lia.
  - apply Ascii.eqb_eq in H. now subst.
Qed.

Lemma py_int_digit n :
  (0 <= n <= 9)%Z ->
  py_int (String (digit_char n) "") = Ok n /\
  py_int (String " " (String (digit_char n) "")) = Ok n.
Proof.
  intros Hn.
  pose proof (zrange_all_spec int_of_digit_ok 10 0%Z eq_refl n ltac:(lia)) as H.
  unfold int_of_digit_ok, result_eqb in H. apply andb_prop in H as [H1 H2].
  destruct (py_int (String (digit_char n) "")); [|discriminate].
  destruct (py_int (String " " _)); [|discriminate].
  apply Z.eqb_eq in H1, H2. now subst.
Qed.

(** The text of a group, by the number of its characters. *)
Lemma two_digits_field blank_ok c1 c2 n :
  is_digit c1 = true -> is_digit c2 = true ->
  py_int (String c1 (String c2 "")) = Ok n ->
  field_text blank_ok n (String c1 (String c2 "")).
Proof.
  intros H1 H2 Hn.
  apply is_digit_char in H1 as (a & Ha & ->). apply is_digit_char in H2 as (b & Hb & ->).
  rewrite <- (zpad2_of_digits a b Ha Hb) in *.
  rewrite py_int_zpad2 in Hn by lia. injection Hn as <-. constructor. lia.
Qed.

Lemma one_digit_field blank_ok c n :
  is_digit c = true -> py_int (String c "") = Ok n -> field_text blank_ok n (String c "").
Proof.
  intros H Hn. apply is_digit_char in H as (a & Ha & ->).
  destruct (py_int_digit a Ha) as [E _]. rewrite E in Hn. injection Hn as <-.
  now constructor.
Qed.

Lemma blank_digit_field c n :
  is_digit c = true -> py_int (String " " (String c "")) = Ok n ->
  field_text true n (String " " (String c "")).
Proof.
  intros H Hn. apply is_digit_char in H as (a & Ha & ->).
  destruct (py_int_digit a Ha) as [_ E]. rewrite E in Hn. injection Hn as <-.
  now constructor.
Qed.

Lemma has_shape_cons_inv p shape s :
  has_shape (p :: shape) s = true ->
  exists c r, s = String c r /\ p c = true /\ has_shape shape r = true.
Proof.
  destruct s as [|c r]; [discriminate|]. cbn [has_shape]. intros H.
  apply andb_prop in H as [H1 H2]. eauto.
Qed.

Lemma has_shape_nil_inv s : has_shape [] s = true -> s = "".
Proof. destruct s; [reflexivity | discriminate]. Qed.

Ltac shape_inv H :=
  cbn [map] in H;
  repeat match type of H with
         | has_shape (_ :: _) _ = true =>
             apply has_shape_cons_inv in H as (? & ? & -> & ? & H)
         | has_shape [] _ = true => apply has_shape_nil_inv in H; subst
         end.

Ltac digits_only :=
  repeat match goal with
         | H : charset_has (Exactly " ") _ = true |- _ =>
             cbn [charset_has] in H; apply Ascii.eqb_eq in H; subst
         | H : charset_has _ _ = true |- _ => apply charset_digit in H; [|reflexivity]
         end.

Lemma group_text_field (g : ascii) alt s t s' n :
  In g ["m"; "H"; "M"; "S"]%char ->
  In alt (alts g) -> match_alt alt s = Some (t, s') -> py_int t = Ok n ->
  s = t ++ s' /\ field_text false n t.
Proof.
  intros Hg Halt Hm Hn. apply match_alt_inv in Hm as [-> Hsh]. split; [reflexivity|].
  cbn [In] in Hg.
  destruct Hg as [<-|[<-|[<-|[<-|[]]]]]; cbn in Halt;
    repeat (destruct Halt as [<- | Halt]; [shape_inv Hsh; digits_only|]);
    try contradiction; auto using two_digits_field, one_digit_field.
Qed.

Lemma day_text_field alt s t s' n :
  In alt (alts "d") -> match_alt alt s = Some (t, s') -> py_int t = Ok n ->
  s = t ++ s' /\ field_text true n t.
Proof.
  intros Halt Hm Hn. apply match_alt_inv in Hm as [-> Hsh]. split; [reflexivity|].
  cbn in Halt.
  repeat (destruct Halt as [<- | Halt]; [shape_inv Hsh; digits_only|]);
    try contradiction; auto using two_digits_field, one_digit_field, blank_digit_field.
Qed.

Lemma year_text alt s t s' n :
  In alt (alts "Y") -> match_alt alt s = Some (t, s') -> py_int t = Ok n ->
  s = t ++ s' /\ t = zpad 4 n /\ (0 <= n <= 9999)%Z.
Proof.
  intros Halt Hm Hn. apply match_alt_inv in Hm as [-> Hsh]. split; [reflexivity|].
  cbn in Halt. destruct Halt as [<- | []].
  shape_inv Hsh.
  repeat match goal with
         | H : charset_has AnyDigit _ = true |- _ =>
             cbn [charset_has] in H; apply is_digit_char in H as (? & ? & ->)
         end.
  rewrite <- zpad4_of_digits in * by assumption.
  rewrite py_int_zpad4 in Hn by lia.
  match type of Hn with Ok ?v = Ok _ => assert (E : v = n) by congruence end.
  subst n. split; [reflexivity | lia].
Qed.

(** Every text that [strptime] reads is the text of its result, each field
    in one of its forms. *)
Lemma strptime_lenient s dt :
  strptime s DATE_FORMAT = Ok dt ->
  datetime_ok dt = true /\ microsecond dt = 0%Z /\ lenient_text dt s.
Proof.
  intros H. destruct (strptime_ok _ _ _ H) as [Hok Hus]. do 2 (split; [assumption|]).
  revert H. unfold strptime. rewrite pattern_date_format.
  destruct (re_match _ s) as [[caps rest]|] eqn:M; [|discriminate].
  destruct (Str.truthy rest) eqn:T; [discriminate|].
  apply truthy_false_iff in T. subst rest.
  apply re_match_group_inv in M as (aY & tY & s1 & c1 & HaY & MY & M & ->).
  apply re_match_literal_inv in M as (s2 & -> & M).
  apply re_match_group_inv in M as (am & tm & s3 & c3 & Ham & Mm & M & ->).
  apply re_match_literal_inv in M as (s4 & -> & M).
  apply re_match_group_inv in M as (ad & td & s5 & c5 & Had & Md & M & ->).
  apply re_match_spaces_inv in M as (w & s6 & -> & Hw & Hb & M).
  apply re_match_group_inv in M as (aH & tH & s7 & c7 & HaH & MH & M & ->).
  apply re_match_literal_inv in M as (s8 & -> & M).
  apply re_match_group_inv in M as (aM & tM & s9 & c9 & HaM & MM & M & ->).
  apply re_match_literal_inv in M as (s10 & -> & M).
  apply re_match_group_inv in M as (aS & tS & s11 & c11 & HaS & MS & M & ->).
  cbn [re_match] in M. injection M as <- ->.
  cbn [field found Ascii.eqb Bool.eqb]. intros H.
  apply rbind_ok in H as (y & Hy & H). apply rbind_ok in H as (m & Hm & H).
  apply rbind_ok in H as (d & Hd & H). apply rbind_ok in H as (h & Hh & H).
  apply rbind_ok in H as (mi & Hmi & H). apply rbind_ok in H as (sec & Hsec & H).
  apply new_datetime_ok in H as [-> _].
  cbn [lenient_text year month day hour minute second].
  destruct (year_text _ _ _ _ _ HaY MY Hy) as (-> & -> & _).
  destruct (group_text_field "m" _ _ _ _ _ ltac:(cbn; tauto) Ham Mm Hm) as (-> & Fm).
  destruct (day_text_field _ _ _ _ _ Had Md Hd) as (-> & Fd).
  destruct (group_text_field "H" _ _ _ _ _ ltac:(cbn; tauto) HaH MH Hh) as (-> & Fh).
  destruct (group_text_field "M" _ _ _ _ _ ltac:(cbn; tauto) HaM MM Hmi) as (-> & Fmi).
  destruct (group_text_field "S" _ _ _ _ _ ltac:(cbn; tauto) HaS MS Hsec) as (-> & Fs).
  exists tm, td, w, tH, tM, tS. rewrite append_nil_r.
  repeat split; assumption.
Qed.

(** *** The texts that are read *)

Lemma re_match_first_alt name alts p s t s' caps rest :
  first_alt alts s = Some (t, s') -> re_match p s' = Some (caps, rest) ->
  re_match (Group name alts :: p) s = Some ((name, t) :: caps, rest).
Proof.
  intros F R. cbn [re_match]. induction alts as [|alt more IH]; [discriminate|].
  cbn [first_alt] in F. destruct (match_alt alt s) as [[t0 r0]|].
  - injection F as -> ->. now rewrite R.
  - auto.
Qed.

Lemma match_alt_stops cs1 cs2 a r :
  digit_only cs2 = true -> stops r = true -> match_alt [cs1; cs2] (String a r) = None.
Proof.
  intros D S. cbn [match_alt]. destruct (charset_has cs1 a); [|reflexivity].
  destruct r as [|c r]; [reflexivity|].
  destruct (charset_has cs2 c) eqn:E; [|reflexivity].
  apply charset_digit in E; [|assumption]. cbn [stops] in S. now rewrite E in S.
Qed.

Lemma first_alt_two_digits g n r :
  In g ["m"; "d"; "H"; "M"; "S"]%char -> (0 <= n <= 99)%Z -> in_field_range g n = true ->
  first_alt (alts g) (zpad 2 n ++ r) = Some (zpad 2 n, r).
Proof.
  intros Hg Hn. revert n Hn.
  apply (below_100 (fun n => in_field_range g n = true ->
                             first_alt (alts g) (zpad 2 n ++ r) = Some (zpad 2 n, r))).
  intros k Hk. cbn [In] in Hg. destruct Hg as [<-|[<-|[<-|[<-|[<-|[]]]]]];
    do 100 (destruct k as [|k]; [cbn; first [discriminate | reflexivity]|]); lia.
Qed.

Lemma first_alt_one_digit g n r :
  In g ["m"; "d"; "H"; "M"; "S"]%char -> (0 <= n <= 9)%Z -> in_field_range g n = true ->
  stops r = true ->
  first_alt (alts g) (String (digit_char n) r) = Some (String (digit_char n) "", r).
Proof.
  intros Hg Hn Hr S.
  assert (K : exists k, (k < 10)%nat /\ n = Z.of_nat k) by (exists (Z.to_nat n); lia).
  destruct K as (k & Hk & ->).
  cbn [In] in Hg. destruct Hg as [<-|[<-|[<-|[<-|[<-|[]]]]]];
    cbv [alts directive]; cbn [first_alt];
    rewrite !match_alt_stops by (reflexivity || assumption);
    do 10 (destruct k as [|k]; [first [discriminate Hr | reflexivity]|]); lia.
Qed.

Lemma first_alt_blank_digit n r :
  (0 <= n <= 9)%Z -> in_field_range "d" n = true ->
  first_alt (alts "d") (String " " (String (digit_char n) r)) =
  Some (String " " (String (digit_char n) ""), r).
Proof.
  intros Hn Hr.
  assert (K : exists k, (k < 10)%nat /\ n = Z.of_nat k) by (exists (Z.to_nat n); lia).
  destruct K as (k & Hk & ->).
  do 10 (destruct k as [|k]; [first [discriminate Hr | reflexivity]|]); lia.
Qed.

Lemma group_takes g n t r p caps rest :
  In g ["m"; "d"; "H"; "M"; "S"]%char ->
  field_text (g =? "d")%char n t -> in_field_range g n = true -> stops r = true ->
  re_match p r = Some (caps, rest) ->
  re_match (Group g (alts g) :: p) (t ++ r) = Some ((g, t) :: caps, rest).
Proof.
  intros Hg F Hn S R. apply re_match_first_alt with (s' := r); [|assumption].
  destruct F as [B | B | D B].
  - now apply first_alt_two_digits.
  - now apply first_alt_one_digit.
  - apply Ascii.eqb_eq in D. subst g. now apply first_alt_blank_digit.
Qed.

Lemma digit_not_blank c : is_digit c = true -> Str.isspace c = false.
Proof.
  destruct c as [[] [] [] [] [] [] [] []]; try discriminate; reflexivity.
Qed.

Lemma blank_not_digit c : Str.isspace c = true -> is_digit c = false.
Proof.
  intros B. destruct (is_digit c) eqn:D; [|reflexivity].
  apply digit_not_blank in D. congruence.
Qed.

Lemma is_digit_digit_char n : (0 <= n <= 9)%Z -> is_digit (digit_char n) = true.
Proof.
  intros Hn.
  apply (zrange_all_spec (fun n => is_digit (digit_char n)) 10 0%Z eq_refl n). lia.
Qed.

Lemma re_match_spaces p w : forall r caps rest,
  w <> "" -> all_blank w = true -> starts_blank r = false ->
  re_match p r = Some (caps, rest) ->
  re_match (Spaces :: p) (w ++ r) = Some (caps, rest).
Proof.
  cbn [re_match].
  induction w as [|c w IH]; intros r caps rest Hw Hb Hr R; [congruence|].
  cbn [all_blank] in Hb. apply andb_prop in Hb as [Hc Hb].
  cbn [append]. rewrite Hc. destruct w as [|c' w].
  - cbn [append]. destruct r as [|c' r]; [now rewrite R|].
    cbn [starts_blank] in Hr. now rewrite Hr, R.
  - now rewrite (IH r caps rest ltac:(discriminate) Hb Hr R).
Qed.

Lemma field_text_int blank_ok n t : field_text blank_ok n t -> py_int t = Ok n.
Proof.
  intros [B | B | _ B].
  - now apply py_int_zpad2.
  - now apply py_int_digit.
  - now apply py_int_digit.
Qed.

(** A field's text without a blank begins with a digit. *)
Lemma field_text_head n t r :
  field_text false n t -> starts_blank (t ++ r) = false.
Proof.
  intros [B | B | D B]; [| |discriminate].
  - cbn [zpad append starts_blank]. apply digit_not_blank, is_digit_digit_char.
    Z.div_mod_to_equations; lia.
  - cbn [append starts_blank]. now apply digit_not_blank, is_digit_digit_char.
Qed.

Lemma blank_stops w r : w <> "" -> all_blank w = true -> stops (w ++ r) = true.
Proof.
  destruct w as [|c w]; [congruence|]. intros _ H. cbn [all_blank] in H.
  apply andb_prop in H as [H _]. cbn [append stops]. now rewrite (blank_not_digit c H).
Qed.

Ltac in_range :=
  unfold in_field_range, between; cbn [field_range fst snd];
  apply andb_true_intro; split; apply Z.leb_le; lia.

(** Every text of a [datetime] without microseconds is read as it. *)
Lemma lenient_strptime s dt :
  datetime_ok dt = true -> microsecond dt = 0%Z -> lenient_text dt s ->
  strptime s DATE_FORMAT = Ok dt.
Proof.
  intros Hok Hus (tm & td & w & th & tmi & ts & Fm & Fd & (Hw & Hb) & Fh & Fmi & Fs & ->).
  pose proof (datetime_ok_bounds dt Hok) as (By & Bm & Bd & Bh & Bmi & Bs & _).
  pose proof (days_in_month_le (year dt) (month dt)) as Le.
  assert (RS : re_match [Group "S" (alts "S")] (ts ++ "")
               = Some ([("S"%char, ts)], "")).
  { apply group_takes with (n := second dt); [cbn; tauto | exact Fs | in_range | reflexivity | reflexivity]. }
  assert (RM : re_match [Group "M" (alts "M"); Literal ":"; Group "S" (alts "S")]
                 (tmi ++ String ":" (ts ++ ""))
               = Some ([("M"%char, tmi); ("S"%char, ts)], "")).
  { apply group_takes with (n := minute dt); [cbn; tauto | exact Fmi | in_range | reflexivity |].
    now rewrite match_literal. }
  assert (RH : re_match [Group "H" (alts "H"); Literal ":"; Group "M" (alts "M");
                         Literal ":"; Group "S" (alts "S")]
                 (th ++ String ":" (tmi ++ String ":" (ts ++ "")))
               = Some ([("H"%char, th); ("M"%char, tmi); ("S"%char, ts)], "")).
  { apply group_takes with (n := hour dt); [cbn; tauto | exact Fh | in_range | reflexivity |].
    now rewrite match_literal. }
  apply (re_match_spaces _ w _ _ _ Hw Hb (field_text_head _ _ _ Fh)) in RH.
  assert (RD : re_match [Group "d" (alts "d"); Spaces; Group "H" (alts "H"); Literal ":";
                         Group "M" (alts "M"); Literal ":"; Group "S" (alts "S")]
                 (td ++ w ++ th ++ String ":" (tmi ++ String ":" (ts ++ "")))
               = Some ([("d"%char, td); ("H"%char, th); ("M"%char, tmi); ("S"%char, ts)],
                       "")).
  { apply group_takes with (n := day dt); [cbn; tauto | exact Fd | in_range | now apply blank_stops
                       | exact RH]. }
  assert (RMo : re_match [Group "m" (alts "m"); Literal "-";
                          Group "d" (alts "d"); Spaces; Group "H" (alts "H"); Literal ":";
                          Group "M" (alts "M"); Literal ":"; Group "S" (alts "S")]
                  (tm ++ String "-"
                     (td ++ w ++ th ++ String ":" (tmi ++ String ":" (ts ++ ""))))
                = Some ([("m"%char, tm); ("d"%char, td); ("H"%char, th);
                         ("M"%char, tmi); ("S"%char, ts)], "")).
  { apply group_takes with (n := month dt); [cbn; tauto | exact Fm | in_range | reflexivity |].
    now rewrite match_literal. }
  unfold strptime. rewrite pattern_date_format.
  rewrite <- (append_nil_r ts) at 1.
  change (zpad 4 (year dt) ++ "-" ++ tm ++ "-" ++ td ++ w ++ th ++ ":" ++ tmi ++ ":" ++ ts ++ "")
    with (zpad 4 (year dt) ++ String "-" (tm ++ String "-"
            (td ++ w ++ th ++ String ":" (tmi ++ String ":" (ts ++ ""))))).
  rewrite match_year by lia. rewrite match_literal, RMo.
  cbn [keep Str.truthy String.eqb negb field found Ascii.eqb Bool.eqb].
  rewrite py_int_zpad4 by lia. cbn [rbind].
  rewrite (field_text_int _ _ _ Fm), (field_text_int _ _ _ Fd), (field_text_int _ _ _ Fh),
    (field_text_int _ _ _ Fmi), (field_text_int _ _ _ Fs). cbn [rbind].
  unfold new_datetime. destruct dt as [y m d h mi sec us].
  cbn [year month day hour minute second microsecond] in *. subst us.
  unfold datetime_ok in Hok. cbn [year month day hour minute second microsecond] in Hok.
  now rewrite Hok.
Qed.

(** ** Malformed timestamps *)

Lemma strptime_raises s e : strptime s DATE_FORMAT = Raise e -> e = ValueError.
Proof.
  unfold strptime. rewrite pattern_date_format.
  destruct (re_match _ s) as [[caps rest]|]; [|congruence].
  destruct (Str.truthy rest); [congruence|].
  assert (I : forall t x, py_int t = Raise x -> x = ValueError).
  { intros t x. unfold py_int. destruct (Str.truthy (Str.strip t)); [|congruence].
    generalize 0%Z. induction (Str.strip t) as [|c r IH]; intros acc; simpl; [discriminate|].
    destruct (is_digit c); [apply IH | congruence]. }
  assert (F : forall n dflt x, field n dflt caps = Raise x -> x = ValueError).
  { intros n dflt x. unfold field. destruct (found n caps); [apply I | discriminate]. }
  destruct (field "Y" 1900 caps) eqn:EY; [|intros [= <-]; eauto]. cbn [rbind].
  destruct (field "m" 1 caps) eqn:Em; [|intros [= <-]; eauto]. cbn [rbind].
  destruct (field "d" 1 caps) eqn:Ed; [|intros [= <-]; eauto]. cbn [rbind].
  destruct (field "H" 0 caps) eqn:EH; [|intros [= <-]; eauto]. cbn [rbind].
  destruct (field "M" 0 caps) eqn:EM; [|intros [= <-]; eauto]. cbn [rbind].
  destruct (field "S" 0 caps) eqn:ES; [|intros [= <-]; eauto]. cbn [rbind].
  unfold new_datetime. destruct (_ && _); congruence.
Qed.

Lemma format_date_raises s e : format_date s = Raise e -> e = ValueError.
Proof.
  unfold format_date. destruct (strptime s DATE_FORMAT) eqn:E; [discriminate|].
  intros [= <-]. now apply strptime_raises in E.
Qed.

Lemma format_entry_raises item e : format_entry item = Raise e -> e = ValueError.
Proof.
  unfold format_entry, unpack2.
  destruct (Str.split range_sep (date_range item)) as [|a [|b [|? ?]]]; cbn [rbind];
    try congruence.
  cbn [fst snd].
  destruct (format_date a) eqn:Ea; cbn [rbind];
    [|intros [= <-]; now apply format_date_raises in Ea].
  destruct (format_date b) eqn:Eb; cbn [rbind];
    [discriminate | intros [= <-]; now apply format_date_raises in Eb].
Qed.

Lemma format_entries_raise parsed item :
  In item parsed -> format_entry item = Raise ValueError ->
  format_entries parsed = Raise ValueError.
Proof.
  induction parsed as [|x parsed IH]; intros Hin Hbad; [contradiction|].
  cbn [format_entries]. destruct (format_entry x) as [it|e] eqn:Ex; cbn [rbind].
  - destruct Hin as [-> | Hin]; [congruence|]. now rewrite IH.
  - now rewrite (format_entry_raises x e Ex).
Qed.

Lemma format_entry_bad_half item a b :
  Str.split range_sep (date_range item) = [a; b] ->
  format_date a = Raise ValueError \/ format_date b = Raise ValueError ->
  format_entry item = Raise ValueError.
Proof.
  intros Hs Hbad. unfold format_entry. rewrite Hs. cbn [unpack2 rbind fst snd].
  destruct (format_date a) as [ta|ea] eqn:Ea; cbn [rbind].
  - destruct Hbad as [Hbad | Hbad]; [discriminate | now rewrite Hbad].
  - now rewrite (format_date_raises a ea Ea).
Qed.

Section MalformedTimestamp.

Variable soup_find_pre_codes : string -> option string.

Lemma main_create_json_object_raises w html e :
  http w = Reply 200 html ->
  create_json_object (parse_html_content soup_find_pre_codes html) = Raise e ->
  is_request_exception e = false ->
  main soup_find_pre_codes w = ([HttpGet KEY_URL "filecxx/2.82"], Raise e).
Proof.
  intros Hw He Hne. rewrite main_run_fresh. unfold run_fresh, build_cached_data, http_get.
  rewrite Hw. cbn. rewrite He. cbn. rewrite Hne. reflexivity.
Qed.

(** C5 (as amended). On the text of the zero-padded pattern with fields
    [y m d h mi s], which every text of that pattern is, [format_date]
    returns the ISO text when the fields are a date of the calendar (year 1
    to 9999) and a time of day, and raises [ValueError] when they are not.
    Over all texts it succeeds exactly on those of such a date and time with
    a four-digit year, every other field in two digits or, below ten, in
    one (the day also as a blank and a digit), and one or more blanks before
    the hour: so it takes texts outside the pattern.  Whatever it rejects,
    it rejects with [ValueError]; and a [ValueError] for a half of the range
    of a parsed entry is caught nowhere: the run ends with it, after the
    fetch and before anything is written, selected or delivered. *)
Theorem format_date_padded_and_uncaught :
  (forall y m d h mi s,
      (0 <= y <= 9999)%Z -> (0 <= m <= 99)%Z -> (0 <= d <= 99)%Z ->
      (0 <= h <= 99)%Z -> (0 <= mi <= 99)%Z -> (0 <= s <= 99)%Z ->
      format_date (padded_text y m d h mi s) =
        if check_date_args y m d && check_time_args h mi s 0
        then Ok (isoformat (mk_datetime y m d h mi s 0))
        else Raise ValueError) /\
  (forall date_str,
      has_shape padded_shape date_str = true ->
      exists y m d h mi s,
        ((0 <= y <= 9999) /\ (0 <= m <= 99) /\ (0 <= d <= 99) /\
         (0 <= h <= 99) /\ (0 <= mi <= 99) /\ (0 <= s <= 99))%Z /\
        date_str = padded_text y m d h mi s) /\
  (forall date_str iso,
      format_date date_str = Ok iso <->
      exists dt, datetime_ok dt = true /\ microsecond dt = 0%Z /\
                 lenient_text dt date_str /\ iso = isoformat dt) /\
  (forall date_str e, format_date date_str = Raise e -> e = ValueError) /\
  (forall w html item a b,
      http w = Reply 200 html ->
      In item (parse_html_content soup_find_pre_codes html) ->
      Str.split range_sep (date_range item) = [a; b] ->
      format_date a = Raise ValueError \/ format_date b = Raise ValueError ->
      main soup_find_pre_codes w = ([HttpGet KEY_URL "filecxx/2.82"], Raise ValueError)).
Proof.
  split; [|split; [|split; [|split]]].
  - intros y m d h mi s Hy Hm Hd Hh Hmi Hs.
    unfold format_date. rewrite strptime_padded by assumption.
    unfold new_datetime. now destruct (_ && _).
  - exact padded_shape_text.
  - intros date_str iso. unfold format_date. split.
    + destruct (strptime date_str DATE_FORMAT) as [dt|e] eqn:E; [|discriminate].
      cbn [rbind]. intros [= <-]. exists dt.
      apply strptime_lenient in E as (Hok & Hus & Ht). auto.
    + intros (dt & Hok & Hus & Ht & ->).
      now rewrite (lenient_strptime _ _ Hok Hus Ht).
  - exact format_date_raises.
  - intros w html item a b Hw Hin Hsplit Hbad.
    apply (main_create_json_object_raises w html); [exact Hw | | reflexivity].
    unfold create_json_object.
    rewrite (format_entries_raise _ item Hin (format_entry_bad_half item a b Hsplit Hbad)).
    reflexivity.
Qed.

End MalformedTimestamp.

Example format_date_padded_and_uncaught_witness :
  format_date "2024-02-29 23:59:59" = Ok "2024-02-29T23:59:59" /\
  format_date "2023-02-29 23:59:59" = Raise ValueError /\
  format_date "2024-01-01 24:00:00" = Raise ValueError /\
  (exists y m d h mi s,
     ((0 <= y <= 9999) /\ (0 <= m <= 99) /\ (0 <= d <= 99) /\
      (0 <= h <= 99) /\ (0 <= mi <= 99) /\ (0 <= s <= 99))%Z /\
     "2024-02-29 23:59:59" = padded_text y m d h mi s) /\
  (exists dt, datetime_ok dt = true /\ microsecond dt = 0%Z /\
              lenient_text dt "2024-2-29  9:05:7" /\
              "2024-02-29T09:05:07" = isoformat dt) /\
  main toy_find_pre_codes (example_world bad_month_page six_o_clock) =
    ([HttpGet KEY_URL "filecxx/2.82"], Raise ValueError).
Proof.
  destruct (format_date_padded_and_uncaught toy_find_pre_codes) as (P & S & L & _ & U).
  split; [|split; [|split; [|split; [|split]]]].
  - apply (P 2024 2 29 23 59 59)%Z; lia.
  - apply (P 2023 2 29 23 59 59)%Z; lia.
  - apply (P 2024 1 1 24 0 0)%Z; lia.
  - apply (S "2024-02-29 23:59:59"). reflexivity.
  - apply (L "2024-2-29  9:05:7" "2024-02-29T09:05:07"). reflexivity.
  - apply (U (example_world bad_month_page six_o_clock) bad_month_page
             (mk_entry "2024-13-01 00:00:00 - 2025-01-01 00:00:00" "ABCDEF")
             "2024-13-01 00:00:00" "2025-01-01 00:00:00").
    + reflexivity.
    + left. reflexivity.
    + reflexivity.
    + left. reflexivity.
Defined.

(** C5 as stated fails on texts with unpadded fields, a day padded
    with a blank, or several blanks before the time: they do not match the
    zero-padded pattern and are accepted. *)
Example format_date_accepts_unpadded :
  has_shape padded_shape "2024-1-1 0:0:0" = false /\
  format_date "2024-1-1 0:0:0" = Ok "2024-01-01T00:00:00" /\
  format_date "2024-01- 5   07:00:00" = Ok "2024-01-05T07:00:00".
Proof. repeat split. Qed.

(** ** Codes of parsed entries *)

Lemma select_code_some now : forall fd code,
  select_code now (map item_value fd) = Ok (Some code) ->
  exists it, In it fd /\ code = VStr (item_code it).
Proof.
  induction fd as [|it fd IH]; intros code H; [discriminate|].
  cbn [map select_code] in H.
  destruct (getitem_item_value it) as (Es & Ee & Ec). rewrite Es, Ee, Ec in H.
  cbn [rbind convert_value_to_utc] in H.
  destruct (convert_to_utc (start_date it)) as [s|]; [|discriminate]. cbn [rbind] in H.
  destruct (convert_to_utc (end_date it)) as [e|]; [|discriminate]. cbn [rbind] in H.
  destruct (datetime_ge now s && datetime_le now e).
  - injection H as <-. exists it. split; [now left | reflexivity].
  - destruct (IH code H) as (it' & Hin & ->). exists it'. split; [now right | reflexivity].
Qed.

Section ParsedCodes.

Variable soup_find_pre_codes : string -> option string.

(** C10. Every entry the parser emits has a range that contains the
    separator and a code that is a trimmed, non-empty line without the
    separator.  So a code selected from what was parsed is a non-empty [str],
    and the test [if not correct_code] answers none-found exactly when the
    loop found no window. *)
Theorem parsed_codes_are_not_empty (html_content : string) :
  Forall entry_ok (parse_html_content soup_find_pre_codes html_content) /\
  forall text cached now items correct_code,
    create_json_object (parse_html_content soup_find_pre_codes html_content) = Ok text ->
    json_loads text = Ok cached ->
    py_iter (Some cached) = Ok items ->
    select_code now items = Ok correct_code ->
    (forall code, correct_code = Some code ->
                  exists s, code = VStr s /\ Str.truthy s = true) /\
    (selector now (Some cached) = Ok NoneFound <-> correct_code = None).
Proof.
  pose proof (parse_html_content_entries soup_find_pre_codes html_content) as Hall.
  split; [exact Hall|].
  intros text cached now items correct_code Ht Hc Hi Hsel.
  destruct (loaded_cache _ _ Ht) as (fd & Hfd & Hload & Hcodes).
  rewrite Hload in Hc. injection Hc as <-. cbn [py_iter] in Hi. injection Hi as <-.
  assert (Hne : forall it, In it fd -> Str.truthy (item_code it) = true).
  { clear Hsel Hload Hfd Ht. revert Hall.
    induction Hcodes as [|e it parsed fd (a & b & da & db & _ & _ & _ & ->) _ IH];
      intros Hall it' Hin; [contradiction|].
    inversion Hall as [|? ? He Hrest]; subst.
    destruct Hin as [<- | Hin]; [|now apply IH].
    apply He. }
  assert (Hcode : forall code, correct_code = Some code ->
                               exists s, code = VStr s /\ Str.truthy s = true).
  { intros code ->. destruct (select_code_some now fd code Hsel) as (it & Hin & ->).
    eauto. }
  split; [exact Hcode|].
  unfold selector. cbn [py_iter rbind]. rewrite Hsel. cbn [rbind].
  destruct correct_code as [code|]; [|now split].
  destruct (Hcode code eq_refl) as (s & -> & Hs). cbn [value_truthy]. rewrite Hs.
  split; discriminate.
Qed.

End ParsedCodes.

Example parsed_codes_are_not_empty_witness :
  Forall entry_ok (parse_html_content toy_find_pre_codes scenario_page) /\
  (forall code, Some (VStr "ABCDEF") = Some code ->
                exists s, code = VStr s /\ Str.truthy s = true) /\
  (selector six_o_clock
     (Some (VList [item_value (mk_cache_item "2024-01-01T00:00:00" "2030-01-01T00:00:00"
                                             "ABCDEF")]))
   = Ok NoneFound <-> Some (VStr "ABCDEF") = None).
Proof.
  destruct (parsed_codes_are_not_empty toy_find_pre_codes scenario_page) as [A B].
  split; [exact A|].
  apply (B (json_dumps_indent2
              (VList [item_value (mk_cache_item "2024-01-01T00:00:00" "2030-01-01T00:00:00"
                                                "ABCDEF")]))
           _ six_o_clock
           [item_value (mk_cache_item "2024-01-01T00:00:00" "2030-01-01T00:00:00" "ABCDEF")]);
    reflexivity.
Defined.

(** ** Whole runs *)

Lemma dumps_truthy l : Str.truthy (json_dumps_indent2 (VList l)) = true.
Proof. destruct l; reflexivity. Qed.

Section Runs.

Variable soup_find_pre_codes : string -> option string.

(** A run whose fetch gave a page all of whose timestamps are well-formed:
    the payload is written (or the failure reported), and the selector works
    on what was just parsed. *)
Lemma main_after_fetch w html text fd :
  http w = Reply 200 html ->
  create_json_object (parse_html_content soup_find_pre_codes html) = Ok text ->
  format_entries (parse_html_content soup_find_pre_codes html) = Ok fd ->
  main soup_find_pre_codes w =
  (emit (HttpGet KEY_URL "filecxx/2.82") ;;;
   write_keys_to_file w text ;;;
   sel <~ lift (selector (now_utc w) (Some (VList (map item_value fd)))) ;;
   match sel with
   | NoneFound => emit (MsgAlert AlertNoValidCode)
   | Found correct_code => deliver w correct_code
   end).
Proof.
  intros Hw Ht Hfd. rewrite main_run_fresh. unfold run_fresh, build_cached_data, http_get.
  rewrite Hw. cbn [Z.leb Z.ltb Z.compare Pos.compare Pos.compare_cont andb Z.eqb Pos.eqb].
  cbn [emit ret bind app Z.eqb Pos.eqb]. rewrite Ht.
  destruct (create_json_object_ok _ _ Ht) as (fd' & Hfd' & ->).
  assert (fd' = fd) by congruence. subst fd'.
  cbn [emit ret raise lift bind try_except app]. rewrite dumps_truthy.
  rewrite json_loads_dumps_items.
  destruct (write_keys_to_file w _) as [tw [[]|e]] eqn:Ew; cbn [bind lift ret app];
    [|reflexivity].
  destruct (selector _ _) as [sel|e]; cbn [app]; [|now rewrite app_nil_r].
  destruct (match sel with NoneFound => _ | Found c => _ end) as [t r].
  now rewrite app_nil_r.
Qed.

(** X1. The end-to-end scenario of the specification: the page whose block holds
    the range 2024-01-01 00:00:00 - 2030-01-01 00:00:00 and the code ABCDEF,
    a run at any instant in that range (UTC+8), manual mode: key.txt is
    written with exactly ABCDEF and the clipboard holds ABCDEF. *)
Theorem end_to_end_manual (w : world) (html : string) :
  http w = Reply 200 html ->
  soup_find_pre_codes html = Some scenario_block ->
  automatic w = false ->
  keys_json_writable w = true ->
  key_txt_writable w = true ->
  datetime_ok (now_utc w) = true ->
  (to_microseconds scenario_start <= to_microseconds (now_utc w)
     <= to_microseconds scenario_end)%Z ->
  main soup_find_pre_codes w =
    ([HttpGet KEY_URL "filecxx/2.82"; FileWrite "keys.json" scenario_payload;
      FileWrite "key.txt" "ABCDEF"; ClipboardCopy "ABCDEF"; MsgAlert AlertCopied],
     Ok tt).
Proof.
  intros Hw Hsoup Hauto Hkeys Hkey Hnow [Hlo Hhi].
  assert (P : parse_html_content soup_find_pre_codes html = parse_block scenario_block).
  { unfold parse_html_content. now rewrite Hsoup. }
  rewrite (main_after_fetch w html scenario_payload
             [mk_cache_item "2024-01-01T00:00:00" "2030-01-01T00:00:00" "ABCDEF"] Hw);
    [|rewrite P; reflexivity|rewrite P; reflexivity].
  unfold selector. cbn [py_iter rbind].
  rewrite (select_code_windows (now_utc w)
             [mk_cache_item "2024-01-01T00:00:00" "2030-01-01T00:00:00" "ABCDEF"]
             [mk_activation_window scenario_start scenario_end "ABCDEF"] Hnow eq_refl).
  unfold first_window. cbn [find]. unfold in_window.
  cbn [window_start window_end window_code].
  destruct (Z.leb_spec (to_microseconds scenario_start) (to_microseconds (now_utc w)));
    [|lia].
  destruct (Z.leb_spec (to_microseconds (now_utc w)) (to_microseconds scenario_end));
    [|lia].
  unfold write_keys_to_file, deliver. rewrite Hkeys, Hauto, Hkey. reflexivity.
Qed.

(** X2. When no window contains the instant of the run, the user is told so and
    the run ends normally, with nothing delivered. *)
Theorem no_window_ends_normally (w : world) (html text : string)
  (fd : list cache_item) (ws : list ActivationWindow) :
  http w = Reply 200 html ->
  create_json_object (parse_html_content soup_find_pre_codes html) = Ok text ->
  format_entries (parse_html_content soup_find_pre_codes html) = Ok fd ->
  normalize_all fd = Ok ws ->
  datetime_ok (now_utc w) = true ->
  first_window (now_utc w) ws = None ->
  keys_json_writable w = true ->
  main soup_find_pre_codes w =
    ([HttpGet KEY_URL "filecxx/2.82"; FileWrite "keys.json" text; MsgAlert AlertNoValidCode],
     Ok tt).
Proof.
  intros Hw Ht Hfd Hws Hnow Hnone Hkeys.
  rewrite (main_after_fetch w html text fd Hw Ht Hfd).
  unfold selector. cbn [py_iter rbind].
  rewrite (select_code_windows (now_utc w) fd ws Hnow Hws), Hnone.
  unfold write_keys_to_file. rewrite Hkeys. reflexivity.
Qed.

End Runs.

(** X3. A range whose end lies before its start contains no instant: its window
    is never selected. *)
Theorem reversed_range_never_matches (now : datetime) (it : cache_item)
  (w : ActivationWindow) :
  datetime_ok now = true ->
  normalize it = Ok w ->
  (to_microseconds (window_end w) < to_microseconds (window_start w))%Z ->
  selector now (Some (VList [item_value it])) = Ok NoneFound.
Proof.
  intros Hnow Hw Hrev. unfold selector. cbn [py_iter rbind].
  change [item_value it] with (map item_value [it]).
  rewrite (select_code_windows now [it] [w] Hnow) by (cbn; now rewrite Hw).
  unfold first_window. cbn [find]. unfold in_window.
  destruct (Z.leb_spec (to_microseconds (window_start w)) (to_microseconds now));
    [|reflexivity].
  destruct (Z.leb_spec (to_microseconds now) (to_microseconds (window_end w)));
    [lia | reflexivity].
Qed.

(** X4. Automatic delivery when the preconditions are not met: the target
    process is not running, or it runs and its activation window is not
    open.  The user is told, nothing is typed, the call returns normally. *)
Theorem automatic_preconditions (w : world) (correct_code : string) (t : list event) :
  (is_filecxx_running w = (t, Ok false) ->
   insert_key_automatically w correct_code =
     ((t ++ [Log LogNotRunning; MsgAlert AlertNotRunning])%list, Ok tt)) /\
  (is_filecxx_running w = (t, Ok true) -> windows w = [] ->
   insert_key_automatically w correct_code =
     ((t ++ [Log LogWindowNotFound; MsgAlert AlertWindowNotFound])%list, Ok tt)).
Proof.
  unfold insert_key_automatically. split.
  - intros ->. reflexivity.
  - intros -> ->. reflexivity.
Qed.

Example end_to_end_manual_witness :
  main toy_find_pre_codes (example_world scenario_page six_o_clock) =
    ([HttpGet KEY_URL "filecxx/2.82"; FileWrite "keys.json" scenario_payload;
      FileWrite "key.txt" "ABCDEF"; ClipboardCopy "ABCDEF"; MsgAlert AlertCopied],
     Ok tt).
Proof.
  apply (end_to_end_manual toy_find_pre_codes (example_world scenario_page six_o_clock)
           scenario_page); try reflexivity.
  split; vm_compute; discriminate.
Defined.

Example no_window_ends_normally_witness :
  main toy_find_pre_codes (example_world scenario_page new_year_2031) =
    ([HttpGet KEY_URL "filecxx/2.82"; FileWrite "keys.json" scenario_payload;
      MsgAlert AlertNoValidCode],
     Ok tt).
Proof.
  apply (no_window_ends_normally toy_find_pre_codes (example_world scenario_page new_year_2031)
           scenario_page scenario_payload
           [mk_cache_item "2024-01-01T00:00:00" "2030-01-01T00:00:00" "ABCDEF"]
           [mk_activation_window scenario_start scenario_end "ABCDEF"]);
    reflexivity.
Defined.

Example reversed_range_never_matches_witness :
  selector six_o_clock (Some (VList [item_value reversed_item])) = Ok NoneFound.
Proof.
  apply (reversed_range_never_matches six_o_clock reversed_item
           (mk_activation_window (mk_datetime 2024 1 1 16 0 0 0)
                                 (mk_datetime 2023 12 31 16 0 0 0) "ABCDEF")).
  - reflexivity.
  - reflexivity.
  - vm_compute. reflexivity.
Defined.

Example automatic_preconditions_witness :
  insert_key_automatically (example_world scenario_page six_o_clock) "ABCDEF" =
    ([Log LogNotRunning; MsgAlert AlertNotRunning], Ok tt).
Proof.
  apply (proj1 (automatic_preconditions (example_world scenario_page six_o_clock)
                  "ABCDEF" [])).
  reflexivity.
Defined.

(** ** The texts [format_date] takes *)

(** X5. [format_date] accepts exactly the texts of a date of the calendar
    (year 1 to 9999) and a time of day written with a four-digit year, every
    other field in two digits or, below ten, in one (the day also as a blank
    and a digit), [-] and [:] between them and one or more blanks before the
    hour; it returns the ISO text of that date and time. *)
Theorem format_date_accepts_exactly (date_str iso : string) :
  format_date date_str = Ok iso <->
  exists dt, datetime_ok dt = true /\ microsecond dt = 0%Z /\
             lenient_text dt date_str /\ iso = isoformat dt.
Proof.
  unfold format_date. split.
  - destruct (strptime date_str DATE_FORMAT) as [dt|e] eqn:E; [|discriminate].
    cbn [rbind]. intros [= <-]. exists dt.
    apply strptime_lenient in E as (Hok & Hus & Ht). auto.
  - intros (dt & Hok & Hus & Ht & ->).
    now rewrite (lenient_strptime _ _ Hok Hus Ht).
Qed.

(** ** The order of converted values *)

(** X6. On the texts [format_date] returns, which are the texts a run
    hands to [convert_to_utc], the conversion keeps the order: the results
    compare, by the comparison of line 332, as the wall-clock values that
    [strptime] read. *)
Theorem convert_to_utc_preserves_order (a b ia ib : string) (u1 u2 : datetime) :
  format_date a = Ok ia -> format_date b = Ok ib ->
  convert_to_utc ia = Ok u1 -> convert_to_utc ib = Ok u2 ->
  exists d1 d2,
    strptime a DATE_FORMAT = Ok d1 /\ strptime b DATE_FORMAT = Ok d2 /\
    datetime_compare u1 u2 = datetime_compare d1 d2 /\
    datetime_le u1 u2 = datetime_le d1 d2.
Proof.
  intros Fa Fb C1 C2.
  destruct (format_date_ok _ _ Fa) as (d1 & S1 & ->).
  destruct (format_date_ok _ _ Fb) as (d2 & S2 & ->).
  exists d1, d2. do 2 (split; [assumption|]).
  destruct (strptime_ok _ _ _ S1) as [O1 Z1], (strptime_ok _ _ _ S2) as [O2 Z2].
  pose proof (fromisoformat_isoformat d1 O1 Z1) as F1.
  pose proof (fromisoformat_isoformat d2 O2 Z2) as F2.
  destruct (convert_to_utc_cases _ _ F1) as [(_ & v1 & E1 & K1 & T1) | (_ & E1)];
    [|congruence].
  destruct (convert_to_utc_cases _ _ F2) as [(_ & v2 & E2 & K2 & T2) | (_ & E2)];
    [|congruence].
  assert (v1 = u1) by congruence. assert (v2 = u2) by congruence. subst v1 v2.
  rewrite (datetime_compare_spec u1 u2 K1 K2), (datetime_compare_spec d1 d2 O1 O2).
  rewrite (datetime_le_spec u1 u2 K1 K2), (datetime_le_spec d1 d2 O1 O2).
  rewrite T1, T2. split.
  - destruct (Z.compare_spec (to_microseconds d1) (to_microseconds d2));
      [apply Z.compare_eq_iff | apply Z.compare_lt_iff | apply Z.compare_gt_iff]; lia.
  - destruct (Z.leb_spec (to_microseconds d1) (to_microseconds d2));
      [apply Z.leb_le | apply Z.leb_gt]; lia.
Qed.

Example convert_to_utc_preserves_order_witness :
  exists d1 d2,
    strptime "2024-01-01 00:00:00" DATE_FORMAT = Ok d1 /\
    strptime "2024-1-1 10:0:0" DATE_FORMAT = Ok d2 /\
    datetime_compare (mk_datetime 2023 12 31 16 0 0 0) (mk_datetime 2024 1 1 2 0 0 0) =
      datetime_compare d1 d2 /\
    datetime_le (mk_datetime 2023 12 31 16 0 0 0) (mk_datetime 2024 1 1 2 0 0 0) =
      datetime_le d1 d2.
Proof.
  apply (convert_to_utc_preserves_order "2024-01-01 00:00:00" "2024-1-1 10:0:0"
           "2024-01-01T00:00:00" "2024-01-01T10:00:00"); reflexivity.
Defined.

(** ** The outcome of [create_json_object] *)

Lemma format_entry_outcome item :
  if well_formed_range item
  then exists it, format_entry item = Ok it
  else format_entry item = Raise ValueError.
Proof.
  unfold well_formed_range, format_entry.
  destruct (Str.split range_sep (date_range item)) as [|a [|b [|c l]]]; try reflexivity.
  cbn [unpack2 rbind fst snd].
  destruct (format_date a) as [ta|ea] eqn:Ea; cbn [is_ok andb rbind].
  - destruct (format_date b) as [tb|eb] eqn:Eb; cbn [is_ok rbind]; [eauto|].
    now rewrite (format_date_raises _ _ Eb).
  - now rewrite (format_date_raises _ _ Ea).
Qed.

Lemma format_entries_outcome parsed_data :
  if forallb well_formed_range parsed_data
  then exists fd, format_entries parsed_data = Ok fd
  else format_entries parsed_data = Raise ValueError.
Proof.
  induction parsed_data as [|item rest IH]; cbn [forallb format_entries]; [eauto|].
  pose proof (format_entry_outcome item) as H.
  destruct (well_formed_range item); cbn [andb].
  - destruct H as (it & ->). cbn [rbind].
    destruct (forallb well_formed_range rest).
    + destruct IH as (fd & ->). cbn [rbind]. eauto.
    + now rewrite IH.
  - now rewrite H.
Qed.

(** X7. [create_json_object] returns a text exactly when every range splits
    on the separator into two halves that [format_date] takes; for any other
    list, so for a range with a second separator, it raises [ValueError]
    and returns nothing. *)
Theorem create_json_object_all_or_nothing (parsed_data : list entry) :
  (forallb well_formed_range parsed_data = true ->
   exists fd, format_entries parsed_data = Ok fd /\
              length fd = length parsed_data /\
              create_json_object parsed_data
                = Ok (json_dumps_indent2 (VList (map item_value fd)))) /\
  (forallb well_formed_range parsed_data = false ->
   create_json_object parsed_data = Raise ValueError).
Proof.
  pose proof (format_entries_outcome parsed_data) as H. unfold create_json_object.
  split; intros E; rewrite E in H.
  - destruct H as (fd & H). exists fd. rewrite H. repeat split.
    apply format_entries_formatted in H. symmetry. exact (Forall2_length H).
  - now rewrite H.
Qed.

Example create_json_object_all_or_nothing_witness :
  (exists fd, format_entries example_entries = Ok fd /\
              length fd = length example_entries /\
              create_json_object example_entries
                = Ok (json_dumps_indent2 (VList (map item_value fd)))) /\
  create_json_object (example_entries ++ [three_halves]) = Raise ValueError.
Proof.
  split.
  - apply (create_json_object_all_or_nothing example_entries). reflexivity.
  - apply (create_json_object_all_or_nothing (example_entries ++ [three_halves])).
    reflexivity.
Defined.

(** ** The scan of the processes *)

Lemma is_filecxx_running_from_app pre rest :
  forallb is_other_process pre = true ->
  is_filecxx_running_from (pre ++ rest)%list = is_filecxx_running_from rest.
Proof.
  induction pre as [|[name|] pre IH]; cbn [forallb is_other_process app]; intros H;
    [reflexivity | | discriminate].
  apply andb_prop in H as [H1 H2]. cbn [is_filecxx_running_from].
  destruct (lower name =? "fileu.exe"); [discriminate | auto].
Qed.

(** X8. [is_filecxx_running] reads the process names in order and compares
    them in lower case: it answers [True] at the first process named
    [fileu.exe] in any case of letters, [False] when there is none, and
    [False] as well, after logging the error, at the first process whose
    name cannot be read, whatever processes come after it. *)
Theorem is_filecxx_running_scan (w : world) (pre rest : list (option string))
  (name : string) :
  forallb is_other_process pre = true ->
  (processes w = pre -> is_filecxx_running w = ([], Ok false)) /\
  (processes w = (pre ++ Some name :: rest)%list -> lower name = "fileu.exe" ->
   is_filecxx_running w = ([], Ok true)) /\
  (processes w = (pre ++ None :: rest)%list ->
   is_filecxx_running w = ([Log LogProcessError], Ok false)).
Proof.
  intros H. unfold is_filecxx_running. repeat split.
  - intros ->. rewrite <- (app_nil_r pre). now rewrite is_filecxx_running_from_app.
  - intros -> E. rewrite is_filecxx_running_from_app by assumption.
    cbn [is_filecxx_running_from]. now rewrite E.
  - intros ->. now rewrite is_filecxx_running_from_app.
Qed.

Example is_filecxx_running_scan_witness :
  is_filecxx_running (with_processes [Some "explorer.exe"] (example_world "" six_o_clock))
    = ([], Ok false) /\
  is_filecxx_running
    (with_processes [Some "explorer.exe"; Some "FileU.EXE"; None]
                    (example_world "" six_o_clock)) = ([], Ok true) /\
  is_filecxx_running
    (with_processes [Some "explorer.exe"; None; Some "fileu.exe"]
                    (example_world "" six_o_clock)) = ([Log LogProcessError], Ok false).
Proof.
  split; [|split].
  - apply (is_filecxx_running_scan _ [Some "explorer.exe"] [] ""); reflexivity.
  - apply (is_filecxx_running_scan _ [Some "explorer.exe"] [None] "FileU.EXE");
      reflexivity.
  - apply (is_filecxx_running_scan _ [Some "explorer.exe"] [Some "fileu.exe"] "");
      reflexivity.
Defined.

(** ** The cases of a run *)

Lemma write_keys_to_file_returns w keys_data :
  write_keys_to_file w keys_data = (write_trace w keys_data, Ok tt).
Proof.
  unfold write_keys_to_file, write_trace. now destruct (keys_json_writable w).
Qed.

Lemma is_filecxx_running_from_returns procs :
  exists b, is_filecxx_running_from procs = ([], Ok b) \/
            (b = false /\ is_filecxx_running_from procs = ([Log LogProcessError], Ok b)).
Proof.
  induction procs as [|[name|] procs IH]; cbn [is_filecxx_running_from].
  - exists false. now left.
  - destruct (lower name =? "fileu.exe"); [exists true; now left | exact IH].
  - exists false. right. split; reflexivity.
Qed.

Lemma insert_key_automatically_returns w correct_code :
  snd (insert_key_automatically w correct_code) = Ok tt /\
  forallb (fun ev => negb (is_manual_delivery ev) && is_delivery_only ev)
          (fst (insert_key_automatically w correct_code)) = true.
Proof.
  unfold insert_key_automatically, is_filecxx_running.
  destruct (is_filecxx_running_from_returns (processes w)) as (b & [-> | (-> & ->)]).
  - destruct b; cbn; [|split; reflexivity]. destruct (windows w); split; reflexivity.
  - split; reflexivity.
Qed.

Section RunCases.

Variable soup_find_pre_codes : string -> option string.

Lemma main_fetched w html text fd :
  http w = Reply 200 html ->
  create_json_object (parse_html_content soup_find_pre_codes html) = Ok text ->
  format_entries (parse_html_content soup_find_pre_codes html) = Ok fd ->
  main soup_find_pre_codes w =
  (HttpGet KEY_URL "filecxx/2.82" ::
     (write_trace w text ++
      fst (finish w (selector (now_utc w) (Some (VList (map item_value fd))))))%list,
   snd (finish w (selector (now_utc w) (Some (VList (map item_value fd)))))).
Proof.
  intros Hw Ht Hfd. rewrite (main_after_fetch _ w html text fd Hw Ht Hfd).
  rewrite write_keys_to_file_returns.
  fold (finish w (selector (now_utc w) (Some (VList (map item_value fd))))).
  destruct (finish w _) as [t r]. reflexivity.
Qed.

Lemma main_fetch_raises w :
  fetch_raises (http w) = true ->
  main soup_find_pre_codes w =
    ([HttpGet KEY_URL "filecxx/2.82"; Log LogConnectFailed; MsgAlert AlertConnectFailed],
     Raise TypeError).
Proof.
  intros Hf. rewrite main_run_fresh. unfold run_fresh, build_cached_data, http_get.
  destruct (http w) as [status text|]; [|reflexivity].
  cbn [fetch_raises] in Hf. rewrite Hf. reflexivity.
Qed.

Lemma build_cached_data_other_status w status text :
  http w = Reply status text -> fetch_raises (http w) = false -> status <> 200%Z ->
  build_cached_data soup_find_pre_codes w = ([HttpGet KEY_URL "filecxx/2.82"], Ok None).
Proof.
  intros Hw Hf Hs. unfold build_cached_data, http_get. rewrite Hw in *.
  cbn [fetch_raises] in Hf. rewrite Hf. apply Z.eqb_neq in Hs. cbn. now rewrite Hs.
Qed.

Lemma main_other_status w status text :
  http w = Reply status text -> fetch_raises (http w) = false -> status <> 200%Z ->
  main soup_find_pre_codes w = ([HttpGet KEY_URL "filecxx/2.82"], Raise TypeError).
Proof.
  intros Hw Hf Hs. rewrite main_run_fresh. unfold run_fresh.
  now rewrite (build_cached_data_other_status w status text Hw Hf Hs).
Qed.

Lemma format_entries_raises_value_error parsed e :
  format_entries parsed = Raise e -> e = ValueError.
Proof.
  revert e. induction parsed as [|item rest IH]; intros e H; [discriminate|].
  cbn [format_entries] in H.
  destruct (format_entry item) as [it|e1] eqn:E1; cbn [rbind] in H.
  - destruct (format_entries rest) as [its|e2]; [discriminate|].
    cbn [rbind] in H. injection H as <-. now apply IH.
  - injection H as <-. exact (format_entry_raises _ _ E1).
Qed.

(** The four ways a run goes, by what the fetch gives. *)
Lemma main_cases w :
  fetch_raises (http w) = true \/
  (exists status text, http w = Reply status text /\ status <> 200%Z /\
     fetch_raises (http w) = false) \/
  (exists html, http w = Reply 200 html /\
     create_json_object (parse_html_content soup_find_pre_codes html) = Raise ValueError) \/
  (exists html text fd, http w = Reply 200 html /\
     create_json_object (parse_html_content soup_find_pre_codes html) = Ok text /\
     format_entries (parse_html_content soup_find_pre_codes html) = Ok fd).
Proof.
  destruct (fetch_raises (http w)) eqn:Hf; [now left | right].
  destruct (http w) as [status text|] eqn:Hw; [|discriminate].
  destruct (Z.eqb_spec status 200) as [-> | Hs]; [right | left; eauto].
  unfold create_json_object.
  destruct (format_entries (parse_html_content soup_find_pre_codes text)) as [fd|e] eqn:Hfd.
  - right. exists text. rewrite Hfd. cbn [rbind]. eauto.
  - left. exists text. rewrite Hfd.
    rewrite (format_entries_raises_value_error _ _ Hfd). auto.
Qed.

End RunCases.

(** ** The selector on the cache of a run *)

Lemma convert_formatted a da :
  strptime a DATE_FORMAT = Ok da ->
  (exists u, convert_to_utc (isoformat da) = Ok u) \/
  convert_to_utc (isoformat da) = Raise OverflowError.
Proof.
  intros H. destruct (strptime_ok _ _ _ H) as [Hok Hus].
  pose proof (fromisoformat_isoformat da Hok Hus) as F.
  destruct (convert_to_utc_cases _ _ F) as [(_ & u & E & _) | (_ & E)]; eauto.
Qed.

Lemma select_code_cached now parsed fd :
  Forall2 formatted parsed fd ->
  select_code now (map item_value fd) = Ok None \/
  (exists it, In it fd /\ select_code now (map item_value fd) = Ok (Some (VStr (item_code it)))) \/
  select_code now (map item_value fd) = Raise OverflowError.
Proof.
  induction 1 as [|e it parsed fd (a & b & da & db & _ & Ha & Hb & ->) _ IH];
    [now left|].
  cbn [map select_code].
  destruct (getitem_item_value
              (mk_cache_item (isoformat da) (isoformat db) (activation_code e)))
    as (-> & -> & ->).
  cbn [rbind convert_value_to_utc start_date end_date item_code].
  destruct (convert_formatted a da Ha) as [(u & ->) | ->]; [|now right; right].
  cbn [rbind].
  destruct (convert_formatted b db Hb) as [(v & ->) | ->]; [|now right; right].
  cbn [rbind].
  destruct (datetime_ge now u && datetime_le now v).
  - right. left. eexists. split; [now left | reflexivity].
  - destruct IH as [-> | [(it & Hin & ->) | ->]]; [now left | | now right; right].
    right. left. exists it. split; [now right | reflexivity].
Qed.

Lemma selector_cached now parsed fd :
  Forall2 formatted parsed fd ->
  selector now (Some (VList (map item_value fd))) = Ok NoneFound \/
  (exists it, In it fd /\ Str.truthy (item_code it) = true /\
     selector now (Some (VList (map item_value fd))) = Ok (Found (VStr (item_code it)))) \/
  selector now (Some (VList (map item_value fd))) = Raise OverflowError.
Proof.
  intros H. unfold selector. cbn [py_iter rbind].
  destruct (select_code_cached now parsed fd H) as [-> | [(it & Hin & ->) | ->]];
    cbn [rbind value_truthy]; [now left | | now right; right].
  destruct (Str.truthy (item_code it)) eqn:T; [|now left].
  right. left. exists it. auto.
Qed.

(** What [finish] does after each outcome of the selector. *)
Lemma finish_cached w parsed fd :
  Forall2 formatted parsed fd ->
  let run := finish w (selector (now_utc w) (Some (VList (map item_value fd)))) in
  is_run_end (snd run) = true /\
  forallb is_delivery_only (fst run) = true /\
  forallb (fun ev => negb (if automatic w then is_manual_delivery ev else is_automation ev))
          (fst run) = true.
Proof.
  intros H run. subst run.
  destruct (selector_cached (now_utc w) parsed fd H) as [-> | [(it & _ & _ & ->) | ->]].
  - cbn. now destruct (automatic w).
  - unfold finish. cbn [lift bind]. unfold deliver.
    destruct (automatic w) eqn:A.
    + destruct (insert_key_automatically_returns w (item_code it)) as [R T].
      destruct (insert_key_automatically w (item_code it)) as [t r].
      cbn [fst snd app] in *. subst r. split; [reflexivity|].
      split; [|]; (eapply forallb_forall; intros ev Hev;
        pose proof (proj1 (forallb_forall _ _) T ev Hev) as Q;
        apply andb_prop in Q as [Q1 Q2]; assumption).
    + destruct (key_txt_writable w); cbn; [|repeat split].
      repeat split. 
  - cbn. now destruct (automatic w).
Qed.

Lemma write_trace_events w keys_data :
  forallb (fun ev => is_cache_write ev && negb (is_http_get ev) &&
                     negb (is_manual_delivery ev) && negb (is_automation ev))
          (write_trace w keys_data) = true.
Proof. unfold write_trace. now destruct (keys_json_writable w). Qed.

Lemma forallb_impl {A} (f g : A -> bool) l :
  (forall x, f x = true -> g x = true) -> forallb f l = true -> forallb g l = true.
Proof.
  intros H F. apply forallb_forall. intros x Hx. apply H.
  exact (proj1 (forallb_forall f l) F x Hx).
Qed.

Lemma existsb_forallb_negb {A} (f : A -> bool) l :
  forallb (fun x => negb (f x)) l = true -> existsb f l = false.
Proof.
  induction l as [|x l IH]; cbn [forallb existsb]; [reflexivity|]. intros H.
  apply andb_prop in H as [H1 H2]. apply negb_true_iff in H1. now rewrite H1, IH.
Qed.

Section RunFacts.

Variable soup_find_pre_codes : string -> option string.


(** X10. Every run fetches the page exactly once, before anything else:
    its first event is the GET of [KEY_URL] with the fixed user agent, and no
    other request follows, whatever happens afterwards. *)
Theorem one_fetch_per_run (w : world) :
  exists t, fst (main soup_find_pre_codes w) = HttpGet KEY_URL "filecxx/2.82" :: t /\
            existsb is_http_get t = false.
Proof.
  destruct (main_cases soup_find_pre_codes w)
    as [Hr | [(s & t & Hw & Hs & Hr) | [(h & Hw & Hc) | (h & t & fd & Hw & Hc & Hf)]]];
    [rewrite (main_fetch_raises _ w Hr)
    |rewrite (main_other_status _ w s t Hw Hr Hs)
    |rewrite (main_create_json_object_raises _ w h _ Hw Hc eq_refl)
    |rewrite (main_fetched _ w h t fd Hw Hc Hf)];
    cbn [fst]; eexists; (split; [reflexivity|]);
    [reflexivity | reflexivity | reflexivity |].
  apply format_entries_formatted in Hf.
  destruct (finish_cached w _ fd Hf) as (_ & D & _).
  apply existsb_forallb_negb. rewrite forallb_app. apply andb_true_intro. split.
  - generalize (write_trace_events w t). apply forallb_impl. intros x Hx.
    repeat (apply andb_prop in Hx as [Hx ?]). assumption.
  - revert D. apply forallb_impl. intros x Hx. unfold is_delivery_only in Hx.
    now apply andb_prop in Hx as [Hx _].
Qed.

(** X11. The two ways of delivery exclude each other in every run: with
    the flag [-a] nothing is written to key.txt or copied to the clipboard
    and the closing message is not shown; without it no process or window is
    looked for and nothing is clicked or typed. *)
Theorem delivery_modes_exclusive (w : world) :
  forallb (fun ev => negb (if automatic w then is_manual_delivery ev else is_automation ev))
          (fst (main soup_find_pre_codes w)) = true.
Proof.
  destruct (main_cases soup_find_pre_codes w)
    as [Hr | [(s & t & Hw & Hs & Hr) | [(h & Hw & Hc) | (h & t & fd & Hw & Hc & Hf)]]];
    [rewrite (main_fetch_raises _ w Hr)
    |rewrite (main_other_status _ w s t Hw Hr Hs)
    |rewrite (main_create_json_object_raises _ w h _ Hw Hc eq_refl)
    |rewrite (main_fetched _ w h t fd Hw Hc Hf)];
    cbn [fst];
    [now destruct (automatic w) | now destruct (automatic w) | now destruct (automatic w) |].
  apply format_entries_formatted in Hf.
  destruct (finish_cached w _ fd Hf) as (_ & _ & D).
  cbn [forallb]. apply andb_true_intro. split; [now destruct (automatic w)|].
  rewrite forallb_app. apply andb_true_intro. split; [|exact D].
  generalize (write_trace_events w t). apply forallb_impl. intros x Hx.
  repeat (apply andb_prop in Hx as [Hx ?]). destruct (automatic w); assumption.
Qed.

(** X12. A reply whose status is neither an error (400 to 599) nor 200:
    [build_cached_data] falls through its test and returns [None] without
    logging or alerting, and the run ends in the [TypeError] of line 328
    with nothing but the request done. *)
Theorem other_status_ends_silently (w : world) (status : Z) (text : string) :
  http w = Reply status text ->
  (status < 400 \/ 600 <= status)%Z -> status <> 200%Z ->
  build_cached_data soup_find_pre_codes w = ([HttpGet KEY_URL "filecxx/2.82"], Ok None) /\
  main soup_find_pre_codes w = ([HttpGet KEY_URL "filecxx/2.82"], Raise TypeError).
Proof.
  intros Hw Hs Hn.
  assert (Hf : fetch_raises (http w) = false).
  { rewrite Hw. cbn [fetch_raises]. apply andb_false_iff.
    rewrite Z.leb_gt, Z.ltb_ge. lia. }
  split.
  - exact (build_cached_data_other_status _ w status text Hw Hf Hn).
  - exact (main_other_status _ w status text Hw Hf Hn).
Qed.

End RunFacts.

Example other_status_ends_silently_witness :
  build_cached_data toy_find_pre_codes
    (with_http (Reply 204 "") (example_world "" six_o_clock))
    = ([HttpGet KEY_URL "filecxx/2.82"], Ok None) /\
  main toy_find_pre_codes (with_http (Reply 204 "") (example_world "" six_o_clock))
    = ([HttpGet KEY_URL "filecxx/2.82"], Raise TypeError).
Proof.
  apply (other_status_ends_silently toy_find_pre_codes _ 204%Z "");
    [reflexivity | lia | lia].
Defined.

Lemma finish_keys_json_writable b w sel :
  finish (with_keys_json_writable b w) sel = finish w sel.
Proof. reflexivity. Qed.

Lemma report_failed_write_id t :
  forallb is_delivery_only t = true -> flat_map report_failed_write t = t.
Proof.
  induction t as [|ev t IH]; cbn [forallb flat_map]; [reflexivity|]. intros H.
  apply andb_prop in H as [H1 H2]. rewrite (IH H2).
  unfold is_delivery_only in H1. apply andb_prop in H1 as [_ H1].
  destruct ev; try reflexivity. cbn [report_failed_write is_cache_write] in *.
  now destruct (path =? "keys.json").
Qed.

Section CacheWrite.

Variable soup_find_pre_codes : string -> option string.

(** X13. A failed write of keys.json does not change the run: the failure
    is logged and reported in place of the write, and everything else, the
    events and the way the run ends, is as in the world where the file can
    be written. *)
Theorem cache_write_failure_is_not_fatal (w : world) :
  main soup_find_pre_codes (with_keys_json_writable false w) =
  (flat_map report_failed_write
     (fst (main soup_find_pre_codes (with_keys_json_writable true w))),
   snd (main soup_find_pre_codes (with_keys_json_writable true w))).
Proof.
  destruct (main_cases soup_find_pre_codes w)
    as [Hr | [(s & t & Hw & Hs & Hr) | [(h & Hw & Hc) | (h & t & fd & Hw & Hc & Hf)]]].
  - rewrite !(main_fetch_raises _ (with_keys_json_writable _ w) Hr). reflexivity.
  - rewrite !(main_other_status _ (with_keys_json_writable _ w) s t Hw Hr Hs). reflexivity.
  - rewrite !(main_create_json_object_raises _ (with_keys_json_writable _ w) h _ Hw Hc eq_refl).
    reflexivity.
  - rewrite !(main_fetched _ (with_keys_json_writable _ w) h t fd Hw Hc Hf).
    rewrite !finish_keys_json_writable.
    change (now_utc (with_keys_json_writable _ w)) with (now_utc w).
    cbn [fst snd]. unfold write_trace.
    cbn [with_keys_json_writable keys_json_writable app flat_map report_failed_write
         String.eqb Ascii.eqb Bool.eqb].
    apply format_entries_formatted in Hf.
    destruct (finish_cached w _ fd Hf) as (_ & D & _).
    now rewrite (report_failed_write_id _ D).
Qed.

End CacheWrite.

(** ** Delivery *)

Section Delivery.

Variable soup_find_pre_codes : string -> option string.

(** A run that finds a code: the code of the first window that contains the
    instant of the run goes to [deliver]. *)
Lemma main_found w html text fd ws win :
  http w = Reply 200 html ->
  create_json_object (parse_html_content soup_find_pre_codes html) = Ok text ->
  format_entries (parse_html_content soup_find_pre_codes html) = Ok fd ->
  normalize_all fd = Ok ws ->
  datetime_ok (now_utc w) = true ->
  first_window (now_utc w) ws = Some win ->
  Str.truthy (window_code win) = true ->
  main soup_find_pre_codes w =
    (HttpGet KEY_URL "filecxx/2.82" ::
       (write_trace w text ++ fst (deliver w (VStr (window_code win))))%list,
     snd (deliver w (VStr (window_code win)))).
Proof.
  intros Hw Ht Hfd Hws Hnow Hwin Hcode.
  rewrite (main_fetched _ w html text fd Hw Ht Hfd).
  unfold selector. cbn [py_iter rbind].
  rewrite (select_code_windows (now_utc w) fd ws Hnow Hws), Hwin.
  cbn [option_map rbind value_truthy]. rewrite Hcode.
  unfold finish. cbn [lift bind]. now destruct (deliver w _).
Qed.

(** X14. Manual delivery when key.txt cannot be written: the exception of
    [open] is not caught.  The run ends with [OSError] after the cache was
    written (or its failure reported); the clipboard is not touched and no
    message is shown. *)
Theorem key_txt_failure_is_fatal (w : world) (html text : string)
  (fd : list cache_item) (ws : list ActivationWindow) (win : ActivationWindow) :
  http w = Reply 200 html ->
  create_json_object (parse_html_content soup_find_pre_codes html) = Ok text ->
  format_entries (parse_html_content soup_find_pre_codes html) = Ok fd ->
  normalize_all fd = Ok ws ->
  datetime_ok (now_utc w) = true ->
  first_window (now_utc w) ws = Some win ->
  Str.truthy (window_code win) = true ->
  automatic w = false ->
  key_txt_writable w = false ->
  main soup_find_pre_codes w =
    (HttpGet KEY_URL "filecxx/2.82" :: write_trace w text, Raise OSError).
Proof.
  intros Hw Ht Hfd Hws Hnow Hwin Hcode Hauto Hkey.
  rewrite (main_found w html text fd ws win Hw Ht Hfd Hws Hnow Hwin Hcode).
  unfold deliver. rewrite Hauto, Hkey. cbn. now rewrite app_nil_r.
Qed.

(** X15. Automatic delivery when FileCxx runs and its activation window is
    open: after the cache was written, the first window of the list is
    activated, its input field is clicked at 30 to the right of and 95 below
    the window's corner, the field is emptied with ctrl+a and backspace, and
    the code is typed followed by a line feed; key.txt and the clipboard are
    left alone and the run ends normally. *)
Theorem automatic_delivery_types_the_code (w : world) (html text : string)
  (fd : list cache_item) (ws : list ActivationWindow) (win : ActivationWindow)
  (target : window) (others : list window) :
  http w = Reply 200 html ->
  create_json_object (parse_html_content soup_find_pre_codes html) = Ok text ->
  format_entries (parse_html_content soup_find_pre_codes html) = Ok fd ->
  normalize_all fd = Ok ws ->
  datetime_ok (now_utc w) = true ->
  first_window (now_utc w) ws = Some win ->
  Str.truthy (window_code win) = true ->
  automatic w = true ->
  is_filecxx_running w = ([], Ok true) ->
  windows w = target :: others ->
  main soup_find_pre_codes w =
    (HttpGet KEY_URL "filecxx/2.82" ::
       (write_trace w text ++
        [WindowActivate; Click (win_left target + 30) (win_top target + 95);
         Hotkey ["ctrl"; "a"]; Hotkey ["backspace"];
         Typewrite (window_code win ++ Str.nl)])%list,
     Ok tt).
Proof.
  intros Hw Ht Hfd Hws Hnow Hwin Hcode Hauto Hrun Hwins.
  rewrite (main_found w html text fd ws win Hw Ht Hfd Hws Hnow Hwin Hcode).
  unfold deliver, insert_key_automatically. rewrite Hauto, Hrun, Hwins. reflexivity.
Qed.

(** X16. A page that gives no entry, for want of the block or of a complete
    pair in it: the cache is the empty list, keys.json is overwritten with
    the text of the empty list (or the failure of the write reported), the
    user is told that no code was found, and the run ends normally. *)
Theorem empty_page_overwrites_cache (w : world) (html : string) :
  http w = Reply 200 html ->
  parse_html_content soup_find_pre_codes html = [] ->
  create_json_object (parse_html_content soup_find_pre_codes html) = Ok "[]" /\
  main soup_find_pre_codes w =
    (HttpGet KEY_URL "filecxx/2.82" ::
       (write_trace w "[]" ++ [MsgAlert AlertNoValidCode])%list,
     Ok tt).
Proof.
  intros Hw Hp.
  assert (C : create_json_object (parse_html_content soup_find_pre_codes html) = Ok "[]")
    by now rewrite Hp.
  split; [exact C|].
  rewrite (main_fetched _ w html "[]" [] Hw C); [reflexivity | now rewrite Hp].
Qed.

End Delivery.

Example key_txt_failure_is_fatal_witness :
  main toy_find_pre_codes (with_key_txt_writable false (scenario_world six_o_clock)) =
    ([HttpGet KEY_URL "filecxx/2.82"; FileWrite "keys.json" scenario_payload],
     Raise OSError).
Proof.
  apply (key_txt_failure_is_fatal toy_find_pre_codes
           (with_key_txt_writable false (scenario_world six_o_clock))
           scenario_page scenario_payload
           [mk_cache_item "2024-01-01T00:00:00" "2030-01-01T00:00:00" "ABCDEF"]
           [mk_activation_window scenario_start scenario_end "ABCDEF"]
           (mk_activation_window scenario_start scenario_end "ABCDEF"));
    reflexivity.
Defined.

Example automatic_delivery_types_the_code_witness :
  main toy_find_pre_codes
    (with_automatic true
       (with_processes [Some "FileU.exe"]
          (with_windows [scenario_window] (scenario_world six_o_clock)))) =
    ([HttpGet KEY_URL "filecxx/2.82"; FileWrite "keys.json" scenario_payload;
      WindowActivate; Click 130 295; Hotkey ["ctrl"; "a"]; Hotkey ["backspace"];
      Typewrite ("ABCDEF" ++ Str.nl)],
     Ok tt).
Proof.
  apply (automatic_delivery_types_the_code toy_find_pre_codes
           (with_automatic true
              (with_processes [Some "FileU.exe"]
                 (with_windows [scenario_window] (scenario_world six_o_clock))))
           scenario_page scenario_payload
           [mk_cache_item "2024-01-01T00:00:00" "2030-01-01T00:00:00" "ABCDEF"]
           [mk_activation_window scenario_start scenario_end "ABCDEF"]
           (mk_activation_window scenario_start scenario_end "ABCDEF")
           scenario_window []);
    reflexivity.
Defined.

Example empty_page_overwrites_cache_witness :
  create_json_object (parse_html_content toy_find_pre_codes "<html></html>") = Ok "[]" /\
  main toy_find_pre_codes (example_world "<html></html>" six_o_clock) =
    ([HttpGet KEY_URL "filecxx/2.82"; FileWrite "keys.json" "[]";
      MsgAlert AlertNoValidCode],
     Ok tt).
Proof.
  apply (empty_page_overwrites_cache toy_find_pre_codes
           (example_world "<html></html>" six_o_clock) "<html></html>");
    reflexivity.
Defined.

(** ** The characters of the cache text *)

Lemma all_plain_app a b : all_plain (a ++ b) = all_plain a && all_plain b.
Proof.
  induction a as [|c a IH]; cbn [append all_plain]; [reflexivity|].
  now rewrite IH, andb_assoc.
Qed.

Lemma escape_char_plain c : all_plain (escape_char c) = true.
Proof. destruct c as [[] [] [] [] [] [] [] []]; reflexivity. Qed.

Lemma escape_plain s : all_plain (escape s) = true.
Proof.
  induction s as [|c s IH]; cbn [escape]; [reflexivity|].
  now rewrite all_plain_app, escape_char_plain, IH.
Qed.

Lemma encode_basestring_ascii_plain s : all_plain (encode_basestring_ascii s) = true.
Proof.
  unfold encode_basestring_ascii. cbn [all_plain].
  rewrite all_plain_app, escape_plain. reflexivity.
Qed.

Lemma spaces_plain n : all_plain (spaces n) = true.
Proof. induction n as [|n IH]; cbn [spaces all_plain]; [reflexivity | now rewrite IH]. Qed.

Lemma newline_indent_plain level : all_plain (newline_indent level) = true.
Proof. unfold newline_indent. rewrite all_plain_app, spaces_plain. reflexivity. Qed.

Lemma sep_plain level : all_plain ("," ++ newline_indent level) = true.
Proof. rewrite all_plain_app, newline_indent_plain. reflexivity. Qed.

Lemma concat_plain sep l :
  all_plain sep = true -> Forall (fun t => all_plain t = true) l ->
  all_plain (String.concat sep l) = true.
Proof.
  intros Hs. induction 1 as [|t l Ht _ IH]; [reflexivity|].
  destruct l as [|t' l]; cbn [String.concat]; [exact Ht|].
  rewrite !all_plain_app, Ht, Hs. exact IH.
Qed.

Lemma iterencode_plain : forall v level, all_plain (iterencode level v) = true.
Proof.
  fix IH 1. intros [s | l | d] level.
  - apply encode_basestring_ascii_plain.
  - assert (F : Forall (fun t => all_plain t = true) (map (iterencode (S level)) l)).
    { induction l as [|x l IHl]; cbn [map]; constructor; [apply IH | exact IHl]. }
    destruct l as [|x l]; [reflexivity|].
    cbn [iterencode]. rewrite !all_plain_app, !newline_indent_plain.
    rewrite (concat_plain ("," ++ newline_indent (S level)) _ (sep_plain _) F).
    reflexivity.
  - assert (F : Forall (fun t => all_plain t = true)
                  (map (fun kv : string * value =>
                          let '(k, x) := kv in
                          encode_basestring_ascii k ++ ": " ++ iterencode (S level) x) d)).
    { induction d as [|[k x] d IHd]; cbn [map]; constructor; [|exact IHd].
      rewrite !all_plain_app, encode_basestring_ascii_plain, IH. reflexivity. }
    destruct d as [|kv d]; [reflexivity|].
    cbn [iterencode]. rewrite !all_plain_app, !newline_indent_plain.
    rewrite (concat_plain ("," ++ newline_indent (S level)) _ (sep_plain _) F).
    reflexivity.
Qed.

(** X17. The text of the cache is plain ASCII: whatever characters the
    codes of the page hold, [create_json_object] returns printable ASCII
    characters and line feeds only (quotes, backslashes, control characters
    and the characters from 127 on are escaped). *)
Theorem keys_json_text_is_ascii (parsed_data : list entry) (text : string) :
  create_json_object parsed_data = Ok text -> all_plain text = true.
Proof.
  intros H. destruct (create_json_object_ok _ _ H) as (fd & _ & ->).
  apply iterencode_plain.
Qed.

Example keys_json_text_is_ascii_witness :
  exists text, create_json_object accented_entries = Ok text /\ all_plain text = true.
Proof.
  eexists. split; [reflexivity|].
  apply (keys_json_text_is_ascii accented_entries). reflexivity.
Defined.

(** ** Items after the first match *)

(** X18. The loop of the selector stops at the first window that contains
    the instant of the run: what follows it in the cache is not read, so
    elements that are no objects, or whose dates would not convert, do not
    make the selection fail. *)
Theorem selection_ignores_later_items (now : datetime) (items : list cache_item)
  (ws : list ActivationWindow) (win : ActivationWindow) (rest : list value) :
  datetime_ok now = true ->
  normalize_all items = Ok ws ->
  first_window now ws = Some win ->
  select_code now (map item_value items ++ rest)%list = Ok (Some (VStr (window_code win))).
Proof.
  intros Hnow. revert ws.
  induction items as [|it items IH]; intros ws H F; simpl in H.
  - injection H as <-. discriminate.
  - apply rbind_ok in H as (w & Ew & H). apply rbind_ok in H as (ws' & Ews & H).
    injection H as <-.
    unfold normalize in Ew. apply rbind_ok in Ew as (s & Es & Ew).
    apply rbind_ok in Ew as (e & Ee & Ew). injection Ew as <-.
    cbn [map app select_code].
    destruct (getitem_item_value it) as (-> & -> & ->).
    cbn [fst snd rbind convert_value_to_utc].
    rewrite Es. cbn [rbind]. rewrite Ee. cbn [rbind].
    unfold datetime_ge.
    rewrite (datetime_le_spec s now) by eauto using convert_to_utc_ok.
    rewrite (datetime_le_spec now e) by eauto using convert_to_utc_ok.
    unfold first_window in F. cbn [find] in F. unfold in_window at 1 in F.
    cbn [window_start window_end window_code] in F.
    destruct ((to_microseconds s <=? to_microseconds now)%Z &&
              (to_microseconds now <=? to_microseconds e)%Z).
    + injection F as <-. reflexivity.
    + now apply (IH ws').
Qed.

Example selection_ignores_later_items_witness :
  select_code six_o_clock [item_value early_item; VStr "not an object"]
    = Ok (Some (VStr "A")).
Proof.
  apply (selection_ignores_later_items six_o_clock [early_item]
           [mk_activation_window (mk_datetime 2023 12 31 16 0 0 0)
                                 (mk_datetime 2024 1 1 16 0 0 0) "A"]
           (mk_activation_window (mk_datetime 2023 12 31 16 0 0 0)
                                 (mk_datetime 2024 1 1 16 0 0 0) "A")
           [VStr "not an object"]); reflexivity.
Defined.

(** X19. What [format_date] returns is read back by [fromisoformat], on
    which [convert_to_utc] starts, as the date and time that [strptime] read:
    a text of nineteen characters, [YYYY-MM-DDTHH:MM:SS]. *)
Theorem format_date_reads_back (date_str iso : string) :
  format_date date_str = Ok iso ->
  exists dt, strptime date_str DATE_FORMAT = Ok dt /\
             fromisoformat iso = Ok dt /\
             has_shape iso_seconds_shape iso = true.
Proof.
  intros H. destruct (format_date_ok _ _ H) as (dt & E & ->).
  destruct (strptime_ok _ _ _ E) as [Hok Hus]. exists dt. repeat split.
  - exact E.
  - now apply fromisoformat_isoformat.
  - now apply isoformat_shape.
Qed.

Example format_date_reads_back_witness :
  exists dt, strptime "2024-2-29  9:05:7" DATE_FORMAT = Ok dt /\
             fromisoformat "2024-02-29T09:05:07" = Ok dt /\
             has_shape iso_seconds_shape "2024-02-29T09:05:07" = true.
Proof.
  apply (format_date_reads_back "2024-2-29  9:05:7" "2024-02-29T09:05:07"). reflexivity.
Defined.

(** ** What is delivered *)






Section Delivered.

Variable soup_find_pre_codes : string -> option string.


End Delivered.


(** ** The selector on the cache of a parsed page *)

Lemma normalize_all_codes : forall fd ws,
  normalize_all fd = Ok ws -> map window_code ws = map item_code fd.
Proof.
  induction fd as [|it fd IH]; intros ws H; simpl in H.
  - now injection H as <-.
  - apply rbind_ok in H as (w & Ew & H). apply rbind_ok in H as (ws' & Ews & H).
    injection H as <-. unfold normalize in Ew.
    apply rbind_ok in Ew as (s & _ & Ew). apply rbind_ok in Ew as (e & _ & Ew).
    injection Ew as <-. cbn [map window_code]. now rewrite (IH ws' Ews).
Qed.

Lemma formatted_codes parsed fd :
  Forall2 formatted parsed fd -> map item_code fd = map activation_code parsed.
Proof.
  induction 1 as [|e it parsed fd (a & b & da & db & _ & _ & _ & ->) _ IH];
    [reflexivity|]. cbn [map item_code]. now rewrite IH.
Qed.

Section SelectorFacts.

Variable soup_find_pre_codes : string -> option string.

(** C1. On the cache of a run, which is what [json.loads] reads from the
    text [create_json_object] made of the parsed page, the selector returns
    the code of the first window, in the order of the page, with
    [start <= now <= end], both ends included; it answers none-found when
    there is no window and when [now] is outside every window.  (The test
    [if not correct_code] cannot mistake a found code for none: the parser
    emits no empty code.) *)
Theorem selector_first_window (html text : string) (fd : list cache_item)
  (ws : list ActivationWindow) (now : datetime) :
  create_json_object (parse_html_content soup_find_pre_codes html) = Ok text ->
  format_entries (parse_html_content soup_find_pre_codes html) = Ok fd ->
  normalize_all fd = Ok ws ->
  datetime_ok now = true ->
  json_loads text = Ok (VList (map item_value fd)) /\
  map window_code ws =
    map activation_code (parse_html_content soup_find_pre_codes html) /\
  selector now (Some (VList (map item_value fd))) =
    Ok match first_window now ws with
       | Some w => Found (VStr (window_code w))
       | None => NoneFound
       end /\
  (ws = [] -> selector now (Some (VList (map item_value fd))) = Ok NoneFound) /\
  ((forall w, In w ws -> in_window now w = false) ->
   selector now (Some (VList (map item_value fd))) = Ok NoneFound).
Proof.
  intros Ht Hfd Hws Hnow.
  destruct (loaded_cache _ _ Ht) as (fd' & Hfd' & Hload & Hform).
  assert (fd' = fd) by congruence. subst fd'.
  assert (Hcodes : map window_code ws =
                   map activation_code (parse_html_content soup_find_pre_codes html)).
  { rewrite (normalize_all_codes fd ws Hws). now apply formatted_codes. }
  assert (Hsel : selector now (Some (VList (map item_value fd))) =
                 Ok match first_window now ws with
                    | Some w => Found (VStr (window_code w))
                    | None => NoneFound
                    end).
  { rewrite (selector_windows now fd ws Hnow Hws).
    destruct (first_window now ws) as [w|] eqn:F; [|reflexivity].
    apply find_some in F as [Hin _].
    assert (Hc : In (window_code w)
                    (map activation_code (parse_html_content soup_find_pre_codes html))).
    { rewrite <- Hcodes. now apply in_map. }
    apply in_map_iff in Hc as (e & Ee & He).
    pose proof (parse_html_content_entries soup_find_pre_codes html) as Hall.
    rewrite Forall_forall in Hall. destruct (Hall e He) as (_ & T & _).
    now rewrite <- Ee, T. }
  repeat split; try assumption.
  - intros ->. now rewrite Hsel.
  - intros Hout. rewrite Hsel. unfold first_window.
    destruct (find (in_window now) ws) as [w|] eqn:F; [|reflexivity].
    apply find_some in F as [Hin Hw]. rewrite (Hout w Hin) in Hw. discriminate.
Qed.

End SelectorFacts.

Example selector_first_window_witness :
  json_loads overlapping_payload = Ok (VList (map item_value overlapping_items)) /\
  map window_code overlapping_windows =
    map activation_code (parse_html_content toy_find_pre_codes overlapping_page) /\
  selector six_o_clock (Some (VList (map item_value overlapping_items))) =
    Ok (Found (VStr "A")).
Proof.
  destruct (selector_first_window toy_find_pre_codes overlapping_page overlapping_payload
              overlapping_items overlapping_windows six_o_clock
              eq_refl eq_refl eq_refl eq_refl) as (L & C & S & _).
  repeat split; assumption.
Defined.

(** ** The cache file *)

Lemma finish_keys_json k w sel : finish (with_keys_json k w) sel = finish w sel.
Proof. reflexivity. Qed.

Section CacheFile.

Variable soup_find_pre_codes : string -> option string.

(** C6. The run is the same whether the cache file is there or not, with
    any old content: in both branches the page is fetched first; and when
    the fetch gives a page whose ranges are well-formed, keys.json is
    overwritten with the text made of that page, and the selector works on
    what [json.loads] reads from that very text, the list of the entries
    just parsed.  The old content of the file occurs nowhere in the run. *)
Theorem cache_file_is_write_only (w : world) (k : option string) :
  main soup_find_pre_codes (with_keys_json k w) =
    main soup_find_pre_codes (with_keys_json None w) /\
  (exists t, fst (main soup_find_pre_codes (with_keys_json k w)) =
             HttpGet KEY_URL "filecxx/2.82" :: t) /\
  (forall html text,
      http w = Reply 200 html ->
      create_json_object (parse_html_content soup_find_pre_codes html) = Ok text ->
      keys_json_writable w = true ->
      exists fd,
        format_entries (parse_html_content soup_find_pre_codes html) = Ok fd /\
        json_loads text = Ok (VList (map item_value fd)) /\
        main soup_find_pre_codes (with_keys_json k w) =
          (HttpGet KEY_URL "filecxx/2.82" :: FileWrite "keys.json" text ::
             fst (finish w (selector (now_utc w) (Some (VList (map item_value fd))))),
           snd (finish w (selector (now_utc w) (Some (VList (map item_value fd))))))).
Proof.
  split; [|split].
  - now rewrite !main_run_fresh.
  - destruct (main_cases soup_find_pre_codes w)
      as [Hr | [(s & t & Hw & Hs & Hr) | [(h & Hw & Hc) | (h & t & fd & Hw & Hc & Hf)]]];
      [rewrite (main_fetch_raises _ (with_keys_json k w) Hr)
      |rewrite (main_other_status _ (with_keys_json k w) s t Hw Hr Hs)
      |rewrite (main_create_json_object_raises _ (with_keys_json k w) h _ Hw Hc eq_refl)
      |rewrite (main_fetched _ (with_keys_json k w) h t fd Hw Hc Hf)];
      cbn [fst]; eauto.
  - intros html text Hw Hc Hk.
    destruct (loaded_cache _ _ Hc) as (fd & Hfd & Hload & _).
    exists fd. do 2 (split; [assumption|]).
    rewrite (main_fetched _ (with_keys_json k w) html text fd Hw Hc Hfd).
    rewrite finish_keys_json. unfold write_trace.
    change (keys_json_writable (with_keys_json k w)) with (keys_json_writable w).
    change (now_utc (with_keys_json k w)) with (now_utc w).
    rewrite Hk. reflexivity.
Qed.

End CacheFile.

Example cache_file_is_write_only_witness :
  main toy_find_pre_codes
    (with_keys_json (Some "stale") (scenario_world six_o_clock)) =
  ([HttpGet KEY_URL "filecxx/2.82"; FileWrite "keys.json" scenario_payload;
    FileWrite "key.txt" "ABCDEF"; ClipboardCopy "ABCDEF"; MsgAlert AlertCopied],
   Ok tt).
Proof.
  destruct (cache_file_is_write_only toy_find_pre_codes (scenario_world six_o_clock)
              (Some "stale")) as (_ & _ & F).
  destruct (F scenario_page scenario_payload eq_refl eq_refl eq_refl)
    as (fd & Hfd & _ & E).
  vm_compute in Hfd. injection Hfd as <-. exact E.
Defined.
